(** * Age estimation service: a shallow embedding of [age_service]

    The development follows the Python package file by file:
    [exceptions.py], [image.py], [detector.py], [model.py],
    [validation.py], [config.py] and [api.py].  Python floats are
    binary64 values and are modelled by Rocq's primitive floats; Python
    integers are unbounded and are modelled by [Z].  Exceptions are
    modelled by an error monad whose error type lists the exception
    classes the package can raise or let through. *)

From Stdlib Require Import ZArith Bool List String Ascii Floats DecimalString Lia.
From Stdlib Require DecimalPos.
From stdpp Require Import base option list gmap strings.

Set Warnings "-inexact-float,-register-all,-clear-no-such-hyp".

Local Open Scope string_scope.
Local Open Scope Z_scope.

(** ** Exceptions ([exceptions.py] and the builtin classes that can escape) *)

Inductive exn : Type :=
| ValueError (msg : string)
| BinasciiError                      (* binascii.Error, a subclass of ValueError *)
| UnicodeDecodeError                 (* a subclass of ValueError *)
| StatisticsError (msg : string)     (* statistics.StatisticsError, a subclass of ValueError *)
| TypeError
| KeyError
| OverflowError
| FileNotFoundError
| ValidationError (msg : string) (field : option string)
| InferenceError (msg : string) (reason : option string).

(** [isinstance(e, ValueError)], as an [except ValueError] clause tests it. *)
Definition is_ValueError (e : exn) : bool :=
  match e with
  | ValueError _ | BinasciiError | UnicodeDecodeError | StatisticsError _ => true
  | _ => false
  end.

Definition is_TypeError (e : exn) : bool :=
  match e with TypeError => true | _ => false end.

Definition is_KeyError (e : exn) : bool :=
  match e with KeyError => true | _ => false end.

(** [str(exc)] for the exceptions whose text the package reads back. *)
Definition exn_str (e : exn) : string :=
  match e with
  | ValueError m | StatisticsError m | ValidationError m _ | InferenceError m _ => m
  | _ => ""
  end.

Inductive result (A : Type) : Type :=
| Ok (a : A)
| Raise (e : exn).
Arguments Ok {A} a.
Arguments Raise {A} e.

#[global] Instance result_ret : MRet result := fun A a => Ok a.

#[global] Instance result_bind : MBind result := fun A B k r =>
  match r with
  | Ok a => k a
  | Raise e => Raise e
  end.

(** [try: body  except (C1, C2): raise e'] where [catches] decides the
    [except] clause. *)
Definition try_except {A} (body : result A) (catches : exn -> bool) (handler : exn -> exn)
  : result A :=
  match body with
  | Ok a => Ok a
  | Raise e => if catches e then Raise (handler e) else Raise e
  end.

(** ** Python builtins used by the package

    The builtins and the standard library functions the package calls,
    as CPython 3.11 defines them. *)

Module Py.

(** *** Floats *)

Definition float_of_Z (z : Z) : float := SF2Prim (binary_normalize prec emax z 0 false).

(** [float(n)] and the implicit conversion in [n * 0.1]: round to nearest
    even, [OverflowError] when the result is not finite. *)
Definition float_of_int (z : Z) : result float :=
  let f := float_of_Z z in
  if PrimFloat.is_infinity f then Raise OverflowError else Ok f.

(** [int(f)]: truncation toward zero; [ValueError] on NaN,
    [OverflowError] on an infinity. *)
Definition int_of_float (f : float) : result Z :=
  match Prim2SF f with
  | S754_nan => Raise (ValueError "cannot convert float NaN to integer")
  | S754_infinity _ => Raise OverflowError
  | S754_zero _ => Ok 0
  | S754_finite s m e =>
      let a := if 0 <=? e then Z.pos m * 2 ^ e else Z.pos m / 2 ^ (- e) in
      Ok (if s then - a else a)
  end.

(** [int * float]: the integer operand is converted first. *)
Definition int_mul_float (z : Z) (f : float) : result float :=
  x ← float_of_int z; Ok (x * f)%float.

(** [min(a, b)] and [max(a, b)] on floats: the first argument is kept
    unless the second compares strictly smaller (larger). *)
Definition min (a b : float) : float := if (b <? a)%float then b else a.
Definition max (a b : float) : float := if (a <? b)%float then b else a.

(** *** Characters and strings

    A [str] is modelled by a string of 8-bit codes; a code of 128 or more
    stands for a character outside ASCII.  The conversions below read
    ASCII digits and ASCII white space, all that an image payload can
    hold once [raw.decode("ascii")] has succeeded. *)

Definition code (c : ascii) : Z := Z.of_N (N_of_ascii c).

Definition is_ascii (c : ascii) : bool := code c <? 128.

(** [Py_ISSPACE]: space, \t, \n, \v, \f, \r. *)
Definition is_space (c : ascii) : bool :=
  let n := code c in (n =? 32) || ((9 <=? n) && (n <=? 13)).

Definition is_digit (c : ascii) : bool :=
  let n := code c in (48 <=? n) && (n <=? 57).

Definition digit_val (c : ascii) : Z := code c - 48.

Definition lower (c : ascii) : ascii :=
  let n := code c in
  if (65 <=? n) && (n <=? 90) then ascii_of_N (Z.to_N (n + 32)) else c.

Fixpoint drop_space (l : list ascii) : list ascii :=
  match l with
  | c :: l' => if is_space c then drop_space l' else l
  | [] => []
  end.

Definition strip (l : list ascii) : list ascii :=
  rev (drop_space (rev (drop_space l))).

Definition chars (s : string) : list ascii := list_ascii_of_string s.

(** [s.split(",")]: the fields between the separators, at least one. *)
Fixpoint split_on (sep : ascii) (l : list ascii) (cur : list ascii) : list (list ascii) :=
  match l with
  | [] => [rev cur]
  | c :: l' =>
      if Ascii.eqb c sep then rev cur :: split_on sep l' []
      else split_on sep l' (c :: cur)
  end.

Definition split (s : string) (sep : ascii) : list string :=
  map string_of_list_ascii (split_on sep (chars s) []).

(** A run of decimal digits in which single underscores may separate
    digits ([1_000]).  Returns the digits read, most significant first. *)
Fixpoint digit_run (l : list ascii) (prev_digit : bool) (acc : list Z)
  : option (list Z * list ascii) :=
  match l with
  | c :: l' =>
      if is_digit c then digit_run l' true (digit_val c :: acc)
      else if Ascii.eqb c "_" then
        if prev_digit then
          match l' with
          | d :: _ => if is_digit d then digit_run l' false acc else None
          | [] => None
          end
        else None
      else Some (rev acc, l)
  | [] => Some (rev acc, [])
  end.

Definition digits_value (ds : list Z) : Z := fold_left (fun a d => 10 * a + d) ds 0.

Definition split_sign (l : list ascii) : bool * list ascii :=
  match l with
  | c :: l' =>
      if Ascii.eqb c "-" then (true, l')
      else if Ascii.eqb c "+" then (false, l')
      else (false, l)
  | [] => (false, [])
  end.

(** The default of [sys.get_int_max_str_digits()]. *)
Definition int_max_str_digits : Z := 4300.

Definition bad_int : exn := ValueError "invalid literal for int() with base 10".

(** [int(s)] for a [str] argument, base 10. *)
Definition int_of_str (s : string) : result Z :=
  let (neg, body) := split_sign (strip (chars s)) in
  match digit_run body false [] with
  | Some (d :: ds, []) =>
      if int_max_str_digits <? Z.of_nat (length (d :: ds)) then
        Raise (ValueError "Exceeds the limit for integer string conversion")
      else
        let v := digits_value (d :: ds) in
        Ok (if neg then - v else v)
  | _ => Raise bad_int
  end.

(** The binary64 value nearest to [m * 10 ^ e10] for [m > 0], ties to
    even.  A negative power of ten is divided out with 64 guard bits and
    a sticky bit, so that the single final rounding is the correct one. *)
Definition decimal_to_float (m : Z) (ndigits : Z) (e10 : Z) : float :=
  if m =? 0 then 0%float
  else if 310 <? e10 then infinity
  else if e10 + ndigits <? -330 then 0%float
  else if 0 <=? e10 then float_of_Z (m * 10 ^ e10)
  else
    let d := 10 ^ (- e10) in
    let s := Z.log2_up d + 64 in
    let q := (m * 2 ^ s) / d in
    let r := (m * 2 ^ s) mod d in
    let q' := if r =? 0 then q else Z.lor q 1 in
    SF2Prim (binary_normalize prec emax q' (- s) false).

Definition bad_float : exn := ValueError "could not convert string to float".

Definition lower_string (l : list ascii) : string :=
  string_of_list_ascii (map lower l).

(** The exponent part of a float literal: [e], an optional sign, digits. *)
Definition float_exponent (l : list ascii) : option Z :=
  match l with
  | [] => Some 0
  | c :: l' =>
      if Ascii.eqb (lower c) "e" then
        let (neg, body) := split_sign l' in
        match digit_run body false [] with
        | Some (d :: ds, []) =>
            let v := digits_value (d :: ds) in Some (if neg then - v else v)
        | _ => None
        end
      else None
  end.

(** [float(s)] for a [str] argument: decimal literals, [inf],
    [infinity] and [nan] in any letter case, surrounding white space. *)
Definition float_of_str (s : string) : result float :=
  let (neg, body) := split_sign (strip (chars s)) in
  let sgn (f : float) : float := if neg then (- f)%float else f in
  let word := lower_string body in
  if String.eqb word "inf" || String.eqb word "infinity" then Ok (sgn infinity)
  else if String.eqb word "nan" then Ok nan
  else
    match digit_run body false [] with
    | None => Raise bad_float
    | Some (ip, rest) =>
        let frac :=
          match rest with
          | c :: rest' =>
              if Ascii.eqb c "." then digit_run rest' false []
              else Some ([], rest)
          | [] => Some ([], [])
          end in
        match frac with
        | None => Raise bad_float
        | Some (fp, rest2) =>
            match (ip ++ fp)%list, float_exponent rest2 with
            | _ :: _, Some e =>
                let ds := (ip ++ fp)%list in
                Ok (sgn (decimal_to_float (digits_value ds)
                           (Z.of_nat (length ds)) (e - Z.of_nat (length fp))))
            | _, _ => Raise bad_float
            end
        end
    end.

(** *** Dynamically typed values, as [json.loads] produces them *)

Inductive value : Type :=
| PyNone
| PyBool (b : bool)
| PyInt (z : Z)
| PyFloat (f : float)
| PyStr (s : string)
| PyList (l : list value)
| PyDict (d : gmap string value).

(** [bool(v)]: truth value testing. *)
Definition bool_of (v : value) : bool :=
  match v with
  | PyNone => false
  | PyBool b => b
  | PyInt z => negb (z =? 0)
  | PyFloat f => negb (f =? 0)%float
  | PyStr s => negb (String.eqb s "")
  | PyList l => match l with [] => false | _ => true end
  | PyDict d => negb (bool_decide (d = ∅))
  end.

(** [float(v)]. *)
Definition float_of (v : value) : result float :=
  match v with
  | PyFloat f => Ok f
  | PyInt z => float_of_int z
  | PyBool b => Ok (if b then 1 else 0)%float
  | PyStr s => float_of_str s
  | PyNone | PyList _ | PyDict _ => Raise TypeError
  end.

(** [int(v)]. *)
Definition int_of (v : value) : result Z :=
  match v with
  | PyInt z => Ok z
  | PyBool b => Ok (if b then 1 else 0)
  | PyFloat f => int_of_float f
  | PyStr s => int_of_str s
  | PyNone | PyList _ | PyDict _ => Raise TypeError
  end.

(** [d[key]]: [KeyError] when the key is missing. *)
Definition getitem (d : gmap string value) (key : string) : result value :=
  match d !! key with
  | Some v => Ok v
  | None => Raise KeyError
  end.

(** [d.get(key, default)]. *)
Definition get (d : gmap string value) (key : string) (default : value) : value :=
  match d !! key with
  | Some v => v
  | None => default
  end.

(** *** [base64.b64decode(data, validate=True)] *)

Definition b64_index (c : ascii) : option Z :=
  let n := code c in
  if (65 <=? n) && (n <=? 90) then Some (n - 65)
  else if (97 <=? n) && (n <=? 122) then Some (n - 71)
  else if (48 <=? n) && (n <=? 57) then Some (n + 4)
  else if n =? 43 then Some 62
  else if n =? 47 then Some 63
  else None.

Definition byte_of (z : Z) : ascii := ascii_of_N (Z.to_N (z mod 256)).

(** The decoding loop of [binascii.a2b_base64] in strict mode.  [out] is
    the decoded prefix in reverse. *)
Fixpoint a2b_loop (l : list ascii) (quad_pos leftchar pads : Z) (padding_started : bool)
    (out : list ascii) : result (list ascii) :=
  match l with
  | [] => if quad_pos =? 0 then Ok (rev out) else Raise BinasciiError
  | c :: l' =>
      if Ascii.eqb c "=" then
        if 2 <=? quad_pos then
          if 4 <=? quad_pos + (pads + 1) then
            match l' with
            | [] => Ok (rev out)
            | _ :: _ => Raise BinasciiError
            end
          else a2b_loop l' quad_pos leftchar (pads + 1) true out
        else a2b_loop l' quad_pos leftchar pads true out
      else
        match b64_index c with
        | None => Raise BinasciiError
        | Some v =>
            if padding_started then Raise BinasciiError
            else if quad_pos =? 0 then a2b_loop l' 1 v 0 false out
            else if quad_pos =? 1 then
              a2b_loop l' 2 (Z.land v 15) 0 false
                (byte_of (Z.lor (Z.shiftl leftchar 2) (Z.shiftr v 4)) :: out)
            else if quad_pos =? 2 then
              a2b_loop l' 3 (Z.land v 3) 0 false
                (byte_of (Z.lor (Z.shiftl leftchar 4) (Z.shiftr v 2)) :: out)
            else
              a2b_loop l' 0 0 0 false
                (byte_of (Z.lor (Z.shiftl leftchar 6) v) :: out)
        end
  end.

(** The argument is a [str]: it is first encoded to ASCII bytes
    ([ValueError] otherwise); leading padding is refused. *)
Definition b64decode (data : string) : result (list ascii) :=
  let l := chars data in
  if negb (forallb is_ascii l) then
    Raise (ValueError "string argument should contain only ASCII characters")
  else
    match l with
    | c :: _ => if Ascii.eqb c "=" then Raise BinasciiError else a2b_loop l 0 0 0 false []
    | [] => a2b_loop l 0 0 0 false []
    end.

(** *** [base64.b64encode(data)] *)

Definition b64_char (v : Z) : ascii :=
  ascii_of_N (Z.to_N (if v <? 26 then v + 65
                      else if v <? 52 then v + 71
                      else if v <? 62 then v - 4
                      else if v =? 62 then 43 else 47)).

Fixpoint b64encode (l : list ascii) : list ascii :=
  match l with
  | [] => []
  | [a] =>
      let n := code a in
      [b64_char (n / 4); b64_char ((n mod 4) * 16); "="%char; "="%char]
  | [a; b] =>
      let n := code a * 256 + code b in
      [b64_char (n / 1024); b64_char ((n / 16) mod 64); b64_char ((n mod 16) * 4); "="%char]
  | a :: b :: c :: rest =>
      let n := code a * 65536 + code b * 256 + code c in
      b64_char (n / 262144) :: b64_char ((n / 4096) mod 64)
        :: b64_char ((n / 64) mod 64) :: b64_char (n mod 64) :: b64encode rest
  end.

(** [raw.decode("ascii")]. *)
Definition decode_ascii (raw : list ascii) : result string :=
  if forallb is_ascii raw then Ok (string_of_list_ascii raw)
  else Raise UnicodeDecodeError.

End Py.

(** ** [image.py] *)

Module Image.

Record SimpleImage : Type := {
  width : Z;
  height : Z;
  intensity : float
}.

Definition size (self : SimpleImage) : Z * Z := (width self, height self).

Definition crop_box (self : SimpleImage) (x y width' height' : Z) : SimpleImage :=
  let new_width := Z.max 1 (Z.min width' (width self - x)) in
  let new_height := Z.max 1 (Z.min height' (height self - y)) in
  {| width := new_width; height := new_height; intensity := intensity self |}.

Definition resize (self : SimpleImage) (size' : Z * Z) : SimpleImage :=
  let '(width', height') := size' in
  {| width := width'; height := height'; intensity := intensity self |}.

Definition mean_intensity (self : SimpleImage) : float := intensity self.

Record LoadedImage : Type := {
  image : SimpleImage;
  raw_bytes : list ascii
}.

Definition loaded_size (self : LoadedImage) : Z * Z := size (image self).

(** Unpacking [a, b, c = fields]: [ValueError] unless there are three. *)
Definition unpack3 (fields : list string) : result (string * string * string) :=
  match fields with
  | [a; b; c] => Ok (a, b, c)
  | _ => Raise (ValueError "wrong number of values to unpack")
  end.

Definition msg_payload_shape : string := "image payload must be width,height,intensity".
Definition msg_dimensions : string := "image dimensions must be positive".
Definition msg_intensity : string := "intensity must be between 0 and 255".
Definition msg_base64 : string := "Invalid base64 encoded image".
Definition msg_ascii : string := "Image payload must be ASCII".

(** The body of the [try] block of [_parse_payload]. *)
Definition parse_fields (payload : string) : result (Z * Z * float) :=
  '(width_str, height_str, intensity_str) ← unpack3 (Py.split payload ",");
  w ← Py.int_of_str width_str;
  h ← Py.int_of_str height_str;
  i ← Py.float_of_str intensity_str;
  Ok (w, h, i).

Definition _parse_payload (payload : string) : result SimpleImage :=
  '(width', height', intensity') ←
    try_except (parse_fields payload)
      (fun e => is_ValueError e || is_TypeError e)
      (fun _ => ValueError msg_payload_shape);
  if (width' <=? 0) || (height' <=? 0) then
    Raise (ValueError msg_dimensions)
  else if negb ((0 <=? intensity')%float && (intensity' <=? 255)%float) then
    Raise (ValueError msg_intensity)
  else
    Ok {| width := width'; height := height'; intensity := intensity' |}.

Definition load_base64_image (data : string) : result LoadedImage :=
  raw ← try_except (Py.b64decode data)
           (fun e => is_ValueError e || is_TypeError e)
           (fun _ => ValueError msg_base64);
  payload ← try_except (Py.decode_ascii raw)
               (fun e => match e with UnicodeDecodeError => true | _ => false end)
               (fun _ => ValueError msg_ascii);
  image' ← _parse_payload payload;
  Ok {| image := image'; raw_bytes := raw |}.

Definition normalise_image (image' : SimpleImage) : SimpleImage :=
  resize image' (224, 224).

End Image.

(** ** [detector.py] *)

Module Detector.
Import Image.

Record FaceBoundingBox : Type := {
  x : Z;
  y : Z;
  width : Z;
  height : Z
}.

Definition as_tuple (self : FaceBoundingBox) : Z * Z * Z * Z :=
  (x self, y self, width self, height self).

Record FaceDetection : Type := {
  bounding_box : FaceBoundingBox;
  confidence : float;
  occluded : bool
}.

(** The detector interface: a name and [detect_faces(image, hints=...)].
    An implementation may raise. *)
Record BaseFaceDetector : Type := {
  name : string;
  detect_faces : SimpleImage -> option (list FaceBoundingBox) -> result (list FaceDetection)
}.

(** [int(n * f)] for an integer [n] and a float constant [f]. *)
Definition scaled (n : Z) (f : float) : result Z :=
  p ← Py.int_mul_float n f; Py.int_of_float p.

Definition SimpleFaceDetector_detect_faces
    (image' : SimpleImage) (hints : option (list FaceBoundingBox))
  : result (list FaceDetection) :=
  match hints with
  | Some (h :: hs) =>
      Ok (map (fun hint =>
                 {| bounding_box := hint; confidence := 0.9%float; occluded := false |})
            (h :: hs))
  | Some [] | None =>
      let '(width', height') := Image.size image' in
      bx ← scaled width' 0.1%float;
      by' ← scaled height' 0.1%float;
      bw ← scaled width' 0.8%float;
      bh ← scaled height' 0.8%float;
      let box := {| x := bx; y := by'; width := bw; height := bh |} in
      Ok [ {| bounding_box := box; confidence := 0.5%float; occluded := false |} ]
  end.

Definition SimpleFaceDetector : BaseFaceDetector :=
  {| name := "simple"; detect_faces := SimpleFaceDetector_detect_faces |}.

Definition crop_to_face (image' : SimpleImage) (detection : FaceDetection) : SimpleImage :=
  let '(x', y', w, h) := as_tuple (bounding_box detection) in
  crop_box image' x' y' w h.

End Detector.

(** ** [statistics.NormalDist], as [model.py] uses it

    [math.log] belongs to the platform's C library and is the one
    operation left abstract; the quantile routine only applies it to
    probabilities, where it is defined.  [sqrt] is the correctly rounded
    IEEE operation. *)

Module Statistics.
Local Open Scope float_scope.

Section Libm.
Variable log : float -> float.

(** [_normal_dist_inv_cdf(p, mu, sigma)] of [Lib/statistics.py]: Wichura's
    algorithm AS241, a rational approximation per region of [p]. *)
Definition _normal_dist_inv_cdf (p mu sigma : float) : float :=
  let q := p - 0.5 in
  if abs q <=? 0.425 then
    let r := 0.180625 - q * q in
    let num := (((((((2.5090809287301226727e+3 * r +
                      3.3430575583588128105e+4) * r +
                      6.7265770927008700853e+4) * r +
                      4.5921953931549871457e+4) * r +
                      1.3731693765509461125e+4) * r +
                      1.9715909503065514427e+3) * r +
                      1.3314166789178437745e+2) * r +
                      3.3871328727963666080e+0) * q in
    let den := (((((((5.2264952788528545610e+3 * r +
                      2.8729085735721942674e+4) * r +
                      3.9307895800092710610e+4) * r +
                      2.1213794301586595867e+4) * r +
                      5.3941960214247511077e+3) * r +
                      6.8718700749205790830e+2) * r +
                      4.2313330701600911252e+1) * r +
                      1.0) in
    let x := num / den in
    mu + (x * sigma)
  else
    let r := if q <=? 0.0 then p else 1.0 - p in
    let r := sqrt (- log r) in
    let '(num, den) :=
      if r <=? 5.0 then
        let r := r - 1.6 in
        ((((((((7.74545014278341407640e-4 * r +
                2.27238449892691845833e-2) * r +
                2.41780725177450611770e-1) * r +
                1.27045825245236838258e+0) * r +
                3.64784832476320460504e+0) * r +
                5.76949722146069140550e+0) * r +
                4.63033784615654529590e+0) * r +
                1.42343711074968357734e+0),
         (((((((1.05075007164441684324e-9 * r +
                5.47593808499534494600e-4) * r +
                1.51986665636164571966e-2) * r +
                1.48103976427480074590e-1) * r +
                6.89767334985100004550e-1) * r +
                1.67638483018380384940e+0) * r +
                2.05319162663775882187e+0) * r +
                1.0))
      else
        let r := r - 5.0 in
        ((((((((2.01033439929228813265e-7 * r +
                2.71155556874348757815e-5) * r +
                1.24266094738807843860e-3) * r +
                2.65321895265761230930e-2) * r +
                2.96560571828504891230e-1) * r +
                1.78482653991729133580e+0) * r +
                5.46378491116411436990e+0) * r +
                6.65790464350110377720e+0),
         (((((((2.04426310338993978564e-15 * r +
                1.42151175831644588870e-7) * r +
                1.84631831751005468180e-5) * r +
                7.86869131145613259100e-4) * r +
                1.48753612908506148525e-2) * r +
                1.36929880922735805310e-1) * r +
                5.99832206555887937690e-1) * r +
                1.0)) in
    let x := num / den in
    let x := if q <? 0.0 then - x else x in
    mu + (x * sigma).

Record NormalDist : Type := { _mu : float; _sigma : float }.

(** [NormalDist(mu=..., sigma=...)]. *)
Definition NormalDist_init (mu sigma : float) : result NormalDist :=
  if sigma <? 0.0 then Raise (StatisticsError "sigma must be non-negative")
  else Ok {| _mu := mu; _sigma := sigma |}.

Definition inv_cdf (self : NormalDist) (p : float) : result float :=
  if (p <=? 0.0) || (1.0 <=? p) then
    Raise (StatisticsError "p must be in the range 0.0 < p < 1.0")
  else if _sigma self <=? 0.0 then
    Raise (StatisticsError "cdf() not defined when sigma at or below zero")
  else Ok (_normal_dist_inv_cdf p (_mu self) (_sigma self)).

End Libm.
End Statistics.

(** ** [model.py] *)

Module Model.
Import Image Statistics.
Local Open Scope float_scope.

Record AgePrediction : Type := {
  value : float;
  uncertainty : float
}.

(** The [AgeModel] protocol. *)
Record AgeModel : Type := {
  model_name : string;
  model_version : string;
  predict : SimpleImage -> result AgePrediction
}.

Definition CalibratedLinearModel (slope intercept residual_std : float) : AgeModel :=
  {| model_name := "calibrated-linear";
     model_version := "1.0.0";
     predict := fun image' =>
       let mean_intensity' := mean_intensity image' in
       let value' := slope * (mean_intensity' / 255.0) + intercept in
       Ok {| value := value'; uncertainty := residual_std |} |}.

Section Libm.
Variable log : float -> float.

Definition confidence_interval (prediction : AgePrediction) (level : float)
  : result (float * float) :=
  let level := Py.max (Py.min level 0.999) 0.0 in
  if level <=? 0 then Ok (value prediction, value prediction)
  else
    dist ← NormalDist_init (value prediction) (uncertainty prediction);
    let tail := (1 - level) / 2 in
    lower ← inv_cdf log dist tail;
    upper ← inv_cdf log dist (1 - tail);
    Ok (lower, upper).

End Libm.
End Model.

(** ** [config.py] *)

Module Config.

Record ModelMetadata : Type := {
  name : string;
  version : string;
  mean_absolute_error : float;
  calibration_date : string;
  fairness_warnings : list string;
  limitations : list string
}.

Record AgeServiceConfig : Type := {
  min_image_edge : Z;
  detector_name : string;
  model_metadata : ModelMetadata;
  default_confidence_level : float;
  return_face_bbox_default : bool
}.

Definition DEFAULT_CONFIG_PATH : string := "config/age_service.json".

(** The configuration files on disk: a path is mapped to the
    configuration that [AgeServiceConfig.from_mapping] builds from the
    JSON document stored there, when the file exists. *)
Definition files : Type := string -> option AgeServiceConfig.

Definition load_config (fs : files) (path : option string) : result AgeServiceConfig :=
  let config_path :=
    match path with
    | Some p => if String.eqb p "" then DEFAULT_CONFIG_PATH else p
    | None => DEFAULT_CONFIG_PATH
    end in
  match fs config_path with
  | None => Raise FileNotFoundError
  | Some cfg => Ok cfg
  end.

End Config.

(** ** [validation.py] *)

Module Validation.
Import Config Detector.

Record ValidatedRequest : Type := {
  image_base64 : string;
  consent : bool;
  confidence_level : float;
  return_face_bbox : bool;
  detector_hints : list FaceBoundingBox
}.

Definition _coerce_confidence_level (value : Py.value) (field : string) : result float :=
  level ← try_except (Py.float_of value)
             (fun e => is_TypeError e || is_ValueError e)
             (fun _ => ValidationError "confidence level must be a number" (Some field));
  if negb ((0 <? level)%float && (level <? 1)%float) then
    Raise (ValidationError "confidence level must be in (0, 1)" (Some field))
  else Ok level.

(** One iteration of the loop over [value] in [_parse_detector_hints]. *)
Definition parse_hint_entry (entry : Py.value) (field : string) : result FaceBoundingBox :=
  match entry with
  | Py.PyDict d =>
      try_except
        (vx ← Py.getitem d "x"; x' ← Py.int_of vx;
         vy ← Py.getitem d "y"; y' ← Py.int_of vy;
         vw ← Py.getitem d "width"; width' ← Py.int_of vw;
         vh ← Py.getitem d "height"; height' ← Py.int_of vh;
         Ok {| x := x'; y := y'; width := width'; height := height' |})
        (fun e => is_KeyError e || is_TypeError e || is_ValueError e)
        (fun _ => ValidationError "invalid detector hint" (Some field))
  | _ => Raise (ValidationError "detector_hints entries must be objects" (Some field))
  end.

Fixpoint parse_hint_entries (entries : list Py.value) (field : string)
  : result (list FaceBoundingBox) :=
  match entries with
  | [] => Ok []
  | entry :: rest =>
      hint ← parse_hint_entry entry field;
      hints ← parse_hint_entries rest field;
      Ok (hint :: hints)
  end.

Definition _parse_detector_hints (value : Py.value) (field : string)
  : result (list FaceBoundingBox) :=
  match value with
  | Py.PyNone => Ok []
  | Py.PyList entries => parse_hint_entries entries field
  | _ => Raise (ValidationError "detector_hints must be a list" (Some field))
  end.

Definition validate_payload (payload : Py.value) (config : AgeServiceConfig)
  : result ValidatedRequest :=
  match payload with
  | Py.PyDict d =>
      consent' ← try_except (v ← Py.getitem d "consent"; Ok (Py.bool_of v))
                   is_KeyError
                   (fun _ => ValidationError "consent is required" (Some "consent"));
      if negb consent' then
        Raise (ValidationError "consent must be granted" (Some "consent"))
      else
        image_raw ← try_except (Py.getitem d "image_base64")
                      is_KeyError
                      (fun _ => ValidationError "image_base64 is required"
                                  (Some "image_base64"));
        match image_raw with
        | Py.PyStr (String c s) =>
            let image_base64' := String c s in
            let confidence_level_raw :=
              Py.get d "confidence_level" (Py.PyFloat (default_confidence_level config)) in
            confidence_level' ←
              _coerce_confidence_level confidence_level_raw "confidence_level";
            let return_face_bbox_raw :=
              Py.get d "return_face_bbox" (Py.PyBool (return_face_bbox_default config)) in
            let return_face_bbox' := Py.bool_of return_face_bbox_raw in
            let hints_raw := Py.get d "detector_hints" Py.PyNone in
            detector_hints' ← _parse_detector_hints hints_raw "detector_hints";
            Ok {| image_base64 := image_base64';
                  consent := consent';
                  confidence_level := confidence_level';
                  return_face_bbox := return_face_bbox';
                  detector_hints := detector_hints' |}
        | _ =>
            Raise (ValidationError "image_base64 must be a non-empty string"
                     (Some "image_base64"))
        end
  | _ => Raise (ValidationError "payload must be an object" None)
  end.

End Validation.

(** ** [api.py] *)

Module Api.
Import Image Detector Model Config Validation.

(** [str(n)] for an integer, as an f-string renders it. *)
Definition str_of_int (n : Z) : string :=
  DecimalString.NilZero.string_of_int (Z.to_int n).

Definition _resolve_detector (config : AgeServiceConfig) (provided : option BaseFaceDetector)
  : BaseFaceDetector :=
  match provided with
  | Some d => d
  | None =>
      if String.eqb (detector_name config) (Detector.name SimpleFaceDetector)
      then SimpleFaceDetector
      else SimpleFaceDetector
  end.

Definition _resolve_model (config : AgeServiceConfig) (provided : option AgeModel) : AgeModel :=
  match provided with
  | Some m => m
  | None => CalibratedLinearModel 60.0 5.0 7.5
  end.

Definition _validate_image_size (image' : SimpleImage) (config : AgeServiceConfig)
  : result unit :=
  let '(width', height') := Image.size image' in
  if Z.min width' height' <? min_image_edge config then
    Raise (ValidationError
             ("image must be at least " ++ str_of_int (min_image_edge config)
                ++ "px on each edge")%string
             (Some "image_base64"))
  else Ok tt.

(** The response dictionary. *)
Record interval_out : Type := {
  level : float;
  lower : float;
  upper : float
}.

Record age_out : Type := {
  age_value : float;
  confidence_interval_out : interval_out
}.

Record model_out : Type := {
  out_name : string;
  out_version : string;
  out_mean_absolute_error : float;
  out_calibration_date : string
}.

Record metadata_out : Type := {
  detector : string;
  model : model_out;
  out_fairness_warnings : list string;
  out_limitations : list string
}.

Record bbox_out : Type := {
  out_x : Z;
  out_y : Z;
  out_width : Z;
  out_height : Z
}.

Record response : Type := {
  status : string;
  age : age_out;
  metadata : metadata_out;
  face_bbox : option bbox_out
}.

Section Libm.
Variable log : float -> float.

Definition run_inference (fs : files) (payload : Py.value) (config_path : option string)
    (detector' : option BaseFaceDetector) (model' : option AgeModel) : result response :=
  config ← load_config fs config_path;
  request ← validate_payload payload config;
  loaded ← try_except (load_base64_image (image_base64 request))
              is_ValueError
              (fun exc => ValidationError (exn_str exc) (Some "image_base64"));
  _ ← _validate_image_size (image loaded) config;
  let detector_impl := _resolve_detector config detector' in
  detections ← detect_faces detector_impl (image loaded) (Some (detector_hints request));
  match detections with
  | [] => Raise (InferenceError "no faces detected" (Some "no_faces"))
  | _ :: _ :: _ => Raise (InferenceError "multiple faces detected" (Some "multiple_faces"))
  | [detection] =>
      if occluded detection then
        Raise (InferenceError "primary face appears occluded" (Some "occluded"))
      else
        let cropped := crop_to_face (image loaded) detection in
        let normalised := normalise_image cropped in
        let model_impl := _resolve_model config model' in
        prediction ← predict model_impl normalised;
        '(lower', upper') ← confidence_interval log prediction (confidence_level request);
        Ok {| status := "success";
              age := {| age_value := value prediction;
                        confidence_interval_out :=
                          {| level := confidence_level request;
                             lower := lower';
                             upper := upper' |} |};
              metadata :=
                {| detector := Detector.name detector_impl;
                   model :=
                     {| out_name := Config.name (model_metadata config);
                        out_version := version (model_metadata config);
                        out_mean_absolute_error :=
                          mean_absolute_error (model_metadata config);
                        out_calibration_date :=
                          calibration_date (model_metadata config) |};
                   out_fairness_warnings := fairness_warnings (model_metadata config);
                   out_limitations := limitations (model_metadata config) |};
              face_bbox :=
                if return_face_bbox request then
                  let '(bx, by', bw, bh) := as_tuple (bounding_box detection) in
                  Some {| out_x := bx; out_y := by'; out_width := bw; out_height := bh |}
                else None |}
  end.

End Libm.
End Api.

(** ** Fixtures: the objects of [tests/test_inference.py]

    The configuration is one the tests accept: a minimum edge of 128
    pixels, the model name they assert, non-empty warnings and
    limitations. *)

Module Fixtures.
Import Image Detector Model Config Validation Api.

Definition test_config : AgeServiceConfig :=
  {| min_image_edge := 128;
     detector_name := "simple";
     model_metadata :=
       {| Config.name := "CalibratedLinearNet";
          version := "1.0.0";
          mean_absolute_error := 4.2%float;
          calibration_date := "2024-01-01";
          fairness_warnings := ["Accuracy varies across demographic groups"];
          limitations := ["Synthetic images only"] |};
     default_confidence_level := 0.9%float;
     return_face_bbox_default := false |}.

Definition test_files : files :=
  fun p => if String.eqb p DEFAULT_CONFIG_PATH then Some test_config else None.

(** [DetectorStub(detections)]. *)
Definition DetectorStub (detections : list FaceDetection) : BaseFaceDetector :=
  {| Detector.name := "stub"; detect_faces := fun _ _ => Ok detections |}.

(** [ModelStub(value, uncertainty)]. *)
Definition ModelStub (value' uncertainty' : float) : AgeModel :=
  {| model_name := "stub-model";
     model_version := "0.0.1";
     predict := fun _ => Ok {| value := value'; uncertainty := uncertainty' |} |}.

Definition dict (kvs : list (string * Py.value)) : Py.value :=
  Py.PyDict (list_to_map kvs).

(** [_encode_image()]: the base64 text of ["256,256,180.0"]. *)
Definition encoded_image : string := "MjU2LDI1NiwxODAuMA==".

(** [_encode_image(size, intensity)] for an intensity already rendered
    as text: the base64 text of ["<width>,<height>,<intensity>"]. *)
Definition _encode_image (size : Z * Z) (intensity_text : string) : string :=
  let '(width', height') := size in
  string_of_list_ascii
    (Py.b64encode (Py.chars (str_of_int width' ++ "," ++ str_of_int height' ++ ","
                               ++ intensity_text)%string)).

Definition hint_entry (x' y' w h : Z) : Py.value :=
  dict [("x", Py.PyInt x'); ("y", Py.PyInt y');
        ("width", Py.PyInt w); ("height", Py.PyInt h)].

Definition base_payload : Py.value :=
  dict [("image_base64", Py.PyStr encoded_image); ("consent", Py.PyBool true)].

Definition one_hint_payload : Py.value :=
  dict [("image_base64", Py.PyStr encoded_image); ("consent", Py.PyBool true);
        ("confidence_level", Py.PyFloat 0.5%float);
        ("detector_hints", Py.PyList [hint_entry 10 10 100 120])].

Definition test_bbox : FaceBoundingBox := {| x := 5; y := 5; width := 100; height := 100 |}.

Definition detection_of (occluded' : bool) : FaceDetection :=
  {| bounding_box := test_bbox; confidence := 0.9%float; occluded := occluded' |}.

(** The identity stands in for [math.log] where no logarithm is taken. *)
Definition no_log : float -> float := fun r => r.

End Fixtures.

(** * Vocabulary of the statements *)

Import Image Detector Model Config Validation Api.

Arguments _resolve_detector : simpl never.
Arguments _resolve_model : simpl never.

(** The exceptions [validate_payload] can end with: a [ValidationError]
    on one of the fields it names, or an [OverflowError] that escapes a
    numeric conversion. *)
Definition validation_outcome (fields : list (option string)) (e : exn) : Prop :=
  e = OverflowError \/ exists m f, e = ValidationError m f /\ f ∈ fields.

Definition validated_fields : list (option string) :=
  [None; Some "consent"; Some "image_base64"; Some "confidence_level"; Some "detector_hints"].

(** The messages of the [ValueError]s of [load_base64_image]. *)
Definition decoding_messages : list string :=
  [msg_base64; msg_ascii; msg_payload_shape; msg_dimensions; msg_intensity].

(** One step of the right shift halves the mantissa and remembers in the
    round and sticky bits whether anything non-zero was dropped. *)
Definition shr_inv (m j : Z) (mrs : shr_record) : Prop :=
  shr_m mrs = m / 2 ^ j /\ (m mod 2 ^ j = 0 -> shr_r mrs = false /\ shr_s mrs = false).

(** The binary64 numbers 1 and 2. *)
Definition SF_one : spec_float := S754_finite false (2 ^ 52)%positive (-52).

(** The binary64 number written [0.999]. *)
Definition SF_0999 : spec_float := S754_finite false 8998192055486251%positive (-53).

Definition SF_two : spec_float := S754_finite false (2 ^ 52)%positive (-51).

(** A float is a zero or a normalised number of exponent at most 971:
    what the conversion of an integer yields when it does not overflow. *)
Definition ordinary (x : spec_float) : Prop :=
  (exists s, x = S754_zero s) \/
  (exists s m e, x = S754_finite s m e /\ Z.pos (digits2_pos m) = 53 /\ -112 <= e <= 971).

(** The keys of the payload that [validate_payload] reads. *)
Definition payload_keys : list string :=
  ["consent"; "image_base64"; "confidence_level"; "return_face_bbox"; "detector_hints"].

(** An entry of [detector_hints] that yields the box [hint]: an object
    whose four coordinates are present and convert with [int]. *)
Definition hint_of_entry (entry : Py.value) (hint : FaceBoundingBox) : Prop :=
  exists d vx vy vw vh,
    entry = Py.PyDict d /\
    d !! "x" = Some vx /\ Py.int_of vx = Ok (x hint) /\
    d !! "y" = Some vy /\ Py.int_of vy = Ok (y hint) /\
    d !! "width" = Some vw /\ Py.int_of vw = Ok (Detector.width hint) /\
    d !! "height" = Some vh /\ Py.int_of vh = Ok (Detector.height hint).

(** The configuration [config] with another detector name. *)
Definition with_detector_name (name' : string) (config : AgeServiceConfig) : AgeServiceConfig :=
  {| min_image_edge := min_image_edge config;
     detector_name := name';
     model_metadata := model_metadata config;
     default_confidence_level := default_confidence_level config;
     return_face_bbox_default := return_face_bbox_default config |}.

(** The integers [0], ..., [n - 1]. *)
Definition range (n : nat) : list Z := map Z.of_nat (seq 0 n).

(** The decimal digits of a number, most significant first. *)
Fixpoint uint_digits (u : Decimal.uint) : list Z :=
  match u with
  | Decimal.Nil => []
  | Decimal.D0 u => 0 :: uint_digits u
  | Decimal.D1 u => 1 :: uint_digits u
  | Decimal.D2 u => 2 :: uint_digits u
  | Decimal.D3 u => 3 :: uint_digits u
  | Decimal.D4 u => 4 :: uint_digits u
  | Decimal.D5 u => 5 :: uint_digits u
  | Decimal.D6 u => 6 :: uint_digits u
  | Decimal.D7 u => 7 :: uint_digits u
  | Decimal.D8 u => 8 :: uint_digits u
  | Decimal.D9 u => 9 :: uint_digits u
  end.

(** A character of plain text: ASCII and not the separator of the
    image payload. *)
Definition plain (c : ascii) : Prop := Py.is_ascii c = true /\ Ascii.eqb c "," = false.

(** Linear arithmetic with divisions by constants. *)
Ltac div_lia := Z.div_mod_to_equations; lia.

(** A binary64 number between the integers [A] and [B]: a zero (when
    [A <= 0]) or a positive number in canonical form whose exponent is
    not positive. *)
Definition within (A B : Z) (x : spec_float) : Prop :=
  match x with
  | S754_zero _ => A <= 0
  | S754_finite false m e =>
      -1074 <= e <= 0 /\ Z.pos (digits2_pos m) <= 53 /\
      (Z.pos (digits2_pos m) = 53 \/ e = -1074) /\
      A * 2 ^ (- e) <= Z.pos m <= B * 2 ^ (- e)
  | _ => False
  end.

(** The binary64 numbers 255, 60, 5 and 65. *)
Definition SF_255 : spec_float := S754_finite false 8972014882652160 (-45).
Definition SF_60 : spec_float := S754_finite false 8444249301319680 (-47).
Definition SF_5 : spec_float := S754_finite false 5629499534213120 (-50).
Definition SF_65 : spec_float := S754_finite false 4573968371548160 (-46).

(** * Properties *)

(** ** The error monad *)

Lemma bind_Ok {A B} (a : A) (k : A -> result B) : (Ok a ≫= k) = k a.
Proof. reflexivity. Qed.

Lemma bind_Raise {A B} (e : exn) (k : A -> result B) : (Raise e ≫= k) = Raise e.
Proof. reflexivity. Qed.

Lemma bind_Ok_inv {A B} (r : result A) (k : A -> result B) (b : B) :
  (r ≫= k) = Ok b -> exists a, r = Ok a /\ k a = Ok b.
Proof. destruct r as [a|e]; [eauto | discriminate]. Qed.

Lemma try_except_Ok {A} (a : A) catches handler :
  try_except (Ok a) catches handler = Ok a.
Proof. reflexivity. Qed.

Lemma try_except_Ok_inv {A} (r : result A) catches handler (a : A) :
  try_except r catches handler = Ok a -> r = Ok a.
Proof. destruct r as [|e]; simpl; [congruence | destruct (catches e); discriminate]. Qed.

(** ** Cropping ([SimpleImage.crop_box]) *)

(** C7: the width of a crop is exactly [max(1, min(w, W - x))] and its
    height exactly [max(1, min(h, H - y))], for every image and every
    integer crop request. *)
Theorem crop_box_dimensions (img : SimpleImage) (x y w h : Z) :
  Image.width (crop_box img x y w h) = Z.max 1 (Z.min w (Image.width img - x)) /\
  Image.height (crop_box img x y w h) = Z.max 1 (Z.min h (Image.height img - y)).
Proof. split; reflexivity. Qed.

(** C3, as stated, fails: a crop whose offset lies on or past the right
    edge still has width 1, which exceeds the remaining extent [W - x]. *)
Lemma crop_box_exceeds_remaining_extent :
  ~ (forall (img : SimpleImage) (x y w h : Z),
        0 < Image.width img -> 0 < Image.height img ->
        0 < Image.width (crop_box img x y w h) /\
        0 < Image.height (crop_box img x y w h) /\
        Image.width (crop_box img x y w h) <= Image.width img - x /\
        Image.height (crop_box img x y w h) <= Image.height img - y).
Proof.
  intros H.
  specialize (H {| Image.width := 10; Image.height := 10; intensity := 0%float |}
                10 0 5 5 eq_refl eq_refl).
  simpl in H. lia.
Qed.

(** C3, amended: a crop always has positive width and height, never
    exceeds [max(1, W - x)] by [max(1, H - y)], and stays within the
    remaining extent [W - x] (resp. [H - y]) whenever the offset lies
    inside the image. *)
Theorem crop_box_within_extent (img : SimpleImage) (x y w h : Z) :
  0 < Image.width (crop_box img x y w h) /\
  0 < Image.height (crop_box img x y w h) /\
  Image.width (crop_box img x y w h) <= Z.max 1 (Image.width img - x) /\
  Image.height (crop_box img x y w h) <= Z.max 1 (Image.height img - y) /\
  (x < Image.width img -> Image.width (crop_box img x y w h) <= Image.width img - x) /\
  (y < Image.height img -> Image.height (crop_box img x y w h) <= Image.height img - y).
Proof. simpl. repeat split; lia. Qed.

Lemma crop_box_within_extent_witness :
  Image.width (crop_box {| Image.width := 256; Image.height := 256; intensity := 180%float |}
                 200 10 100 120) <= 256 - 200.
Proof.
  apply (crop_box_within_extent
           {| Image.width := 256; Image.height := 256; intensity := 180%float |}
           200 10 100 120).
  simpl. lia.
Defined.

(** ** Face count and occlusion checks ([run_inference]) *)

Section AfterDetection.
Variable log : float -> float.
Variables (fs : files) (payload : Py.value) (config_path : option string).
Variables (detector' : option BaseFaceDetector) (model' : option AgeModel).
Variables (config : AgeServiceConfig) (request : ValidatedRequest) (loaded : LoadedImage).
Hypothesis Hconfig : load_config fs config_path = Ok config.
Hypothesis Hrequest : validate_payload payload config = Ok request.
Hypothesis Hloaded : load_base64_image (image_base64 request) = Ok loaded.
Hypothesis Hsize : _validate_image_size (image loaded) config = Ok tt.

(** Once the request is validated, the image decoded and its size
    accepted, [run_inference] is the part of its body that follows the
    call of [detect_faces]. *)
Lemma run_inference_after_detection (detections : list FaceDetection) :
  detect_faces (_resolve_detector config detector') (image loaded)
    (Some (detector_hints request)) = Ok detections ->
  run_inference log fs payload config_path detector' model' =
  match detections with
  | [] => Raise (InferenceError "no faces detected" (Some "no_faces"))
  | _ :: _ :: _ => Raise (InferenceError "multiple faces detected" (Some "multiple_faces"))
  | [detection] =>
      if occluded detection then
        Raise (InferenceError "primary face appears occluded" (Some "occluded"))
      else
        prediction ← predict (_resolve_model config model')
                       (normalise_image (crop_to_face (image loaded) detection));
        '(lower', upper') ← confidence_interval log prediction (confidence_level request);
        Ok {| status := "success";
              age := {| age_value := value prediction;
                        confidence_interval_out :=
                          {| level := confidence_level request;
                             lower := lower';
                             upper := upper' |} |};
              metadata :=
                {| detector := Detector.name (_resolve_detector config detector');
                   model :=
                     {| out_name := Config.name (model_metadata config);
                        out_version := version (model_metadata config);
                        out_mean_absolute_error := mean_absolute_error (model_metadata config);
                        out_calibration_date := calibration_date (model_metadata config) |};
                   out_fairness_warnings := fairness_warnings (model_metadata config);
                   out_limitations := limitations (model_metadata config) |};
              face_bbox :=
                if return_face_bbox request then
                  let '(bx, by', bw, bh) := as_tuple (bounding_box detection) in
                  Some {| out_x := bx; out_y := by'; out_width := bw; out_height := bh |}
                else None |}
  end.
Proof.
  intros Hdet. unfold run_inference.
  rewrite Hconfig, bind_Ok, Hrequest, bind_Ok, Hloaded, try_except_Ok, bind_Ok.
  rewrite Hsize, bind_Ok. cbv zeta. rewrite Hdet, bind_Ok. reflexivity.
Qed.

End AfterDetection.

(** C2: after detection, an empty list raises [InferenceError] with
    reason [no_faces]; two or more detections raise it with reason
    [multiple_faces], whatever their occlusion flags; exactly one
    detection flagged occluded raises it with reason [occluded].  The
    three cases exclude one another and the count is tested first. *)
Theorem run_inference_face_checks (log : float -> float) (fs : files) (payload : Py.value)
    (config_path : option string) (detector' : option BaseFaceDetector)
    (model' : option AgeModel) (config : AgeServiceConfig) (request : ValidatedRequest)
    (loaded : LoadedImage) (detections : list FaceDetection) :
  load_config fs config_path = Ok config ->
  validate_payload payload config = Ok request ->
  load_base64_image (image_base64 request) = Ok loaded ->
  _validate_image_size (image loaded) config = Ok tt ->
  detect_faces (_resolve_detector config detector') (image loaded)
    (Some (detector_hints request)) = Ok detections ->
  (detections = [] ->
   run_inference log fs payload config_path detector' model' =
   Raise (InferenceError "no faces detected" (Some "no_faces"))) /\
  ((2 <= length detections)%nat ->
   run_inference log fs payload config_path detector' model' =
   Raise (InferenceError "multiple faces detected" (Some "multiple_faces"))) /\
  (forall detection, detections = [detection] -> occluded detection = true ->
   run_inference log fs payload config_path detector' model' =
   Raise (InferenceError "primary face appears occluded" (Some "occluded"))).
Proof.
  intros Hc Hr Hl Hs Hd.
  rewrite (run_inference_after_detection log _ _ _ _ _ _ _ _ Hc Hr Hl Hs _ Hd).
  repeat split.
  - intros ->. reflexivity.
  - destruct detections as [|d1 [|d2 ds]]; simpl; intros Hlen; [lia | lia | reflexivity].
  - intros d -> Hocc. rewrite Hocc. reflexivity.
Qed.

Lemma run_inference_face_checks_witness :
  run_inference Fixtures.no_log Fixtures.test_files Fixtures.base_payload
    (Some DEFAULT_CONFIG_PATH)
    (Some (Fixtures.DetectorStub [Fixtures.detection_of true; Fixtures.detection_of false]))
    (Some (Fixtures.ModelStub 30 2)) =
  Raise (InferenceError "multiple faces detected" (Some "multiple_faces")).
Proof.
  refine (proj1 (proj2 (run_inference_face_checks Fixtures.no_log Fixtures.test_files
            Fixtures.base_payload (Some DEFAULT_CONFIG_PATH)
            (Some (Fixtures.DetectorStub [Fixtures.detection_of true; Fixtures.detection_of false]))
            (Some (Fixtures.ModelStub 30 2))
            Fixtures.test_config
            {| image_base64 := Fixtures.encoded_image; consent := true;
               confidence_level := 0.9%float; return_face_bbox := false;
               detector_hints := [] |}
            {| image := {| Image.width := 256; Image.height := 256; intensity := 180%float |};
               raw_bytes := Py.chars "256,256,180.0" |}
            [Fixtures.detection_of true; Fixtures.detection_of false]
            _ _ _ _ _)) _).
  - reflexivity.
  - vm_compute. reflexivity.
  - vm_compute. reflexivity.
  - reflexivity.
  - reflexivity.
  - simpl. lia.
Defined.

(** ** Which exceptions the builtins raise *)

Lemma float_of_int_raises (z : Z) (e : exn) :
  Py.float_of_int z = Raise e -> e = OverflowError.
Proof.
  unfold Py.float_of_int. destruct (is_infinity _); congruence.
Qed.

Lemma int_of_float_raises (f : float) (e : exn) :
  Py.int_of_float f = Raise e -> is_ValueError e = true \/ e = OverflowError.
Proof.
  unfold Py.int_of_float. destruct (Prim2SF f); intros H; inversion H; auto.
Qed.

Lemma int_of_str_raises (s : string) (e : exn) :
  Py.int_of_str s = Raise e -> is_ValueError e = true.
Proof.
  unfold Py.int_of_str. destruct (Py.split_sign _) as [neg body].
  destruct (Py.digit_run body false []) as [[[|d ds] [|c rest]]|];
    try (intros H; inversion H; reflexivity).
  destruct (_ <? _); intros H; inversion H; reflexivity.
Qed.

Lemma float_of_str_raises (s : string) (e : exn) :
  Py.float_of_str s = Raise e -> is_ValueError e = true.
Proof.
  unfold Py.float_of_str. destruct (Py.split_sign _) as [neg body].
  destruct (_ || _); [discriminate|].
  destruct (String.eqb _ "nan"); [discriminate|].
  destruct (Py.digit_run body false []) as [[ip rest]|]; [|intros H; inversion H; reflexivity].
  match goal with |- match ?frac with _ => _ end = _ -> _ => destruct frac as [[fp rest2]|] end;
    [|intros H; inversion H; reflexivity].
  destruct (ip ++ fp)%list; [intros H; inversion H; reflexivity|].
  destruct (Py.float_exponent rest2); intros H; inversion H; reflexivity.
Qed.

Lemma float_of_raises (v : Py.value) (e : exn) :
  Py.float_of v = Raise e ->
  (is_TypeError e || is_ValueError e = true) \/ e = OverflowError.
Proof.
  destruct v; simpl; intros H; try (inversion H; subst; left; reflexivity).
  - right. eapply float_of_int_raises; eauto.
  - left. rewrite (float_of_str_raises _ _ H). apply orb_true_r.
Qed.

Lemma int_of_raises (v : Py.value) (e : exn) :
  Py.int_of v = Raise e ->
  (is_KeyError e || is_TypeError e || is_ValueError e = true) \/ e = OverflowError.
Proof.
  destruct v; simpl; intros H; try (inversion H; subst; left; reflexivity).
  - destruct (int_of_float_raises _ _ H) as [Hv| ->]; [left|right; reflexivity].
    rewrite Hv. apply orb_true_r.
  - left. rewrite (int_of_str_raises _ _ H). apply orb_true_r.
Qed.

(** ** Which exceptions validation raises *)

Lemma validation_outcome_mono (fields fields' : list (option string)) (e : exn) :
  fields ⊆ fields' -> validation_outcome fields e -> validation_outcome fields' e.
Proof.
  intros Hsub [->|(m & f & -> & Hf)]; [left; reflexivity|right; eauto].
Qed.

Lemma coerce_confidence_level_raises (v : Py.value) (field : string) (e : exn) :
  _coerce_confidence_level v field = Raise e -> validation_outcome [Some field] e.
Proof.
  unfold _coerce_confidence_level.
  destruct (Py.float_of v) as [l|e0] eqn:Hf; simpl.
  - destruct (negb _); intros H; inversion H. right. do 2 eexists. split; [reflexivity|set_solver].
  - destruct (float_of_raises _ _ Hf) as [Hc| ->].
    + rewrite Hc. intros H; inversion H. right. do 2 eexists. split; [reflexivity|set_solver].
    + simpl. intros H; inversion H. left. reflexivity.
Qed.

Lemma getitem_raises (d : gmap string Py.value) (key : string) (e : exn) :
  Py.getitem d key = Raise e -> e = KeyError.
Proof. unfold Py.getitem. destruct (d !! key); congruence. Qed.

Lemma parse_hint_entry_raises (entry : Py.value) (field : string) (e : exn) :
  parse_hint_entry entry field = Raise e -> validation_outcome [Some field] e.
Proof.
  assert (Hval : forall m, validation_outcome [Some field] (ValidationError m (Some field))).
  { intros m. right. do 2 eexists. split; [reflexivity|set_solver]. }
  destruct entry; simpl; try (intros H; inversion H; apply Hval).
  set (catches := fun e0 => is_KeyError e0 || is_TypeError e0 || is_ValueError e0).
  assert (Hget : forall key (k : Py.value -> result FaceBoundingBox) e1,
             (forall v e2, k v = Raise e2 -> catches e2 = true \/ e2 = OverflowError) ->
             (Py.getitem d key ≫= k) = Raise e1 -> catches e1 = true \/ e1 = OverflowError).
  { intros key k e1 Hk. destruct (Py.getitem d key) eqn:Hg; simpl; [apply Hk|].
    intros H; inversion H; subst. rewrite (getitem_raises _ _ _ Hg). left. reflexivity. }
  assert (Hint : forall v (k : Z -> result FaceBoundingBox) e1,
             (forall z e2, k z = Raise e2 -> catches e2 = true \/ e2 = OverflowError) ->
             (Py.int_of v ≫= k) = Raise e1 -> catches e1 = true \/ e1 = OverflowError).
  { intros v k e1 Hk. destruct (Py.int_of v) eqn:Hi; simpl; [apply Hk|].
    intros H; inversion H; subst. apply (int_of_raises _ _ Hi). }
  match goal with |- try_except ?body _ _ = _ -> _ =>
    assert (Hbody : forall e1, body = Raise e1 -> catches e1 = true \/ e1 = OverflowError)
  end.
  { intros e1.
    apply Hget; intros vx ?. apply Hint; intros x' ?.
    apply Hget; intros vy ?. apply Hint; intros y' ?.
    apply Hget; intros vw ?. apply Hint; intros w' ?.
    apply Hget; intros vh ?. apply Hint; intros h' ?.
    discriminate. }
  match goal with |- try_except ?body _ _ = _ -> _ => destruct body as [b|e1] eqn:Hb end;
    simpl; [discriminate|].
  destruct (Hbody e1 eq_refl) as [Hc| ->].
  - fold (catches e1). rewrite Hc. intros H; inversion H. apply Hval.
  - simpl. intros H; inversion H. left. reflexivity.
Qed.

Lemma parse_detector_hints_raises (v : Py.value) (field : string) (e : exn) :
  _parse_detector_hints v field = Raise e -> validation_outcome [Some field] e.
Proof.
  assert (Hval : forall m, validation_outcome [Some field] (ValidationError m (Some field))).
  { intros m. right. do 2 eexists. split; [reflexivity|set_solver]. }
  destruct v; simpl; try (intros H; inversion H; apply Hval).
  induction l as [|entry rest IH]; simpl; [discriminate|].
  destruct (parse_hint_entry entry field) eqn:He; simpl.
  - destruct (parse_hint_entries rest field); simpl; [discriminate|].
    intros H; inversion H; subst. apply IH. reflexivity.
  - intros H; inversion H; subst. eapply parse_hint_entry_raises; eauto.
Qed.

Lemma validate_payload_raises (payload : Py.value) (config : AgeServiceConfig) (e : exn) :
  validate_payload payload config = Raise e -> validation_outcome validated_fields e.
Proof.
  assert (Hval : forall m f, f ∈ validated_fields -> validation_outcome validated_fields (ValidationError m f)).
  { intros m f Hf. right. eauto. }
  unfold validate_payload.
  destruct payload; try (intros H; inversion H; apply Hval; set_solver).
  destruct (Py.getitem d "consent") as [c|e0] eqn:Hc; simpl.
  2:{ rewrite (getitem_raises _ _ _ Hc). simpl. intros H; inversion H. apply Hval. set_solver. }
  destruct (Py.bool_of c); simpl; [|intros H; inversion H; apply Hval; set_solver].
  destruct (Py.getitem d "image_base64") as [i|e0] eqn:Hi; simpl.
  2:{ rewrite (getitem_raises _ _ _ Hi). simpl. intros H; inversion H. apply Hval. set_solver. }
  destruct i as [| | | |[|ch s]| |]; try (intros H; inversion H; apply Hval; set_solver).
  destruct (_coerce_confidence_level _ _) as [l|e0] eqn:Hl; simpl.
  2:{ intros H; inversion H; subst.
      eapply validation_outcome_mono; [|eapply coerce_confidence_level_raises; eauto].
      set_solver. }
  destruct (_parse_detector_hints _ _) as [hs|e0] eqn:Hh; simpl; [discriminate|].
  intros H; inversion H; subst.
  eapply validation_outcome_mono; [|eapply parse_detector_hints_raises; eauto].
  set_solver.
Qed.

(** ** The [return_face_bbox] field *)

(** C10: [validate_payload] never raises a [ValidationError] on the field
    [return_face_bbox]; when the consent, image and confidence checks
    pass, the value found there (of any type) is coerced by truthiness,
    the result depending otherwise on the detector hints alone; the
    non-empty string ["false"] coerces to [True]. *)
Theorem validate_payload_return_face_bbox (payload : Py.value) (config : AgeServiceConfig) :
  (forall m, validate_payload payload config <>
             Raise (ValidationError m (Some "return_face_bbox"))) /\
  (forall d c s level,
      payload = Py.PyDict d ->
      d !! "consent" = Some c -> Py.bool_of c = true ->
      d !! "image_base64" = Some (Py.PyStr s) -> s <> "" ->
      _coerce_confidence_level
        (Py.get d "confidence_level" (Py.PyFloat (default_confidence_level config)))
        "confidence_level" = Ok level ->
      validate_payload payload config =
      (hints ← _parse_detector_hints (Py.get d "detector_hints" Py.PyNone) "detector_hints";
       Ok {| image_base64 := s;
             consent := true;
             confidence_level := level;
             return_face_bbox :=
               Py.bool_of (Py.get d "return_face_bbox"
                             (Py.PyBool (return_face_bbox_default config)));
             detector_hints := hints |})) /\
  Py.bool_of (Py.PyStr "false") = true.
Proof.
  repeat split.
  - intros m H. apply validate_payload_raises in H.
    destruct H as [H|(m' & f & H & Hf)]; [discriminate|].
    inversion H; subst. unfold validated_fields in Hf. set_solver.
  - intros d c s level -> Hc Hb Hi Hs Hl. unfold validate_payload, Py.getitem.
    rewrite Hc. simpl. rewrite Hb. simpl. rewrite Hi. simpl.
    destruct s as [|ch s]; [congruence|]. rewrite Hl. reflexivity.
Qed.

Lemma validate_payload_return_face_bbox_witness :
  validate_payload
    (Fixtures.dict [("image_base64", Py.PyStr "abc"); ("consent", Py.PyBool true);
                    ("return_face_bbox", Py.PyStr "false")])
    Fixtures.test_config =
  Ok {| image_base64 := "abc"; consent := true; confidence_level := 0.9%float;
        return_face_bbox := true; detector_hints := [] |}.
Proof.
  pose (kvs := [("image_base64", Py.PyStr "abc"); ("consent", Py.PyBool true);
                ("return_face_bbox", Py.PyStr "false")]).
  refine (eq_trans
            (proj1 (proj2 (validate_payload_return_face_bbox (Fixtures.dict kvs)
                             Fixtures.test_config))
               (list_to_map kvs) (Py.PyBool true) "abc" 0.9%float eq_refl _ _ _ _ _) _).
  - reflexivity.
  - reflexivity.
  - reflexivity.
  - discriminate.
  - vm_compute. reflexivity.
  - vm_compute. reflexivity.
Defined.

(** ** The [confidence_level] field *)

(** A value that converts to a float is accepted exactly when the float
    lies strictly between 0 and 1. *)
Lemma coerce_confidence_level_range (v : Py.value) (field : string) (level : float) :
  Py.float_of v = Ok level ->
  _coerce_confidence_level v field =
  if ((0 <? level) && (level <? 1))%float then Ok level
  else Raise (ValidationError "confidence level must be in (0, 1)" (Some field)).
Proof.
  intros H. unfold _coerce_confidence_level. rewrite H. simpl.
  destruct (_ && _); reflexivity.
Qed.

Lemma coerce_confidence_level_boundary (field : string) :
  _coerce_confidence_level (Py.PyFloat 0) field =
    Raise (ValidationError "confidence level must be in (0, 1)" (Some field)) /\
  _coerce_confidence_level (Py.PyFloat 1) field =
    Raise (ValidationError "confidence level must be in (0, 1)" (Some field)) /\
  _coerce_confidence_level (Py.PyInt 0) field =
    Raise (ValidationError "confidence level must be in (0, 1)" (Some field)) /\
  _coerce_confidence_level (Py.PyInt 1) field =
    Raise (ValidationError "confidence level must be in (0, 1)" (Some field)).
Proof. repeat split; reflexivity. Qed.

(** A value that does not convert because of its type or its text is
    refused as not being a number. *)
Lemma coerce_confidence_level_not_a_number (v : Py.value) (field : string) (e : exn) :
  Py.float_of v = Raise e -> e <> OverflowError ->
  _coerce_confidence_level v field =
  Raise (ValidationError "confidence level must be a number" (Some field)).
Proof.
  intros H Hne. unfold _coerce_confidence_level. rewrite H. simpl.
  destruct (float_of_raises _ _ H) as [Hc|?]; [|contradiction]. rewrite Hc. reflexivity.
Qed.

(** When the field is absent, the configuration default is the value
    that is coerced. *)
Lemma confidence_level_default (d : gmap string Py.value) (config : AgeServiceConfig) :
  d !! "confidence_level" = None ->
  Py.get d "confidence_level" (Py.PyFloat (default_confidence_level config)) =
  Py.PyFloat (default_confidence_level config).
Proof. intros H. unfold Py.get. rewrite H. reflexivity. Qed.

(** C8, at the failing input: an integer [confidence_level] too large for
    a float (here [10 ** 400]) lies outside (0, 1), yet validation ends
    with the [OverflowError] of [float(value)], which the [except
    (TypeError, ValueError)] clause does not catch, and not with a
    [ValidationError] on the field. *)
Theorem confidence_level_overflow_escapes :
  validate_payload
    (Fixtures.dict [("image_base64", Py.PyStr "abc"); ("consent", Py.PyBool true);
                    ("confidence_level", Py.PyInt (10 ^ 400))])
    Fixtures.test_config = Raise OverflowError.
Proof. vm_compute. reflexivity. Qed.

(** ** The reference detector ([SimpleFaceDetector.detect_faces]) *)

(** With a non-empty list of hints: one detection per hint, in order,
    with the hint as bounding box, confidence 0.9 and no occlusion. *)
Lemma detect_faces_hints (img : SimpleImage) (h : FaceBoundingBox) (hs : list FaceBoundingBox) :
  detect_faces SimpleFaceDetector img (Some (h :: hs)) =
  Ok (map (fun hint => {| bounding_box := hint; confidence := 0.9%float; occluded := false |})
        (h :: hs)).
Proof. reflexivity. Qed.

(** Without hints: whenever the four products convert, one detection of
    confidence 0.5 whose box is the truncated central 80%. *)
Lemma detect_faces_default (img : SimpleImage) (hints : option (list FaceBoundingBox))
    (bx by' bw bh : Z) :
  hints = None \/ hints = Some [] ->
  scaled (Image.width img) 0.1%float = Ok bx ->
  scaled (Image.height img) 0.1%float = Ok by' ->
  scaled (Image.width img) 0.8%float = Ok bw ->
  scaled (Image.height img) 0.8%float = Ok bh ->
  detect_faces SimpleFaceDetector img hints =
  Ok [ {| bounding_box := {| x := bx; y := by'; Detector.width := bw; Detector.height := bh |};
          confidence := 0.5%float; occluded := false |} ].
Proof.
  intros Hh Hx Hy Hw Hhh. simpl. unfold SimpleFaceDetector_detect_faces.
  destruct Hh as [-> | ->]; simpl; rewrite Hx, Hy, Hw, Hhh; reflexivity.
Qed.

Lemma hinted_detections_unoccluded (hints : list FaceBoundingBox) :
  Forall (fun d => occluded d = false)
    (map (fun hint => {| bounding_box := hint; confidence := 0.9%float; occluded := false |})
       hints).
Proof. induction hints as [|h hs IH]; simpl; constructor; [reflexivity|exact IH]. Qed.

(** Whatever it is given, the reference detector returns, when it
    returns, a non-empty list of detections none of which is occluded. *)
Lemma detect_faces_nonempty_unoccluded (img : SimpleImage)
    (hints : option (list FaceBoundingBox)) (detections : list FaceDetection) :
  detect_faces SimpleFaceDetector img hints = Ok detections ->
  detections <> [] /\ Forall (fun d => occluded d = false) detections /\
  (forall hs, hints = Some hs -> hs <> [] -> length detections = length hs).
Proof.
  assert (Hdefault : forall (r : result (list FaceDetection)) w h,
             r = (bx ← scaled w 0.1%float; by' ← scaled h 0.1%float;
                  bw ← scaled w 0.8%float; bh ← scaled h 0.8%float;
                  Ok [ {| bounding_box :=
                            {| x := bx; y := by'; Detector.width := bw; Detector.height := bh |};
                          confidence := 0.5%float; occluded := false |} ]) ->
             r = Ok detections ->
             detections <> [] /\ Forall (fun d => occluded d = false) detections).
  { intros r w h -> H.
    repeat (apply bind_Ok_inv in H; destruct H as (? & _ & H)).
    inversion H; subst. split; [discriminate|]. constructor; [reflexivity|constructor]. }
  simpl. unfold SimpleFaceDetector_detect_faces.
  destruct hints as [[|h hs]|].
  - intros H. destruct (Hdefault _ _ _ eq_refl H) as [H1 H2].
    split; [exact H1|split; [exact H2|]]. intros hs' Hs. inversion Hs; subst. congruence.
  - intros H; inversion H; subst. split; [discriminate|split].
    + exact (hinted_detections_unoccluded (h :: hs)).
    + intros hs' Hs _. inversion Hs; subst. exact (length_map _ (h :: hs)).
  - intros H. destruct (Hdefault _ _ _ eq_refl H) as [H1 H2].
    split; [exact H1|split; [exact H2|]]. intros hs' Hs. discriminate.
Qed.

(** The only exceptions of the reference detector come from the numeric
    conversions. *)
Lemma detect_faces_raises (img : SimpleImage) (hints : option (list FaceBoundingBox))
    (e : exn) :
  detect_faces SimpleFaceDetector img hints = Raise e ->
  is_ValueError e = true \/ e = OverflowError.
Proof.
  assert (Hs : forall n f (k : Z -> result (list FaceDetection)) e1,
             (forall z e2, k z = Raise e2 -> is_ValueError e2 = true \/ e2 = OverflowError) ->
             (scaled n f ≫= k) = Raise e1 -> is_ValueError e1 = true \/ e1 = OverflowError).
  { intros n f k e1 Hk. unfold scaled, Py.int_mul_float.
    destruct (Py.float_of_int n) as [x|e0] eqn:Hx; simpl.
    - destruct (Py.int_of_float (x * f)) as [z|e0] eqn:Hz; simpl; [apply Hk|].
      intros H; inversion H; subst. eapply int_of_float_raises; eauto.
    - intros H; inversion H; subst. right. eapply float_of_int_raises; eauto. }
  simpl. unfold SimpleFaceDetector_detect_faces.
  destruct hints as [[|h hs]|]; simpl; try discriminate;
    (apply Hs; intros ? ?; apply Hs; intros ? ?; apply Hs; intros ? ?; apply Hs; intros ? ?;
     discriminate).
Qed.

(** C6, at the failing input: for an image 2 ** 1024 pixels wide and no
    hints the reference detector returns no detection at all; the
    conversion of the width to a float in [width * 0.1] raises
    [OverflowError]. *)
Theorem detect_faces_overflow :
  detect_faces SimpleFaceDetector
    {| Image.width := 2 ^ 1024; Image.height := 256; intensity := 180%float |} None =
  Raise OverflowError.
Proof. vm_compute. reflexivity. Qed.

(** ** Decoding the image payload ([load_base64_image]) *)

Lemma a2b_loop_raises (l : list ascii) (quad_pos leftchar pads : Z) (started : bool)
    (out : list ascii) (e : exn) :
  Py.a2b_loop l quad_pos leftchar pads started out = Raise e -> e = BinasciiError.
Proof.
  revert quad_pos leftchar pads started out.
  induction l as [|c l IH]; intros quad_pos leftchar pads started out; simpl.
  - destruct (quad_pos =? 0); congruence.
  - destruct (Ascii.eqb c "=").
    + destruct (2 <=? quad_pos); [|apply IH].
      destruct (4 <=? _); [|apply IH]. destruct l; congruence.
    + destruct (Py.b64_index c); [|congruence].
      destruct started; [congruence|].
      destruct (quad_pos =? 0); [apply IH|].
      destruct (quad_pos =? 1); [apply IH|].
      destruct (quad_pos =? 2); apply IH.
Qed.

Lemma b64decode_raises (data : string) (e : exn) :
  Py.b64decode data = Raise e -> is_ValueError e = true.
Proof.
  unfold Py.b64decode. destruct (negb _); [intros H; inversion H; reflexivity|].
  destruct (Py.chars data) as [|c l] eqn:Hl.
  - intros H. apply a2b_loop_raises in H. subst. reflexivity.
  - destruct (Ascii.eqb c "="); [intros H; inversion H; reflexivity|].
    intros H. apply a2b_loop_raises in H. subst. reflexivity.
Qed.

Lemma parse_fields_raises (payload : string) (e : exn) :
  parse_fields payload = Raise e -> is_ValueError e = true.
Proof.
  unfold parse_fields, unpack3.
  destruct (Py.split payload ",") as [|a [|b [|c [|? ?]]]]; simpl;
    try (intros H; inversion H; reflexivity).
  destruct (Py.int_of_str a) eqn:Ha; simpl;
    [|intros H; inversion H; subst; eapply int_of_str_raises; eauto].
  destruct (Py.int_of_str b) eqn:Hb; simpl;
    [|intros H; inversion H; subst; eapply int_of_str_raises; eauto].
  destruct (Py.float_of_str c) eqn:Hc; simpl;
    [discriminate|intros H; inversion H; subst; eapply float_of_str_raises; eauto].
Qed.

(** A payload that cannot be split and converted is refused as a whole,
    whichever field is at fault. *)
Lemma parse_payload_shape (payload : string) (e : exn) :
  parse_fields payload = Raise e ->
  _parse_payload payload = Raise (ValueError msg_payload_shape).
Proof.
  intros H. unfold _parse_payload. rewrite H. simpl.
  rewrite (parse_fields_raises _ _ H). reflexivity.
Qed.

(** Once the three fields are converted, the dimensions are checked
    first and the intensity second, each with a message of its own. *)
Lemma parse_payload_checks (payload : string) (w h : Z) (i : float) :
  parse_fields payload = Ok (w, h, i) ->
  _parse_payload payload =
  if (w <=? 0) || (h <=? 0) then Raise (ValueError msg_dimensions)
  else if negb ((0 <=? i)%float && (i <=? 255)%float) then Raise (ValueError msg_intensity)
  else Ok {| Image.width := w; Image.height := h; intensity := i |}.
Proof. intros H. unfold _parse_payload. rewrite H. reflexivity. Qed.

Lemma parse_payload_raises (payload : string) (e : exn) :
  _parse_payload payload = Raise e ->
  exists m, e = ValueError m /\ In m [msg_payload_shape; msg_dimensions; msg_intensity].
Proof.
  destruct (parse_fields payload) as [[[w h] i]|e0] eqn:Hb.
  - rewrite (parse_payload_checks _ _ _ _ Hb).
    destruct (_ || _); [intros H; inversion H; eexists; split; [reflexivity|simpl; auto]|].
    destruct (negb _); intros H; inversion H. eexists; split; [reflexivity|simpl; auto].
  - rewrite (parse_payload_shape _ _ Hb).
    intros H; inversion H. eexists; split; [reflexivity|simpl; auto].
Qed.

Lemma load_base64_image_raises (data : string) (e : exn) :
  load_base64_image data = Raise e ->
  exists m, e = ValueError m /\ In m decoding_messages.
Proof.
  unfold load_base64_image.
  destruct (Py.b64decode data) as [raw|e0] eqn:Hd; simpl.
  2:{ rewrite (b64decode_raises _ _ Hd). simpl. intros H; inversion H.
      eexists; split; [reflexivity|simpl; auto]. }
  unfold Py.decode_ascii. destruct (forallb Py.is_ascii raw); simpl.
  2:{ intros H; inversion H. eexists; split; [reflexivity|simpl; auto]. }
  destruct (_parse_payload _) as [img|e0] eqn:Hp; simpl; [discriminate|].
  intros H; inversion H; subst.
  destruct (parse_payload_raises _ _ Hp) as (m & -> & Hm).
  eexists; split; [reflexivity|]. simpl in *. tauto.
Qed.

(** A text that is not base64, and bytes that are not ASCII, each have
    their message. *)
Lemma load_base64_image_bad_base64 (data : string) (e : exn) :
  Py.b64decode data = Raise e -> load_base64_image data = Raise (ValueError msg_base64).
Proof.
  intros H. unfold load_base64_image. rewrite H. simpl.
  rewrite (b64decode_raises _ _ H). reflexivity.
Qed.

Lemma load_base64_image_not_ascii (data : string) (raw : list ascii) (e : exn) :
  Py.b64decode data = Ok raw -> Py.decode_ascii raw = Raise e ->
  load_base64_image data = Raise (ValueError msg_ascii).
Proof.
  intros H1 H2. unfold load_base64_image. rewrite H1. simpl. revert H2.
  unfold Py.decode_ascii. destruct (forallb _ _); [discriminate|]. reflexivity.
Qed.

(** C4, as stated, fails: the decoding errors do not all carry one and
    the same message.  A non-positive width and an intensity out of range
    are told apart, each naming the field at fault. *)
Lemma decoding_errors_differ :
  load_base64_image (Fixtures._encode_image (0, 1) "1") = Raise (ValueError msg_dimensions) /\
  load_base64_image (Fixtures._encode_image (1, 1) "300") = Raise (ValueError msg_intensity) /\
  ValueError msg_dimensions <> ValueError msg_intensity.
Proof. repeat split; try (vm_compute; reflexivity). discriminate. Qed.

(** C4, amended: every failure to decode an image payload raises the one
    exception class [ValueError], with one of five messages
    ([decoding_messages]) that tell the failing stage: the base64 text,
    the ASCII bytes, the shape of the payload (field count, non-integer
    width or height, non-float intensity alike), the sign of the
    dimensions, the range of the intensity.  [run_inference] surfaces each
    as a [ValidationError] on the field [image_base64] with that same
    message. *)
Theorem image_decoding_errors (data : string) (e : exn) :
  load_base64_image data = Raise e ->
  (exists m, e = ValueError m /\ In m decoding_messages) /\
  (forall log fs payload config_path detector' model' config request,
      load_config fs config_path = Ok config ->
      validate_payload payload config = Ok request ->
      image_base64 request = data ->
      run_inference log fs payload config_path detector' model' =
      Raise (ValidationError (exn_str e) (Some "image_base64"))).
Proof.
  intros H. destruct (load_base64_image_raises _ _ H) as (m & -> & Hm).
  split; [eauto|].
  intros log fs payload config_path detector' model' config request Hc Hr Hd.
  unfold run_inference. rewrite Hc, bind_Ok, Hr, bind_Ok, Hd, H. reflexivity.
Qed.

Lemma image_decoding_errors_witness :
  run_inference Fixtures.no_log Fixtures.test_files
    (Fixtures.dict [("image_base64", Py.PyStr "MCwxLDE="); ("consent", Py.PyBool true)])
    None None None =
  Raise (ValidationError msg_dimensions (Some "image_base64")).
Proof.
  refine (proj2 (image_decoding_errors "MCwxLDE=" (ValueError msg_dimensions) _)
            Fixtures.no_log Fixtures.test_files _ None None None Fixtures.test_config
            {| image_base64 := "MCwxLDE="; consent := true; confidence_level := 0.9%float;
               return_face_bbox := false; detector_hints := [] |} _ _ _).
  - vm_compute. reflexivity.
  - reflexivity.
  - vm_compute. reflexivity.
  - reflexivity.
Defined.

(** ** Reachable failures with the reference detector *)

Lemma load_config_raises (fs : files) (path : option string) (e : exn) :
  load_config fs path = Raise e -> e = FileNotFoundError.
Proof. unfold load_config. destruct (fs _); congruence. Qed.

Lemma NormalDist_init_raises (mu sigma : float) (e : exn) :
  Statistics.NormalDist_init mu sigma = Raise e -> exists m, e = StatisticsError m.
Proof. unfold Statistics.NormalDist_init. destruct (_ <? _)%float; intros H; inversion H; eauto. Qed.

Lemma inv_cdf_raises (log : float -> float) (dist : Statistics.NormalDist) (p : float) (e : exn) :
  Statistics.inv_cdf log dist p = Raise e -> exists m, e = StatisticsError m.
Proof.
  unfold Statistics.inv_cdf. destruct (_ || _); [intros H; inversion H; eauto|].
  destruct (_ <=? _)%float; intros H; inversion H; eauto.
Qed.

Lemma confidence_interval_raises (log : float -> float) (prediction : AgePrediction)
    (level' : float) (e : exn) :
  confidence_interval log prediction level' = Raise e -> exists m, e = StatisticsError m.
Proof.
  unfold confidence_interval. destruct (_ <=? _)%float; [discriminate|].
  destruct (Statistics.NormalDist_init _ _) as [dist|e0] eqn:Hd; simpl.
  2:{ intros H; inversion H; subst. eapply NormalDist_init_raises; eauto. }
  set (tail := ((1 - Py.max (Py.min level' 0.999) 0) / 2)%float).
  destruct (Statistics.inv_cdf log dist tail) as [lo|e0] eqn:Hlo; simpl.
  2:{ intros H; inversion H; subst. eapply inv_cdf_raises; eauto. }
  destruct (Statistics.inv_cdf log dist (1 - tail)) as [hi|e0] eqn:Hhi; simpl; [discriminate|].
  intros H; inversion H; subst. eapply inv_cdf_raises; eauto.
Qed.

(** The reference detector returns two detections or more only for two
    hints or more. *)
Lemma detect_faces_several (img : SimpleImage) (hints : list FaceBoundingBox)
    (detections : list FaceDetection) :
  detect_faces SimpleFaceDetector img (Some hints) = Ok detections ->
  (2 <= length detections)%nat -> (2 <= length hints)%nat.
Proof.
  intros Hd Hlen.
  destruct (detect_faces_nonempty_unoccluded _ _ _ Hd) as (_ & _ & Hcount).
  destruct hints as [|h hs].
  - revert Hd. simpl. unfold SimpleFaceDetector_detect_faces. simpl. intros H.
    repeat (apply bind_Ok_inv in H; destruct H as (? & _ & H)).
    inversion H; subst. simpl in Hlen. lia.
  - rewrite <- (Hcount (h :: hs) eq_refl); [exact Hlen|discriminate].
Qed.

(** With the reference detector, and a model that raises no
    [InferenceError] of its own, the only [InferenceError] that
    [run_inference] can raise has reason [multiple_faces], and it does so
    for a request of two hints or more: the branches [no_faces] and
    [occluded] are never taken. *)
Lemma run_inference_simple_detector_reasons (log : float -> float) (fs : files)
    (payload : Py.value) (config_path : option string) (model' : option AgeModel)
    (msg : string) (reason : option string) :
  (forall m img msg' reason',
      model' = Some m -> predict m img <> Raise (InferenceError msg' reason')) ->
  run_inference log fs payload config_path None model' = Raise (InferenceError msg reason) ->
  reason = Some "multiple_faces" /\
  exists config request,
    load_config fs config_path = Ok config /\
    validate_payload payload config = Ok request /\
    (2 <= length (detector_hints request))%nat.
Proof.
  intros Hmodel. unfold run_inference.
  destruct (load_config fs config_path) as [config|e0] eqn:Hc; simpl.
  2:{ intros H; inversion H; subst. apply load_config_raises in Hc. discriminate. }
  destruct (validate_payload payload config) as [request|e0] eqn:Hr; simpl.
  2:{ intros H; inversion H; subst. apply validate_payload_raises in Hr.
      destruct Hr as [?|(? & ? & ? & _)]; discriminate. }
  destruct (load_base64_image (image_base64 request)) as [loaded|e0] eqn:Hl; simpl.
  2:{ destruct (load_base64_image_raises _ _ Hl) as (m & -> & _). simpl. discriminate. }
  unfold _validate_image_size. simpl. destruct (_ <? _); simpl; [discriminate|].
  assert (Hsimple : _resolve_detector config None = SimpleFaceDetector).
  { unfold _resolve_detector. destruct (String.eqb _ _); reflexivity. }
  rewrite Hsimple.
  destruct (detect_faces SimpleFaceDetector _ _) as [ds|e0] eqn:Hd.
  2:{ simpl. intros H; inversion H; subst.
      destruct (detect_faces_raises _ _ _ Hd); discriminate. }
  destruct (detect_faces_nonempty_unoccluded _ _ _ Hd) as (Hne & Hocc & _).
  rewrite bind_Ok.
  destruct ds as [|d [|d2 ds]]; [congruence| |].
  - inversion Hocc as [|? ? Hd1 _]; subst. rewrite Hd1.
    destruct (predict _ _) as [prediction|e0] eqn:Hp; simpl.
    2:{ intros H; inversion H; subst. exfalso. revert Hp. unfold _resolve_model.
        destruct model' as [m|]; [eapply Hmodel; reflexivity|discriminate]. }
    destruct (confidence_interval log prediction _) as [[lo hi]|e0] eqn:Hci; simpl;
      [discriminate|].
    intros H; inversion H; subst.
    destruct (confidence_interval_raises _ _ _ _ Hci). discriminate.
  - intros H; inversion H. split; [reflexivity|].
    exists config, request. split; [reflexivity|split; [exact Hr|]].
    eapply detect_faces_several; [exact Hd|simpl; lia].
Qed.

(** C9, at the failing input: a request whose image is 10 ** 400 pixels
    wide and which carries no hints passes validation, decoding and the
    size check, and the reference detector then returns no list at all:
    [run_inference] ends with the [OverflowError] of [width * 0.1]. *)
Theorem run_inference_detector_overflow :
  run_inference Fixtures.no_log Fixtures.test_files
    (Fixtures.dict [("image_base64", Py.PyStr (Fixtures._encode_image (10 ^ 400, 256) "180.0"));
                    ("consent", Py.PyBool true)])
    None None None = Raise OverflowError.
Proof. vm_compute. reflexivity. Qed.

(** ** Binary64 arithmetic on the probabilities of the interval

    The facts below are read off the reference semantics of the
    primitive floats ([SpecFloat]): shifting, rounding to nearest even,
    and the three operations [1 - c], [d / 2] and [1 - t] that turn a
    clamped confidence level into the two tail probabilities. *)

Lemma digits2_pos_size (p : positive) : digits2_pos p = Pos.size p.
Proof. induction p; simpl; congruence. Qed.

Lemma digits2_pos_bounds (p : positive) :
  2 ^ (Z.pos (digits2_pos p) - 1) <= Z.pos p < 2 ^ Z.pos (digits2_pos p).
Proof.
  rewrite digits2_pos_size. split.
  - pose proof (Pos.size_le p) as H.
    apply Pos2Z.pos_le_pos in H. rewrite Pos2Z.inj_pow in H.
    replace (Z.pos (Pos.size p)) with (Z.pos (Pos.size p) - 1 + 1) in H by lia.
    rewrite Z.pow_add_r in H by lia. change (Z.pos p~0) with (2 * Z.pos p) in H. lia.
  - pose proof (Pos.size_gt p) as H.
    apply Pos2Z.pos_lt_pos in H. rewrite Pos2Z.inj_pow in H. exact H.
Qed.

Lemma digits2_pos_unique (p : positive) (d : Z) :
  2 ^ (d - 1) <= Z.pos p < 2 ^ d -> Z.pos (digits2_pos p) = d.
Proof.
  intros [Hlo Hhi]. pose proof (digits2_pos_bounds p) as [Hlo' Hhi'].
  set (d' := Z.pos (digits2_pos p)) in *.
  assert (Hd : 0 < d).
  { destruct (Z.lt_trichotomy d 0) as [Hneg|[->|Hpos]]; [|simpl in Hhi; lia|exact Hpos].
    rewrite (Z.pow_neg_r 2 d) in Hhi by lia. lia. }
  destruct (Z.lt_trichotomy d' d) as [Hlt|[Heq|Hgt]]; [|assumption|].
  - assert (2 ^ d' <= 2 ^ (d - 1)) by (apply Z.pow_le_mono_r; lia). lia.
  - assert (2 ^ d <= 2 ^ (d' - 1)) by (apply Z.pow_le_mono_r; lia). lia.
Qed.

Lemma iter_pos_iter {A} (f : A -> A) (p : positive) (x : A) :
  SpecFloat.iter_pos f p x = Pos.iter f x p.
Proof.
  revert x. induction p as [p IH|p IH|]; intros x; simpl.
  - rewrite !IH. rewrite <- !Pos.iter_swap. reflexivity.
  - rewrite !IH. reflexivity.
  - reflexivity.
Qed.

Lemma pos_iter_xO (m d : positive) : Z.pos (Pos.iter xO m d) = Z.pos m * 2 ^ Z.pos d.
Proof.
  induction d as [|d IH] using Pos.peano_ind.
  - simpl. lia.
  - rewrite Pos.iter_succ, Pos2Z.inj_succ, Z.pow_succ_r by lia.
    change (Z.pos (Pos.iter xO m d)~0) with (2 * Z.pos (Pos.iter xO m d)). lia.
Qed.

Lemma shr_1_inv (m j : Z) (mrs : shr_record) :
  0 <= m -> 0 <= j -> shr_inv m j mrs -> shr_inv m (j + 1) (shr_1 mrs).
Proof.
  intros Hm Hj [Hq Hexact].
  assert (Hpow : 0 < 2 ^ j) by (apply Z.pow_pos_nonneg; lia).
  assert (Hdiv : m / 2 ^ (j + 1) = m / 2 ^ j / 2).
  { rewrite Z.pow_add_r, Z.pow_1_r by lia. rewrite Z.div_div by lia. reflexivity. }
  assert (Hmod : m mod 2 ^ (j + 1) = 0 -> m mod 2 ^ j = 0 /\ (m / 2 ^ j) mod 2 = 0).
  { rewrite Z.pow_add_r, Z.pow_1_r by lia. intros H.
    rewrite Z.rem_mul_r in H by lia.
    pose proof (Z.mod_pos_bound m (2 ^ j) Hpow).
    pose proof (Z.mod_pos_bound (m / 2 ^ j) 2 ltac:(lia)). nia. }
  assert (Hnn : 0 <= m / 2 ^ j) by (apply Z.div_pos; lia).
  destruct mrs as [a r s]. simpl in *. subst a.
  unfold shr_inv. rewrite Hdiv.
  destruct (m / 2 ^ j) as [|[p|p|]|p] eqn:Ha; simpl; try lia.
  - split; [reflexivity|]. intros H. destruct (Hmod H) as [H1 _].
    destruct (Hexact H1) as [-> ->]. auto.
  - split; [rewrite Pos2Z.inj_xI; apply Z.div_unique with 1; lia|].
    intros H. destruct (Hmod H) as [_ H2]. rewrite Pos2Z.inj_xI in H2.
    replace (2 * Z.pos p + 1) with (1 + Z.pos p * 2) in H2 by lia.
    rewrite Z.mod_add in H2 by lia. discriminate.
  - split; [rewrite Pos2Z.inj_xO; apply Z.div_unique with 0; lia|].
    intros H. destruct (Hmod H) as [H1 _]. destruct (Hexact H1) as [-> ->]. auto.
  - split; [reflexivity|]. intros H. destruct (Hmod H) as [_ H2]. discriminate.
Qed.

Lemma shr_iter_inv (m : Z) (n : positive) :
  0 <= m ->
  shr_inv m (Z.pos n) (SpecFloat.iter_pos shr_1 n (Build_shr_record m false false)).
Proof.
  intros Hm. rewrite iter_pos_iter.
  assert (H0 : shr_inv m 0 (Build_shr_record m false false)).
  { split; simpl; [rewrite Z.div_1_r; reflexivity|auto]. }
  induction n as [|n IH] using Pos.peano_ind.
  - change (shr_inv m (0 + 1) (shr_1 (Build_shr_record m false false))).
    apply shr_1_inv; [lia|lia|exact H0].
  - rewrite Pos.iter_succ, Pos2Z.inj_succ. apply shr_1_inv; [lia|lia|exact IH].
Qed.

Lemma round_nearest_even_bounds (mrs : shr_record) :
  shr_m mrs <= round_nearest_even (shr_m mrs) (loc_of_shr_record mrs) <= shr_m mrs + 1 /\
  (shr_r mrs = false -> shr_s mrs = false ->
   round_nearest_even (shr_m mrs) (loc_of_shr_record mrs) = shr_m mrs).
Proof.
  destruct mrs as [a [|] [|]]; simpl; repeat split; try lia; try discriminate;
    destruct (Z.even a); lia.
Qed.

Lemma fexp_normal (d : Z) : -1021 <= d -> fexp prec emax d = d - 53.
Proof. unfold fexp, emin, prec, emax. lia. Qed.

Lemma shr_fexp_shift (m : positive) (e n : Z) :
  Z.pos (digits2_pos m) = 53 + n -> -1074 <= e + n ->
  shr_fexp prec emax (Z.pos m) e loc_Exact =
  shr (Build_shr_record (Z.pos m) false false) e n.
Proof.
  intros Hd He. unfold shr_fexp. simpl Zdigits2. rewrite Hd.
  rewrite fexp_normal by lia. simpl shr_record_of_loc. f_equal. lia.
Qed.

(** Rounding an integer mantissa of [53 + n] bits in the normal range:
    the result keeps the [53] leading bits, rounded down or up; a carry
    out of the mantissa moves to the next binade; past the largest
    exponent the result is an infinity. *)
Lemma binary_round_aux_cases (sx : bool) (mx : positive) (ex n : Z) :
  Z.pos (digits2_pos mx) = 53 + n -> 0 <= n -> -1074 <= ex + n ->
  exists q : positive,
    Z.pos mx / 2 ^ n <= Z.pos q /\ Z.pos q * 2 ^ n < Z.pos mx + 2 ^ n /\
    binary_round_aux prec emax sx (Z.pos mx) ex loc_Exact =
    if Z.pos q <? 2 ^ 53 then
      if ex + n <=? 971 then S754_finite sx q (ex + n) else S754_infinity sx
    else
      if ex + n + 1 <=? 971 then S754_finite sx (2 ^ 52)%positive (ex + n + 1)
      else S754_infinity sx.
Proof.
  intros Hd Hn Hlo.
  pose proof (digits2_pos_bounds mx) as [Hmlo Hmhi]. rewrite Hd in Hmlo, Hmhi.
  replace (53 + n - 1) with (52 + n) in Hmlo by lia.
  rewrite Z.pow_add_r in Hmlo, Hmhi by lia.
  assert (Hpow : 0 < 2 ^ n) by (apply Z.pow_pos_nonneg; lia).
  unfold binary_round_aux. rewrite (shr_fexp_shift mx ex n Hd Hlo).
  change (emax - prec) with 971.
  destruct n as [|p|p]; [| |lia].
  - (* no bit is dropped *)
    simpl shr. cbv beta iota. simpl loc_of_shr_record. simpl round_nearest_even.
    rewrite (shr_fexp_shift mx ex 0) by (assumption || lia). simpl shr. cbv beta iota.
    simpl shr_m. exists mx. rewrite Z.pow_0_r, Z.div_1_r in *.
    split; [lia|split; [lia|]].
    replace (Z.pos mx <? 2 ^ 53) with true by (symmetry; apply Z.ltb_lt; lia).
    rewrite Z.add_0_r. reflexivity.
  - (* [p] bits are dropped *)
    simpl shr. cbv beta iota.
    pose proof (shr_iter_inv (Z.pos mx) p ltac:(lia)) as [Hq Hexact].
    set (mrs := SpecFloat.iter_pos shr_1 p (Build_shr_record (Z.pos mx) false false)) in *.
    pose proof (round_nearest_even_bounds mrs) as [[Hrlo Hrhi] Hrexact].
    set (qz := round_nearest_even (shr_m mrs) (loc_of_shr_record mrs)) in *.
    rewrite Hq in Hrlo, Hrhi, Hrexact.
    assert (Halo : 2 ^ 52 <= Z.pos mx / 2 ^ Z.pos p).
    { apply Z.div_le_lower_bound; lia. }
    assert (Hahi : Z.pos mx / 2 ^ Z.pos p < 2 ^ 53).
    { apply Z.div_lt_upper_bound; lia. }
    pose proof (Z.div_mod (Z.pos mx) (2 ^ Z.pos p) ltac:(lia)) as Hdm.
    pose proof (Z.mod_pos_bound (Z.pos mx) (2 ^ Z.pos p) Hpow) as Hmb.
    assert (Hceil : qz * 2 ^ Z.pos p < Z.pos mx + 2 ^ Z.pos p).
    { destruct (Z.eq_dec (Z.pos mx mod 2 ^ Z.pos p) 0) as [H0|H0].
      - destruct (Hexact H0) as [Hr Hs]. rewrite (Hrexact Hr Hs). nia.
      - nia. }
    destruct qz as [|q|q] eqn:Hqz; [lia| |lia].
    exists q. split; [lia|split; [lia|]].
    destruct (Z.ltb_spec (Z.pos q) (2 ^ 53)) as [Hlt|Hge].
    + rewrite (shr_fexp_shift q (ex + Z.pos p) 0).
      * simpl shr. cbv beta iota. simpl shr_m. reflexivity.
      * rewrite Z.add_0_r. apply digits2_pos_unique. simpl. lia.
      * lia.
    + assert (Hq53 : q = (2 ^ 53)%positive) by lia. subst q.
      rewrite (shr_fexp_shift (2 ^ 53) (ex + Z.pos p) 1).
      * simpl shr. cbv beta iota. simpl shr_m. reflexivity.
      * reflexivity.
      * lia.
Qed.

(** Away from the largest exponent the result is finite. *)
Lemma binary_round_aux_normal (sx : bool) (mx : positive) (ex n : Z) :
  Z.pos (digits2_pos mx) = 53 + n -> 0 <= n -> -1074 <= ex + n -> ex + n + 1 <= 971 ->
  exists q : positive,
    Z.pos mx / 2 ^ n <= Z.pos q /\ Z.pos q * 2 ^ n < Z.pos mx + 2 ^ n /\
    binary_round_aux prec emax sx (Z.pos mx) ex loc_Exact =
    if Z.pos q <? 2 ^ 53 then S754_finite sx q (ex + n)
    else S754_finite sx (2 ^ 52)%positive (ex + n + 1).
Proof.
  intros Hd Hn Hlo Hhi.
  destruct (binary_round_aux_cases sx mx ex n Hd Hn Hlo) as (q & Hqlo & Hqhi & ->).
  exists q. split; [exact Hqlo|split; [exact Hqhi|]].
  replace (ex + n <=? 971) with true by (symmetry; apply Z.leb_le; lia).
  replace (ex + n + 1 <=? 971) with true by (symmetry; apply Z.leb_le; lia).
  reflexivity.
Qed.

Lemma shl_align_left (m : positive) (e e' : Z) :
  e' < e ->
  exists m', shl_align m e e' = (m', e') /\ Z.pos m' = Z.pos m * 2 ^ (e - e').
Proof.
  intros H. unfold shl_align. destruct (e' - e) as [|d|d] eqn:Hd; try lia.
  eexists. split; [reflexivity|]. rewrite pos_iter_xO. f_equal. f_equal. lia.
Qed.

Lemma shl_align_noop (m : positive) (e e' : Z) :
  e <= e' -> shl_align m e e' = (m, e).
Proof.
  intros H. unfold shl_align. destruct (e' - e) as [|d|d] eqn:Hd; try lia; reflexivity.
Qed.

(** What validity says of a positive finite number. *)
Lemma valid_binary_finite (m : positive) (e : Z) :
  valid_binary (S754_finite false m e) = true ->
  Z.pos (digits2_pos m) <= 53 /\ -1074 <= e <= 971 /\
  (Z.pos (digits2_pos m) = 53 \/ e = -1074).
Proof.
  simpl. unfold bounded, canonical_mantissa, fexp, emin, prec, emax.
  intros H. apply andb_true_iff in H. destruct H as [H1 H2].
  apply Z.eqb_eq in H1. apply Z.leb_le in H2. lia.
Qed.

Lemma SFleb_finite_inv (m1 m2 : positive) (e1 e2 : Z) :
  SFleb (S754_finite false m1 e1) (S754_finite false m2 e2) = true ->
  e1 < e2 \/ (e1 = e2 /\ Z.pos m1 <= Z.pos m2).
Proof.
  unfold SFleb, SFcompare. destruct (Z.compare_spec e1 e2) as [->|Hlt|Hgt].
  - intros H. right. split; [reflexivity|].
    rewrite Pos.compare_cont_spec in H. simpl in H.
    destruct (Pos.compare_spec m1 m2) as [Heq|Hc|Hc]; simpl in *.
    + subst. lia.
    + lia.
    + discriminate.
  - auto.
  - discriminate.
Qed.

(** [1 - c] for [0 < c <= 0.999]: a normalised number between [2 ** -10]
    and [1]. *)
Lemma SFsub_one (mc : positive) (ec : Z) :
  valid_binary (S754_finite false mc ec) = true ->
  SFleb (S754_finite false mc ec) SF_0999 = true ->
  exists md ed,
    SFsub prec emax SF_one (S754_finite false mc ec) = S754_finite false md ed /\
    Z.pos (digits2_pos md) = 53 /\ -62 <= ed <= -52 /\
    (ed = -52 -> md = (2 ^ 52)%positive).
Proof.
  intros Hvalid Hle.
  apply valid_binary_finite in Hvalid. destruct Hvalid as (Hdg & [Helo Hehi] & Hcanon).
  apply SFleb_finite_inv in Hle.
  pose proof (digits2_pos_bounds mc) as [Hclo Hchi].
  assert (Hc53 : Z.pos mc < 2 ^ 53).
  { eapply Z.lt_le_trans; [exact Hchi|]. apply Z.pow_le_mono_r; lia. }
  assert (Hec : ec <= -53) by lia.
  unfold SFsub, SF_one. cbv zeta.
  replace (Z.min (-52) ec) with ec by lia.
  destruct (shl_align_left (2 ^ 52) (-52) ec ltac:(lia)) as (a & -> & Ha).
  rewrite (shl_align_noop mc ec ec) by lia. simpl fst. simpl cond_Zopp.
  replace (Z.pos (2 ^ 52) * 2 ^ (-52 - ec)) with (2 ^ (- ec)) in Ha.
  2:{ change (Z.pos (2 ^ 52)) with (2 ^ 52). rewrite <- Z.pow_add_r by lia. f_equal. lia. }
  assert (Hk : 2 ^ 53 <= 2 ^ (- ec)) by (apply Z.pow_le_mono_r; lia).
  destruct (Z.pos a - Z.pos mc) as [|M|M] eqn:HM; [lia| |lia].
  unfold binary_normalize, binary_round.
  destruct (Z_le_gt_dec ec (-54)) as [Hbig|Hsmall].
  - (* the subtrahend is below one half: the difference has [-ec] bits *)
    assert (HdM : Z.pos (digits2_pos M) = 53 + (- ec - 53)).
    { apply digits2_pos_unique. replace (53 + (- ec - 53)) with (- ec) by lia.
      split; [|lia].
      assert (2 ^ (- ec) = 2 * 2 ^ (- ec - 1)).
      { rewrite <- Z.pow_succ_r by lia. f_equal. lia. }
      assert (2 ^ 53 <= 2 ^ (- ec - 1)) by (apply Z.pow_le_mono_r; lia). lia. }
    rewrite HdM. rewrite fexp_normal by lia.
    rewrite shl_align_noop by lia.
    destruct (binary_round_aux_normal false M ec (- ec - 53) HdM ltac:(lia) ltac:(lia) ltac:(lia))
      as (q & Hqlo & Hqhi & ->).
    assert (Hpow : 0 < 2 ^ (- ec - 53)) by (apply Z.pow_pos_nonneg; lia).
    assert (HMlo : 2 ^ 52 * 2 ^ (- ec - 53) <= Z.pos M).
    { rewrite <- Z.pow_add_r by lia. replace (52 + (- ec - 53)) with (- ec - 1) by lia.
      pose proof (digits2_pos_bounds M) as [HMl _]. rewrite HdM in HMl.
      replace (53 + (- ec - 53) - 1) with (- ec - 1) in HMl by lia. exact HMl. }
    assert (Hq52 : 2 ^ 52 <= Z.pos q).
    { eapply Z.le_trans; [|exact Hqlo]. apply Z.div_le_lower_bound; lia. }
    destruct (Z.ltb_spec (Z.pos q) (2 ^ 53)) as [Hlt|Hge].
    + exists q, (ec + (- ec - 53)). split; [reflexivity|].
      split; [apply digits2_pos_unique; simpl; lia|]. split; [lia|lia].
    + exists (2 ^ 52)%positive, (ec + (- ec - 53) + 1). split; [reflexivity|].
      split; [reflexivity|]. split; [lia|reflexivity].
  - (* the subtrahend lies in [0.5, 0.999]: the difference is exact *)
    assert (ec = -53) by lia. subst ec.
    destruct Hle as [?|[_ Hm999]]; [lia|].
    destruct Hcanon as [Hcanon|?]; [|lia]. rewrite Hcanon in Hclo.
    change (2 ^ (- -53)) with (2 ^ 53) in *.
    pose proof (digits2_pos_bounds M) as [HMlo HMhi].
    set (dM := Z.pos (digits2_pos M)) in *.
    assert (HdMhi : dM <= 53).
    { destruct (Z_le_gt_dec dM 53); [assumption|].
      assert (2 ^ 53 <= 2 ^ (dM - 1)) by (apply Z.pow_le_mono_r; lia). lia. }
    assert (HdMlo : 44 <= dM).
    { destruct (Z_le_gt_dec 44 dM); [assumption|].
      assert (2 ^ dM <= 2 ^ 43) by (apply Z.pow_le_mono_r; lia). lia. }
    rewrite fexp_normal by lia.
    destruct (Z.eq_dec dM 53) as [H53|H53].
    + rewrite shl_align_noop by lia.
      destruct (binary_round_aux_normal false M (-53) 0 ltac:(fold dM; lia) ltac:(lia) ltac:(lia)
                  ltac:(lia)) as (q & Hqlo & Hqhi & ->).
      rewrite Z.pow_0_r, Z.div_1_r in *.
      assert (q = M) by lia. subst q.
      replace (Z.pos M <? 2 ^ 53) with true by (symmetry; apply Z.ltb_lt; lia).
      exists M, (-53 + 0). split; [reflexivity|]. split; [fold dM; lia|]. split; lia.
    + destruct (shl_align_left M (-53) (dM + -53 - 53) ltac:(lia)) as (M' & -> & HM').
      assert (Hsh : 0 < 2 ^ (-53 - (dM + -53 - 53))) by (apply Z.pow_pos_nonneg; lia).
      assert (HdM' : Z.pos (digits2_pos M') = 53 + 0).
      { apply digits2_pos_unique. rewrite HM'.
        replace (53 + 0 - 1) with 52 by lia. replace (53 + 0) with 53 by lia.
        set (sh := -53 - (dM + -53 - 53)) in *.
        assert (E1 : 2 ^ 52 = 2 ^ (dM - 1) * 2 ^ sh).
        { rewrite <- Z.pow_add_r by lia. f_equal. lia. }
        assert (E2 : 2 ^ 53 = 2 ^ dM * 2 ^ sh).
        { rewrite <- Z.pow_add_r by lia. f_equal. lia. }
        rewrite E1, E2.
        split; [apply Z.mul_le_mono_nonneg_r; lia|apply Z.mul_lt_mono_pos_r; lia]. }
      destruct (binary_round_aux_normal false M' (dM + -53 - 53) 0 HdM' ltac:(lia) ltac:(lia)
                  ltac:(lia)) as (q & Hqlo & Hqhi & ->).
      rewrite Z.pow_0_r, Z.div_1_r in *.
      assert (q = M') by lia. subst q.
      pose proof (digits2_pos_bounds M') as [_ HM'hi]. rewrite HdM' in HM'hi.
      replace (Z.pos M' <? 2 ^ 53) with true by (symmetry; apply Z.ltb_lt; exact HM'hi).
      exists M', (dM + -53 - 53 + 0). split; [reflexivity|]. split; [exact HdM'|].
      split; lia.
Qed.

(** Halving a normalised number away from the subnormal range is exact. *)
Lemma SFdiv_two (md : positive) (ed : Z) :
  Z.pos (digits2_pos md) = 53 -> -1000 <= ed <= 971 ->
  SFdiv prec emax (S754_finite false md ed) SF_two = S754_finite false md (ed - 1).
Proof.
  intros Hd He. unfold SFdiv, SF_two.
  assert (Hcore : SFdiv_core_binary prec emax (Z.pos md) ed (Z.pos (2 ^ 52)) (-51) =
                  (Z.pos md~0, ed - 2, loc_Exact)).
  { unfold SFdiv_core_binary.
    change (Zdigits2 (Z.pos md)) with (Z.pos (digits2_pos md)).
    change (Zdigits2 (Z.pos (2 ^ 52))) with 53. rewrite Hd.
    rewrite fexp_normal by lia.
    replace (Z.min (53 + ed - (53 + -51) - 53) (ed - -51)) with (ed - 2) by lia.
    replace (ed - -51 - (ed - 2)) with 53 by lia.
    cbv zeta.
    rewrite Z.shiftl_mul_pow2 by lia.
    set (A := Z.pos md * 2 ^ 53). set (B := Z.pos (2 ^ 52)).
    assert (HB : B = 4503599627370496) by reflexivity.
    assert (HA : A = Z.pos md~0 * B).
    { unfold A. rewrite HB, Pos2Z.inj_xO. change (2 ^ 53) with 9007199254740992. lia. }
    assert (Heucl : Z.div_eucl A B = (A / B, A mod B)).
    { unfold Z.div, Z.modulo. destruct (Z.div_eucl A B). reflexivity. }
    rewrite Heucl, HA, Z.div_mul, Z.mod_mul by lia. reflexivity. }
  rewrite Hcore. simpl xorb.
  assert (Hd2 : Z.pos (digits2_pos md~0) = 53 + 1).
  { simpl digits2_pos. rewrite Pos2Z.inj_succ. lia. }
  destruct (binary_round_aux_normal false md~0 (ed - 2) 1 Hd2 ltac:(lia) ltac:(lia) ltac:(lia))
    as (q & Hqlo & Hqhi & ->).
  rewrite Pos2Z.inj_xO in Hqlo, Hqhi. rewrite Z.pow_1_r in Hqlo, Hqhi.
  rewrite Z.mul_comm, Z.div_mul in Hqlo by lia.
  assert (q = md) by lia. subst q.
  pose proof (digits2_pos_bounds md) as [_ Hhi]. rewrite Hd in Hhi.
  replace (Z.pos md <? 2 ^ 53) with true by (symmetry; apply Z.ltb_lt; exact Hhi).
  f_equal. lia.
Qed.

(** [1 - t] for a normalised [t] between [2 ** -11] and [1/2]: a number
    in [1/2, 1). *)
Lemma SFsub_one_tail (mt : positive) (et : Z) :
  Z.pos (digits2_pos mt) = 53 -> -63 <= et <= -53 ->
  (et = -53 -> mt = (2 ^ 52)%positive) ->
  exists mp,
    SFsub prec emax SF_one (S754_finite false mt et) = S754_finite false mp (-53).
Proof.
  intros Hd He Hhalf.
  pose proof (digits2_pos_bounds mt) as [Htlo Hthi]. rewrite Hd in Htlo, Hthi.
  simpl (53 - 1) in Htlo.
  unfold SFsub, SF_one. cbv zeta.
  replace (Z.min (-52) et) with et by lia.
  destruct (shl_align_left (2 ^ 52) (-52) et ltac:(lia)) as (a & -> & Ha).
  rewrite (shl_align_noop mt et et) by lia. simpl fst. simpl cond_Zopp.
  replace (Z.pos (2 ^ 52) * 2 ^ (-52 - et)) with (2 ^ (- et)) in Ha.
  2:{ change (Z.pos (2 ^ 52)) with (2 ^ 52). rewrite <- Z.pow_add_r by lia. f_equal. lia. }
  assert (Hk : 2 ^ 53 <= 2 ^ (- et)) by (apply Z.pow_le_mono_r; lia).
  destruct (Z.eq_dec et (-53)) as [->|Hne].
  - (* t = 1/2 *)
    rewrite (Hhalf eq_refl) in *. change (2 ^ (- -53)) with (2 ^ 53) in Ha.
    assert (a = (2 ^ 53)%positive) by lia. subst a.
    exists (2 ^ 52)%positive. vm_compute. reflexivity.
  - destruct (Z.pos a - Z.pos mt) as [|M|M] eqn:HM; [lia| |lia].
    unfold binary_normalize, binary_round.
    assert (H2k : 2 ^ (- et) = 2 * 2 ^ (- et - 1)).
    { rewrite <- Z.pow_succ_r by lia. f_equal. lia. }
    assert (Hk1 : 2 ^ 53 <= 2 ^ (- et - 1)) by (apply Z.pow_le_mono_r; lia).
    assert (HdM : Z.pos (digits2_pos M) = 53 + (- et - 53)).
    { apply digits2_pos_unique. replace (53 + (- et - 53)) with (- et) by lia.
      split; lia. }
    rewrite HdM. rewrite fexp_normal by lia.
    rewrite shl_align_noop by lia.
    destruct (binary_round_aux_normal false M et (- et - 53) HdM ltac:(lia) ltac:(lia) ltac:(lia))
      as (q & Hqlo & Hqhi & ->).
    assert (Hpow : 0 < 2 ^ (- et - 53)) by (apply Z.pow_pos_nonneg; lia).
    assert (Hpow10 : 2 ^ (- et - 53) <= 2 ^ 10) by (apply Z.pow_le_mono_r; lia).
    assert (Hsplit : 2 ^ (- et) = 2 ^ 53 * 2 ^ (- et - 53)).
    { rewrite <- Z.pow_add_r by lia. f_equal. lia. }
    assert (Hq53 : Z.pos q < 2 ^ 53).
    { apply (Z.mul_lt_mono_pos_r (2 ^ (- et - 53))); [exact Hpow|].
      change (2 ^ 10) with 1024 in Hpow10. change (2 ^ 52) with 4503599627370496 in Htlo.
      lia. }
    replace (Z.pos q <? 2 ^ 53) with true by (symmetry; apply Z.ltb_lt; exact Hq53).
    exists q. f_equal. lia.
Qed.

(** *** From the reference semantics to the primitive floats *)

Lemma Prim2SF_positive (x : float) :
  (0 <? x)%float = true ->
  (exists m e, Prim2SF x = S754_finite false m e) \/ Prim2SF x = S754_infinity false.
Proof.
  rewrite ltb_spec. change (Prim2SF 0%float) with (S754_zero false).
  unfold SFltb, SFcompare.
  destruct (Prim2SF x) as [s|s| |s m e]; try discriminate; destruct s; try discriminate; eauto.
Qed.

Lemma positive_float_not_below_zero (x : float) :
  (0 <? x)%float = true -> (x <=? 0)%float = false /\ (x <? 0)%float = false.
Proof.
  intros H. rewrite leb_spec, ltb_spec. change (Prim2SF 0%float) with (S754_zero false).
  destruct (Prim2SF_positive x H) as [(m & e & ->)| ->]; split; reflexivity.
Qed.

Lemma SFleb_of_not_SFltb (m1 m2 : positive) (e1 e2 : Z) :
  SFltb (S754_finite false m2 e2) (S754_finite false m1 e1) = false ->
  SFleb (S754_finite false m1 e1) (S754_finite false m2 e2) = true.
Proof.
  unfold SFltb, SFleb, SFcompare.
  rewrite (Z.compare_antisym e2 e1). destruct (e2 ?= e1); simpl; try reflexivity; try discriminate.
  rewrite !Pos.compare_cont_spec. simpl.
  rewrite (Pos.compare_antisym m2 m1). destruct (m2 ?= m1)%positive; simpl; congruence.
Qed.

(** A level strictly between 0 and 1 is clamped to a positive number not
    above 0.999. *)
Lemma clamped_level_range (level' : float) :
  (0 <? level')%float = true -> (level' <? 1)%float = true ->
  (0 <? Py.max (Py.min level' 0.999) 0.0)%float = true /\
  (Py.max (Py.min level' 0.999) 0.0 <=? 0.999)%float = true.
Proof.
  intros H0 H1. unfold Py.min.
  destruct (0.999 <? level')%float eqn:Hcap.
  - split; reflexivity.
  - unfold Py.max. destruct (positive_float_not_below_zero _ H0) as [_ ->].
    split; [exact H0|].
    revert Hcap H1. rewrite !ltb_spec, leb_spec.
    change (Prim2SF 0.999%float) with SF_0999. change (Prim2SF 1%float) with SF_one.
    destruct (Prim2SF_positive _ H0) as [(m & e & ->)| ->]; [|discriminate].
    intros Hcap _. apply SFleb_of_not_SFltb. exact Hcap.
Qed.

(** The two probabilities handed to [inv_cdf] lie strictly between 0 and
    1, for every clamped level [c] with [0 < c <= 0.999]. *)
Lemma tail_probabilities_in_range (c : float) :
  (0 <? c)%float = true -> (c <=? 0.999)%float = true ->
  let tail := ((1 - c) / 2)%float in
  (tail <=? 0)%float = false /\ (1 <=? tail)%float = false /\
  (1 - tail <=? 0)%float = false /\ (1 <=? 1 - tail)%float = false.
Proof.
  intros H0 H1. cbv zeta.
  pose proof (Prim2SF_valid c) as Hvalid.
  revert H1. rewrite !leb_spec, !sub_spec, div_spec, sub_spec.
  change (Prim2SF 0.999%float) with SF_0999. change (Prim2SF 1%float) with SF_one.
  change (Prim2SF 2%float) with SF_two. change (Prim2SF 0%float) with (S754_zero false).
  destruct (Prim2SF_positive _ H0) as [(mc & ec & Hc)|Hc]; rewrite Hc in *; [|discriminate].
  intros H1. unfold SF64sub, SF64div.
  destruct (SFsub_one mc ec Hvalid H1) as (md & ed & -> & Hd & Hed & Hone).
  rewrite (SFdiv_two md ed Hd) by lia.
  destruct (SFsub_one_tail md (ed - 1) Hd ltac:(lia)) as (mp & ->).
  { intros He. apply Hone. lia. }
  unfold SFleb, SFcompare, SF_one.
  replace (-52 ?= ed - 1) with Gt by (symmetry; apply Z.compare_gt_iff; lia).
  repeat split; reflexivity.
Qed.

Lemma SFcompare_antisym (x y : spec_float) :
  SFcompare y x = option_map CompOpp (SFcompare x y).
Proof.
  destruct x as [[|]|[|]| |[|] m1 e1], y as [[|]|[|]| |[|] m2 e2]; simpl; try reflexivity.
  - rewrite (Z.compare_antisym e1 e2). destruct (e1 ?= e2); simpl; try reflexivity.
    rewrite !Pos.compare_cont_spec. simpl.
    rewrite (Pos.compare_antisym m1 m2). destruct (m1 ?= m2)%positive; reflexivity.
  - rewrite (Z.compare_antisym e1 e2). destruct (e1 ?= e2); simpl; try reflexivity.
    rewrite !Pos.compare_cont_spec. simpl.
    rewrite (Pos.compare_antisym m1 m2). destruct (m1 ?= m2)%positive; reflexivity.
Qed.

(** On numbers (not NaN), [x <= y] holds as soon as [y < x] fails. *)
Lemma leb_of_not_ltb (x y : float) :
  (x =? x)%float = true -> (y =? y)%float = true ->
  (y <? x)%float = false -> (x <=? y)%float = true.
Proof.
  rewrite !FloatAxioms.eqb_spec, FloatAxioms.ltb_spec, FloatAxioms.leb_spec.
  unfold SFeqb, SFltb, SFleb.
  rewrite (SFcompare_antisym (Prim2SF x) (Prim2SF y)).
  assert (Hnan : forall z, SFcompare z z = Some Eq -> z <> S754_nan) by (intros z H ->; discriminate).
  intros Hx Hy.
  assert (Hdef : SFcompare (Prim2SF x) (Prim2SF y) <> None).
  { destruct (Prim2SF x) as [sx|sx| |sx mx ex]; try discriminate;
      destruct (Prim2SF y) as [sy|sy| |sy my ey]; try discriminate;
      simpl; destruct sx, sy; discriminate. }
  destruct (SFcompare (Prim2SF x) (Prim2SF y)) as [[]|]; simpl; congruence.
Qed.

(** ** The confidence interval ([confidence_interval]) *)

(** Past the clamp, with a positive uncertainty, the interval is defined:
    its bounds are the quantiles of the normal distribution at [tail] and
    [1 - tail]. *)
Lemma confidence_interval_of_clamped (log : float -> float) (prediction : AgePrediction)
    (level' : float) :
  (0 <? Py.max (Py.min level' 0.999) 0.0)%float = true ->
  (Py.max (Py.min level' 0.999) 0.0 <=? 0.999)%float = true ->
  (0 <? uncertainty prediction)%float = true ->
  confidence_interval log prediction level' =
  let tail := ((1 - Py.max (Py.min level' 0.999) 0.0) / 2)%float in
  Ok (Statistics._normal_dist_inv_cdf log tail (value prediction) (uncertainty prediction),
      Statistics._normal_dist_inv_cdf log (1 - tail)%float (value prediction)
        (uncertainty prediction)).
Proof.
  intros Hc0 Hc1 Hs.
  destruct (tail_probabilities_in_range _ Hc0 Hc1) as (Ht0 & Ht1 & Hu0 & Hu1).
  destruct (positive_float_not_below_zero _ Hc0) as [Hcle _].
  destruct (positive_float_not_below_zero _ Hs) as [Hsle Hslt].
  unfold confidence_interval. rewrite Hcle.
  unfold Statistics.NormalDist_init. rewrite Hslt. rewrite bind_Ok.
  unfold Statistics.inv_cdf. simpl Statistics._sigma. simpl Statistics._mu.
  rewrite Ht0, Ht1, Hu0, Hu1, Hsle. reflexivity.
Qed.

(** In particular for every level that validation lets through. *)
Lemma confidence_interval_defined (log : float -> float) (prediction : AgePrediction)
    (level' : float) :
  (0 <? level')%float = true -> (level' <? 1)%float = true ->
  (0 <? uncertainty prediction)%float = true ->
  exists lower' upper', confidence_interval log prediction level' = Ok (lower', upper').
Proof.
  intros H0 H1 Hs. destruct (clamped_level_range level' H0 H1) as [Hc0 Hc1].
  rewrite (confidence_interval_of_clamped log prediction level' Hc0 Hc1 Hs). eauto.
Qed.

Lemma ltb_of_leb (x y : float) : (x <=? y)%float = true -> (y <? x)%float = false.
Proof.
  rewrite FloatAxioms.ltb_spec, FloatAxioms.leb_spec. unfold SFltb, SFleb.
  rewrite (SFcompare_antisym (Prim2SF x) (Prim2SF y)).
  destruct (SFcompare (Prim2SF x) (Prim2SF y)) as [[]|]; simpl; congruence.
Qed.

Lemma leb_of_eqb (x y : float) : (x =? y)%float = true -> (x <=? y)%float = true.
Proof.
  rewrite FloatAxioms.eqb_spec, FloatAxioms.leb_spec. unfold SFeqb, SFleb.
  destruct (SFcompare (Prim2SF x) (Prim2SF y)) as [[]|]; simpl; congruence.
Qed.

(** At level 0.5 both probabilities fall in the central region of the
    quantile routine, where no logarithm is taken: the interval of the
    prediction (32.5, 3.0) is the same whatever [math.log] computes. *)
Lemma confidence_interval_at_half (log : float -> float) :
  confidence_interval log {| value := 32.5%float; uncertainty := 3%float |} 0.5%float =
  Ok (30.476530749411754%float, 34.523469250588242%float).
Proof. vm_compute. reflexivity. Qed.

(** C5, as stated, fails: the interval of the prediction (32.5, 3.0) at
    level 0.5 is not symmetric.  Its bounds are 30.476530749411754 and
    34.523469250588242; the lower half-width is 2.0234692505882457, the
    upper one 2.0234692505882421.  Neither Python's [==] nor equality of
    the two binary64 numbers holds. *)
Lemma confidence_interval_asymmetric :
  ~ (forall (log : float -> float) (prediction : AgePrediction) (level' lower' upper' : float),
        (0 <? level')%float = true -> (level' <=? 0.999)%float = true ->
        confidence_interval log prediction level' = Ok (lower', upper') ->
        (value prediction - lower' =? upper' - value prediction)%float = true) /\
  ~ (forall (log : float -> float) (prediction : AgePrediction) (level' lower' upper' : float),
        (0 <? level')%float = true -> (level' <=? 0.999)%float = true ->
        confidence_interval log prediction level' = Ok (lower', upper') ->
        (value prediction - lower')%float = (upper' - value prediction)%float).
Proof.
  split; intros H;
    specialize (H Fixtures.no_log {| value := 32.5%float; uncertainty := 3%float |}
                  0.5%float _ _ eq_refl eq_refl
                  (confidence_interval_at_half Fixtures.no_log)); simpl in H.
  - vm_compute in H. discriminate.
  - apply (f_equal Prim2SF) in H. vm_compute in H. discriminate.
Qed.

(** C5, amended: a level that is a number is clamped to [0, 0.999]; when
    the clamped level is 0 the interval is the point (value, value); for
    a level in (0, 0.999], which the clamp leaves unchanged, and a
    positive uncertainty, the interval consists of the quantiles of the
    normal distribution of mean [value] and deviation [uncertainty] at
    [tail = (1 - level) / 2] and at [1 - tail]. *)
Theorem confidence_interval_bounds (log : float -> float) (prediction : AgePrediction)
    (level' : float) :
  let clamped := Py.max (Py.min level' 0.999) 0.0 in
  ((level' =? level')%float = true ->
   (0 <=? clamped)%float = true /\ (clamped <=? 0.999)%float = true) /\
  ((clamped =? 0)%float = true ->
   confidence_interval log prediction level' = Ok (value prediction, value prediction)) /\
  ((0 <? level')%float = true -> (level' <=? 0.999)%float = true ->
   (0 <? uncertainty prediction)%float = true ->
   clamped = level' /\
   confidence_interval log prediction level' =
   let tail := ((1 - level') / 2)%float in
   Ok (Statistics._normal_dist_inv_cdf log tail (value prediction) (uncertainty prediction),
       Statistics._normal_dist_inv_cdf log (1 - tail)%float (value prediction)
         (uncertainty prediction))).
Proof.
  cbv zeta. split; [|split].
  - intros Hnum. unfold Py.min. destruct (0.999 <? level')%float eqn:Hcap.
    + split; reflexivity.
    + unfold Py.max. destruct (level' <? 0)%float eqn:Hneg.
      * split; reflexivity.
      * split; apply leb_of_not_ltb; auto.
  - intros Hzero. unfold confidence_interval. rewrite (leb_of_eqb _ _ Hzero). reflexivity.
  - intros H0 H1 Hs.
    assert (Hc : Py.max (Py.min level' 0.999) 0.0 = level').
    { unfold Py.min. rewrite (ltb_of_leb _ _ H1). unfold Py.max.
      destruct (positive_float_not_below_zero _ H0) as [_ ->]. reflexivity. }
    split; [exact Hc|].
    rewrite (confidence_interval_of_clamped log prediction level');
      rewrite ?Hc; auto.
Qed.

Lemma confidence_interval_bounds_witness :
  confidence_interval Fixtures.no_log {| value := 32.5%float; uncertainty := 3%float |}
    0.5%float =
  Ok (30.476530749411754%float, 34.523469250588242%float).
Proof.
  refine (eq_trans
            (proj2 (proj2 (proj2 (confidence_interval_bounds Fixtures.no_log
                                    {| value := 32.5%float; uncertainty := 3%float |}
                                    0.5%float)) _ _ _)) _).
  - reflexivity.
  - reflexivity.
  - reflexivity.
  - vm_compute. reflexivity.
Defined.

(** ** The success path ([run_inference]) *)

(** A validated request carries a confidence level strictly between 0
    and 1. *)
Lemma validate_payload_level (payload : Py.value) (config : AgeServiceConfig)
    (request : ValidatedRequest) :
  validate_payload payload config = Ok request ->
  (0 <? confidence_level request)%float = true /\
  (confidence_level request <? 1)%float = true.
Proof.
  unfold validate_payload. destruct payload; try discriminate.
  destruct (Py.getitem d "consent") as [c|e0]; simpl; [|destruct (is_KeyError e0); discriminate].
  destruct (Py.bool_of c); simpl; [|discriminate].
  destruct (Py.getitem d "image_base64") as [i|e0]; simpl;
    [|destruct (is_KeyError e0); discriminate].
  destruct i as [| | | |[|ch s]| |]; try discriminate.
  destruct (_coerce_confidence_level _ _) as [l|e0] eqn:Hl; simpl; [|discriminate].
  destruct (_parse_detector_hints _ _) as [hs|e0]; simpl; [|discriminate].
  intros H; inversion H; subst; simpl. clear H.
  revert Hl. unfold _coerce_confidence_level.
  destruct (Py.float_of _) as [l'|e0]; simpl; [|destruct (_ || _); discriminate].
  destruct (0 <? l')%float eqn:H0, (l' <? 1)%float eqn:H1; simpl; try discriminate.
  intros H; inversion H; subst. auto.
Qed.

(** C1: a valid request with exactly one detector hint, whatever the box,
    succeeds.  With the reference detector and model the response has
    status ["success"] and its age is [60 * (intensity / 255) + 5], the
    prediction of the reference model on the image cropped to the hint
    and normalised, both of which keep the intensity.  With any detector
    that answers the hint by one detection that is not occluded and any
    model whose prediction has a positive uncertainty, the response has
    status ["success"] and its age is the value the model predicts on
    the cropped and normalised image. *)
Theorem run_inference_single_hint (log : float -> float) (fs : files) (payload : Py.value)
    (config_path : option string) (config : AgeServiceConfig) (request : ValidatedRequest)
    (loaded : LoadedImage) (hint : FaceBoundingBox) :
  load_config fs config_path = Ok config ->
  validate_payload payload config = Ok request ->
  detector_hints request = [hint] ->
  load_base64_image (image_base64 request) = Ok loaded ->
  _validate_image_size (image loaded) config = Ok tt ->
  (exists resp,
      run_inference log fs payload config_path None None = Ok resp /\
      status resp = "success" /\
      age_value (age resp) = (60 * (intensity (image loaded) / 255) + 5)%float /\
      predict (CalibratedLinearModel 60 5 7.5)
        (normalise_image
           (crop_box (image loaded) (x hint) (y hint) (Detector.width hint)
              (Detector.height hint))) =
      Ok {| value := age_value (age resp); uncertainty := 7.5%float |} /\
      intensity (normalise_image
                   (crop_box (image loaded) (x hint) (y hint) (Detector.width hint)
                      (Detector.height hint))) = intensity (image loaded)) /\
  (forall detector' model' detection prediction,
      detect_faces (_resolve_detector config detector') (image loaded) (Some [hint]) =
        Ok [detection] ->
      occluded detection = false ->
      predict (_resolve_model config model')
        (normalise_image (crop_to_face (image loaded) detection)) = Ok prediction ->
      (0 <? uncertainty prediction)%float = true ->
      exists resp,
        run_inference log fs payload config_path detector' model' = Ok resp /\
        status resp = "success" /\
        age_value (age resp) = value prediction).
Proof.
  intros Hc Hr Hh Hl Hs.
  destruct (validate_payload_level _ _ _ Hr) as [Hl0 Hl1].
  assert (Hgeneral : forall detector' model' detection prediction,
             detect_faces (_resolve_detector config detector') (image loaded) (Some [hint]) =
               Ok [detection] ->
             occluded detection = false ->
             predict (_resolve_model config model')
               (normalise_image (crop_to_face (image loaded) detection)) = Ok prediction ->
             (0 <? uncertainty prediction)%float = true ->
             exists resp,
               run_inference log fs payload config_path detector' model' = Ok resp /\
               status resp = "success" /\
               age_value (age resp) = value prediction).
  { intros detector' model' detection prediction Hd Hocc Hp Hu.
    rewrite <- Hh in Hd.
    rewrite (run_inference_after_detection log _ _ _ detector' model' _ _ _ Hc Hr Hl Hs _ Hd).
    rewrite Hocc, Hp, bind_Ok.
    destruct (confidence_interval_defined log prediction _ Hl0 Hl1 Hu) as (lo & hi & ->).
    rewrite bind_Ok. eexists. repeat split. }
  split; [|exact Hgeneral].
  destruct (Hgeneral None None
              {| bounding_box := hint; confidence := 0.9%float; occluded := false |}
              {| value := (60 * (intensity (image loaded) / 255) + 5)%float;
                 uncertainty := 7.5%float |})
    as (resp & Hrun & Hstatus & Hage); try reflexivity.
  { unfold _resolve_detector. destruct (String.eqb _ _); reflexivity. }
  exists resp. rewrite Hage. repeat split; assumption.
Qed.

Lemma run_inference_single_hint_witness :
  exists resp,
    run_inference Fixtures.no_log Fixtures.test_files Fixtures.one_hint_payload None None None =
      Ok resp /\
    status resp = "success" /\
    age_value (age resp) = (60 * (180 / 255) + 5)%float.
Proof.
  destruct (proj1 (run_inference_single_hint Fixtures.no_log Fixtures.test_files
                     Fixtures.one_hint_payload None Fixtures.test_config
                     {| image_base64 := Fixtures.encoded_image; consent := true;
                        confidence_level := 0.5%float; return_face_bbox := false;
                        detector_hints :=
                          [ {| x := 10; y := 10; Detector.width := 100;
                               Detector.height := 120 |} ] |}
                     {| image := {| Image.width := 256; Image.height := 256;
                                    intensity := 180%float |};
                        raw_bytes := Py.chars "256,256,180.0" |}
                     {| x := 10; y := 10; Detector.width := 100; Detector.height := 120 |}
                     eq_refl ltac:(vm_compute; reflexivity) eq_refl
                     ltac:(vm_compute; reflexivity) eq_refl))
    as (resp & Hrun & Hstatus & Hage & _).
  exists resp. repeat split; assumption.
Defined.

(** ** The reference detector on images whose dimensions convert

    As long as [float(width)] and [float(height)] exist, the products by
    0.1 and 0.8 are finite and the detector does answer.  Below 2 ** 1022
    pixels a side the conversions always exist. *)

Lemma valid_binary_normal (s : bool) (m : positive) (e : Z) :
  Z.pos (digits2_pos m) = 53 -> -1074 <= e <= 971 ->
  valid_binary (S754_finite s m e) = true.
Proof.
  intros Hd He. simpl. unfold bounded, canonical_mantissa. rewrite Hd.
  rewrite fexp_normal by lia. apply andb_true_iff. split.
  - apply Z.eqb_eq. lia.
  - apply Z.leb_le. unfold emax, prec. lia.
Qed.

(** Rounding a non-zero integer to binary64: a normalised number, or an
    infinity when the integer is too large; never the latter below
    2 ** 1022. *)
Lemma binary_round_int (sx : bool) (p : positive) :
  (binary_round prec emax sx p 0 = S754_infinity sx /\ 2 ^ 1022 <= Z.pos p) \/
  exists m e,
    binary_round prec emax sx p 0 = S754_finite sx m e /\
    Z.pos (digits2_pos m) = 53 /\ -52 <= e <= 971.
Proof.
  unfold binary_round.
  pose proof (digits2_pos_bounds p) as [Hlo Hhi].
  set (d := Z.pos (digits2_pos p)) in *.
  assert (Hd1 : 1 <= d) by (unfold d; lia).
  rewrite Z.add_0_r. rewrite fexp_normal by lia.
  destruct (Z_lt_le_dec d 53) as [Hsmall|Hbig].
  - right.
    destruct (shl_align_left p 0 (d - 53) ltac:(lia)) as (p' & -> & Hp').
    assert (Hsh : 0 < 2 ^ (0 - (d - 53))) by (apply Z.pow_pos_nonneg; lia).
    assert (Hd' : Z.pos (digits2_pos p') = 53 + 0).
    { apply digits2_pos_unique. rewrite Hp'.
      replace (53 + 0 - 1) with 52 by lia. replace (53 + 0) with 53 by lia.
      set (sh := 0 - (d - 53)) in *.
      assert (E1 : 2 ^ 52 = 2 ^ (d - 1) * 2 ^ sh).
      { rewrite <- Z.pow_add_r by lia. f_equal. lia. }
      assert (E2 : 2 ^ 53 = 2 ^ d * 2 ^ sh).
      { rewrite <- Z.pow_add_r by lia. f_equal. lia. }
      rewrite E1, E2.
      split; [apply Z.mul_le_mono_nonneg_r; lia|apply Z.mul_lt_mono_pos_r; lia]. }
    destruct (binary_round_aux_normal sx p' (d - 53) 0 Hd' ltac:(lia) ltac:(lia) ltac:(lia))
      as (q & Hqlo & Hqhi & ->).
    rewrite Z.pow_0_r, Z.div_1_r in *. assert (q = p') by lia. subst q.
    pose proof (digits2_pos_bounds p') as [_ Hp'hi]. rewrite Hd' in Hp'hi.
    replace (Z.pos p' <? 2 ^ 53) with true by (symmetry; apply Z.ltb_lt; exact Hp'hi).
    exists p', (d - 53 + 0). split; [reflexivity|]. split; [exact Hd'|lia].
  - rewrite shl_align_noop by lia.
    assert (Hdn : d = 53 + (d - 53)) by lia.
    destruct (binary_round_aux_cases sx p 0 (d - 53) Hdn ltac:(lia) ltac:(lia))
      as (q & Hqlo & Hqhi & ->).
    assert (Hpow : 0 < 2 ^ (d - 53)) by (apply Z.pow_pos_nonneg; lia).
    assert (Hplo : 2 ^ 52 * 2 ^ (d - 53) <= Z.pos p).
    { rewrite <- Z.pow_add_r by lia. replace (52 + (d - 53)) with (d - 1) by lia. exact Hlo. }
    assert (Hq52 : 2 ^ 52 <= Z.pos q).
    { eapply Z.le_trans; [|exact Hqlo]. apply Z.div_le_lower_bound; lia. }
    assert (Hbig' : 971 < 0 + (d - 53) + 1 -> 2 ^ 1022 <= Z.pos p).
    { intros H. eapply Z.le_trans; [|exact Hlo]. apply Z.pow_le_mono_r; lia. }
    destruct (Z.ltb_spec (Z.pos q) (2 ^ 53)) as [Hlt|Hge].
    + destruct (Z.leb_spec (0 + (d - 53)) 971) as [Hfit|Hover].
      * right. exists q, (0 + (d - 53)). split; [reflexivity|].
        split; [apply digits2_pos_unique; simpl; lia|lia].
      * left. split; [reflexivity|apply Hbig'; lia].
    + destruct (Z.leb_spec (0 + (d - 53) + 1) 971) as [Hfit|Hover].
      * right. exists (2 ^ 52)%positive, (0 + (d - 53) + 1). split; [reflexivity|].
        split; [reflexivity|lia].
      * left. split; [reflexivity|apply Hbig'; lia].
Qed.

(** [float(z)], when it exists, is a zero or a normalised number. *)
Lemma float_of_int_convertible (z : Z) (f : float) :
  Py.float_of_int z = Ok f -> ordinary (Prim2SF f).
Proof.
  unfold Py.float_of_int, Py.float_of_Z.
  assert (H : exists x, binary_normalize prec emax z 0 false = x /\
                        valid_binary x = true /\
                        (ordinary x \/ exists s, x = S754_infinity s)).
  { destruct z as [|p|p]; simpl binary_normalize.
    - eexists. split; [reflexivity|]. split; [reflexivity|]. left. left. eauto.
    - destruct (binary_round_int false p) as [[-> _]|(m & e & -> & Hd & He)].
      + eexists. split; [reflexivity|]. split; [reflexivity|]. right. eauto.
      + eexists. split; [reflexivity|]. split; [apply valid_binary_normal; lia|].
        left. right. exists false, m, e. repeat split; lia.
    - destruct (binary_round_int true p) as [[-> _]|(m & e & -> & Hd & He)].
      + eexists. split; [reflexivity|]. split; [reflexivity|]. right. eauto.
      + eexists. split; [reflexivity|]. split; [apply valid_binary_normal; lia|].
        left. right. exists true, m, e. repeat split; lia. }
  destruct H as (x & -> & Hvalid & Hx).
  unfold is_infinity. rewrite FloatAxioms.eqb_spec, abs_spec, (Prim2SF_SF2Prim x Hvalid).
  change (Prim2SF infinity) with (S754_infinity false).
  destruct Hx as [Hord|(s & ->)]; [|destruct s; discriminate].
  destruct (SFeqb (SFabs x) (S754_infinity false)); [discriminate|].
  intros H; inversion H; subst. rewrite (Prim2SF_SF2Prim x Hvalid). exact Hord.
Qed.

(** Below 2 ** 1022 in absolute value, [float(z)] exists. *)
Lemma float_of_int_ordinary (z : Z) :
  Z.abs z < 2 ^ 1022 -> exists f, Py.float_of_int z = Ok f.
Proof.
  intros Hz. unfold Py.float_of_int, Py.float_of_Z.
  assert (H : exists x, binary_normalize prec emax z 0 false = x /\
                        valid_binary x = true /\
                        SFeqb (SFabs x) (S754_infinity false) = false).
  { destruct z as [|p|p]; simpl binary_normalize.
    - eexists. split; [reflexivity|]. split; reflexivity.
    - destruct (binary_round_int false p) as [[_ Hbig]|(m & e & -> & Hd & He)]; [lia|].
      eexists. split; [reflexivity|]. split; [apply valid_binary_normal; lia|reflexivity].
    - destruct (binary_round_int true p) as [[_ Hbig]|(m & e & -> & Hd & He)]; [lia|].
      eexists. split; [reflexivity|]. split; [apply valid_binary_normal; lia|reflexivity]. }
  destruct H as (x & -> & Hvalid & Hfin).
  unfold is_infinity. rewrite FloatAxioms.eqb_spec, abs_spec, (Prim2SF_SF2Prim x Hvalid).
  change (Prim2SF infinity) with (S754_infinity false). rewrite Hfin. eauto.
Qed.

(** The product of such a float by a normalised constant of exponent at
    most -53 (as 0.1 and 0.8 are) is a zero or a finite number, which
    [int] truncates. *)
Lemma int_of_scaled_float (f k : float) (mk : positive) (ek : Z) :
  ordinary (Prim2SF f) ->
  Prim2SF k = S754_finite false mk ek -> Z.pos (digits2_pos mk) = 53 -> -60 <= ek <= -53 ->
  exists z, Py.int_of_float (f * k)%float = Ok z.
Proof.
  intros Hord Hk Hdk Hek. unfold Py.int_of_float. rewrite mul_spec, Hk. unfold SF64mul.
  destruct Hord as [(s & ->)|(s & m & e & -> & Hd & He)]; simpl SFmul.
  - eauto.
  - pose proof (digits2_pos_bounds m) as [Hmlo Hmhi]. rewrite Hd in Hmlo, Hmhi.
    pose proof (digits2_pos_bounds mk) as [Hklo Hkhi]. rewrite Hdk in Hklo, Hkhi.
    simpl (53 - 1) in *.
    pose proof (digits2_pos_bounds (m * mk)) as [Hplo Hphi].
    set (dp := Z.pos (digits2_pos (m * mk))) in *.
    rewrite Pos2Z.inj_mul in Hplo, Hphi.
    change (2 ^ 52) with 4503599627370496 in Hmlo, Hklo.
    change (2 ^ 53) with 9007199254740992 in Hmhi, Hkhi.
    assert (Hprod : 2 ^ 104 <= Z.pos m * Z.pos mk /\
                    Z.pos m * Z.pos mk + 2 ^ 53 < 2 ^ 106).
    { change (2 ^ 104) with (4503599627370496 * 4503599627370496).
      change (2 ^ 106) with (9007199254740992 * 9007199254740992).
      change (2 ^ 53) with 9007199254740992. nia. }
    assert (Hdp1 : 105 <= dp).
    { destruct (Z_le_gt_dec 105 dp); [assumption|].
      assert (2 ^ dp <= 2 ^ 104) by (apply Z.pow_le_mono_r; unfold dp; lia). lia. }
    assert (Hdp2 : dp <= 106).
    { destruct (Z_le_gt_dec dp 106); [assumption|].
      assert (2 ^ 106 <= 2 ^ (dp - 1)) by (apply Z.pow_le_mono_r; lia).
      assert (0 < 2 ^ 53) by (apply Z.pow_pos_nonneg; lia). lia. }
    assert (Hdn : Z.pos (digits2_pos (m * mk)) = 53 + (dp - 53)) by (fold dp; lia).
    destruct (binary_round_aux_cases (xorb s false) (m * mk) (e + ek) (dp - 53) Hdn
                ltac:(lia) ltac:(lia)) as (q & _ & Hqhi & ->).
    rewrite Pos2Z.inj_mul in Hqhi.
    destruct (Z.ltb_spec (Z.pos q) (2 ^ 53)) as [Hlt|Hge].
    + replace (e + ek + (dp - 53) <=? 971) with true by (symmetry; apply Z.leb_le; lia).
      eauto.
    + assert (Hdp : dp = 105).
      { destruct (Z.eq_dec dp 106) as [H106|]; [|lia]. exfalso.
        rewrite H106 in Hqhi. change (2 ^ (106 - 53)) with (2 ^ 53) in Hqhi.
        assert (2 ^ 53 * 2 ^ 53 <= Z.pos q * 2 ^ 53).
        { apply Z.mul_le_mono_nonneg_r; lia. }
        change (2 ^ 53 * 2 ^ 53) with (2 ^ 106) in *. lia. }
      replace (e + ek + (dp - 53) + 1 <=? 971) with true
        by (symmetry; apply Z.leb_le; lia).
      eauto.
Qed.

Lemma scaled_convertible (n : Z) (f k : float) (mk : positive) (ek : Z) :
  Py.float_of_int n = Ok f ->
  Prim2SF k = S754_finite false mk ek -> Z.pos (digits2_pos mk) = 53 -> -60 <= ek <= -53 ->
  exists z, scaled n k = Ok z.
Proof.
  intros Hn Hk Hdk Hek. unfold scaled, Py.int_mul_float. rewrite Hn, !bind_Ok.
  eapply int_of_scaled_float; eauto. eapply float_of_int_convertible; eauto.
Qed.

(** Without hints and for an image whose width and height convert to a
    float, the reference detector returns exactly one detection, of
    confidence 0.5 and not occluded, whose box is made of the four
    truncated products. *)
Lemma detect_faces_default_convertible (img : SimpleImage)
    (hints : option (list FaceBoundingBox)) (fw fh : float) :
  hints = None \/ hints = Some [] ->
  Py.float_of_int (Image.width img) = Ok fw -> Py.float_of_int (Image.height img) = Ok fh ->
  exists bx by' bw bh,
    scaled (Image.width img) 0.1%float = Ok bx /\
    scaled (Image.height img) 0.1%float = Ok by' /\
    scaled (Image.width img) 0.8%float = Ok bw /\
    scaled (Image.height img) 0.8%float = Ok bh /\
    detect_faces SimpleFaceDetector img hints =
    Ok [ {| bounding_box :=
              {| x := bx; y := by'; Detector.width := bw; Detector.height := bh |};
            confidence := 0.5%float; occluded := false |} ].
Proof.
  intros Hh Hw Hht.
  assert (H01 : Prim2SF 0.1%float = S754_finite false 7205759403792794 (-56)) by reflexivity.
  assert (H08 : Prim2SF 0.8%float = S754_finite false 7205759403792794 (-53)) by reflexivity.
  destruct (scaled_convertible _ _ _ _ _ Hw H01 eq_refl ltac:(lia)) as (bx & Hx).
  destruct (scaled_convertible _ _ _ _ _ Hht H01 eq_refl ltac:(lia)) as (by' & Hy).
  destruct (scaled_convertible _ _ _ _ _ Hw H08 eq_refl ltac:(lia)) as (bw & Hbw).
  destruct (scaled_convertible _ _ _ _ _ Hht H08 eq_refl ltac:(lia)) as (bh & Hbh).
  exists bx, by', bw, bh. repeat (split; [assumption|]).
  apply detect_faces_default; assumption.
Qed.

(** In particular below 2 ** 1022 pixels a side. *)
Lemma detect_faces_default_ordinary (img : SimpleImage)
    (hints : option (list FaceBoundingBox)) :
  hints = None \/ hints = Some [] ->
  Z.abs (Image.width img) < 2 ^ 1022 -> Z.abs (Image.height img) < 2 ^ 1022 ->
  exists bx by' bw bh,
    scaled (Image.width img) 0.1%float = Ok bx /\
    scaled (Image.height img) 0.1%float = Ok by' /\
    scaled (Image.width img) 0.8%float = Ok bw /\
    scaled (Image.height img) 0.8%float = Ok bh /\
    detect_faces SimpleFaceDetector img hints =
    Ok [ {| bounding_box :=
              {| x := bx; y := by'; Detector.width := bw; Detector.height := bh |};
            confidence := 0.5%float; occluded := false |} ].
Proof.
  intros Hh Hw Hht.
  destruct (float_of_int_ordinary _ Hw) as (fw & Hfw).
  destruct (float_of_int_ordinary _ Hht) as (fh & Hfh).
  eapply detect_faces_default_convertible; eauto.
Qed.

(** * Further properties of the package *)

(** ** Validation: what a validated request guarantees *)

Lemma getitem_Ok (d : gmap string Py.value) (key : string) (v : Py.value) :
  Py.getitem d key = Ok v <-> d !! key = Some v.
Proof. unfold Py.getitem. destruct (d !! key); split; congruence. Qed.

Lemma parse_hint_entry_Ok (entry : Py.value) (field : string) (hint : FaceBoundingBox) :
  parse_hint_entry entry field = Ok hint <-> hint_of_entry entry hint.
Proof.
  split.
  - destruct entry; simpl; try discriminate.
    intros H. apply try_except_Ok_inv in H.
    apply bind_Ok_inv in H. destruct H as (vx & Hx & H). apply getitem_Ok in Hx.
    apply bind_Ok_inv in H. destruct H as (x' & Hx' & H).
    apply bind_Ok_inv in H. destruct H as (vy & Hy & H). apply getitem_Ok in Hy.
    apply bind_Ok_inv in H. destruct H as (y' & Hy' & H).
    apply bind_Ok_inv in H. destruct H as (vw & Hw & H). apply getitem_Ok in Hw.
    apply bind_Ok_inv in H. destruct H as (w' & Hw' & H).
    apply bind_Ok_inv in H. destruct H as (vh & Hh & H). apply getitem_Ok in Hh.
    apply bind_Ok_inv in H. destruct H as (h' & Hh' & H).
    inversion H; subst; simpl. exists d, vx, vy, vw, vh. simpl. tauto.
  - intros (d & vx & vy & vw & vh & -> & Hx & Hx' & Hy & Hy' & Hw & Hw' & Hh & Hh').
    simpl. unfold Py.getitem. rewrite Hx, bind_Ok, Hx', bind_Ok, Hy, bind_Ok, Hy', bind_Ok.
    rewrite Hw, bind_Ok, Hw', bind_Ok, Hh, bind_Ok, Hh', bind_Ok.
    destruct hint; reflexivity.
Qed.

Lemma parse_hint_entries_Ok (entries : list Py.value) (field : string)
    (hints : list FaceBoundingBox) :
  parse_hint_entries entries field = Ok hints <-> Forall2 hint_of_entry entries hints.
Proof.
  revert hints. induction entries as [|entry rest IH]; intros hints; simpl.
  - split; [intros H; inversion H; constructor|intros H; inversion H; reflexivity].
  - split.
    + intros H. apply bind_Ok_inv in H. destruct H as (hint & He & H).
      apply bind_Ok_inv in H. destruct H as (hs & Hr & H). inversion H; subst.
      constructor; [apply (parse_hint_entry_Ok entry field); exact He|apply IH; exact Hr].
    + intros H. inversion H as [|? hint ? hs He Hr]; subst.
      apply (parse_hint_entry_Ok entry field) in He. apply IH in Hr.
      rewrite He, bind_Ok, Hr, bind_Ok. reflexivity.
Qed.

(** X1: the hints of a request are the entries of the list, one box per
    entry and in the same order; the list is accepted exactly when every
    entry is an object whose four coordinates convert with [int].  An
    absent field and [None] both stand for no hint. *)
Theorem parse_detector_hints_boxes (entries : list Py.value) (field : string)
    (hints : list FaceBoundingBox) :
  (_parse_detector_hints (Py.PyList entries) field = Ok hints <->
   Forall2 hint_of_entry entries hints) /\
  (_parse_detector_hints (Py.PyList entries) field = Ok hints ->
   length hints = length entries) /\
  _parse_detector_hints Py.PyNone field = Ok [].
Proof.
  split; [apply parse_hint_entries_Ok|split; [|reflexivity]].
  intros H. apply parse_hint_entries_Ok in H. symmetry. eapply Forall2_length; eauto.
Qed.

Lemma parse_detector_hints_boxes_witness :
  length [ {| x := 10; y := 10; Detector.width := 100; Detector.height := 120 |} ] =
  length [Fixtures.hint_entry 10 10 100 120].
Proof.
  apply (proj1 (proj2 (parse_detector_hints_boxes [Fixtures.hint_entry 10 10 100 120]
                         "detector_hints"
                         [ {| x := 10; y := 10; Detector.width := 100;
                              Detector.height := 120 |} ]))).
  vm_compute. reflexivity.
Defined.

(** X2: a validated request holds what the payload held: consent was
    given, the image text is the non-empty string of the payload, the
    confidence level lies strictly between 0 and 1, and there is one hint
    per entry of [detector_hints]. *)
Theorem validated_request_invariant (payload : Py.value) (config : AgeServiceConfig)
    (request : ValidatedRequest) :
  validate_payload payload config = Ok request ->
  exists d c,
    payload = Py.PyDict d /\
    d !! "consent" = Some c /\ Py.bool_of c = true /\ consent request = true /\
    d !! "image_base64" = Some (Py.PyStr (image_base64 request)) /\
    image_base64 request <> "" /\
    (0 <? confidence_level request)%float = true /\
    (confidence_level request <? 1)%float = true /\
    return_face_bbox request =
      Py.bool_of (Py.get d "return_face_bbox" (Py.PyBool (return_face_bbox_default config))) /\
    _parse_detector_hints (Py.get d "detector_hints" Py.PyNone) "detector_hints" =
      Ok (detector_hints request).
Proof.
  intros H. destruct (validate_payload_level _ _ _ H) as [H0 H1]. revert H.
  unfold validate_payload. destruct payload; try discriminate.
  unfold Py.getitem.
  destruct (d !! "consent") as [c|] eqn:Hc; simpl; [|discriminate].
  destruct (Py.bool_of c) eqn:Hb; simpl; [|discriminate].
  destruct (d !! "image_base64") as [i|] eqn:Hi; simpl; [|discriminate].
  destruct i as [| | | |[|ch s]| |]; try discriminate.
  destruct (_coerce_confidence_level _ _) as [l|e0]; simpl; [|discriminate].
  destruct (_parse_detector_hints _ _) as [hs|e0] eqn:Hh; simpl; [|discriminate].
  intros H; inversion H; subst; simpl in *. clear H.
  exists d, c. repeat split; try assumption; try reflexivity. discriminate.
Qed.

Lemma validated_request_invariant_witness :
  exists d c,
    Fixtures.one_hint_payload = Py.PyDict d /\
    d !! "consent" = Some c /\ Py.bool_of c = true.
Proof.
  destruct (validated_request_invariant Fixtures.one_hint_payload Fixtures.test_config
              {| image_base64 := Fixtures.encoded_image; consent := true;
                 confidence_level := 0.5%float; return_face_bbox := false;
                 detector_hints :=
                   [ {| x := 10; y := 10; Detector.width := 100; Detector.height := 120 |} ] |}
              ltac:(vm_compute; reflexivity))
    as (d & c & Hp & Hc & Hb & _).
  exists d, c. repeat split; assumption.
Defined.

(** X3: the checks of [validate_payload] come in a fixed order, and the
    first that fails decides the error: a payload that is no object; a
    missing consent; a consent that is not truthy; a missing image; an
    image that is not a non-empty string.  Nothing else of the payload is
    looked at before: a refused consent hides every other fault. *)
Theorem validate_payload_first_failure (payload : Py.value) (config : AgeServiceConfig) :
  ((forall d, payload <> Py.PyDict d) ->
   validate_payload payload config = Raise (ValidationError "payload must be an object" None)) /\
  (forall d, payload = Py.PyDict d ->
     (d !! "consent" = None ->
      validate_payload payload config =
      Raise (ValidationError "consent is required" (Some "consent"))) /\
     (forall c, d !! "consent" = Some c ->
        (Py.bool_of c = false ->
         validate_payload payload config =
         Raise (ValidationError "consent must be granted" (Some "consent"))) /\
        (Py.bool_of c = true ->
           (d !! "image_base64" = None ->
            validate_payload payload config =
            Raise (ValidationError "image_base64 is required" (Some "image_base64"))) /\
           (forall v, d !! "image_base64" = Some v ->
              (forall s, v = Py.PyStr s -> s = "") ->
              validate_payload payload config =
              Raise (ValidationError "image_base64 must be a non-empty string"
                       (Some "image_base64")))))).
Proof.
  split.
  - intros Hnd. destruct payload; try reflexivity. exfalso. eapply Hnd. reflexivity.
  - intros d ->. unfold validate_payload, Py.getitem. split.
    + intros ->. reflexivity.
    + intros c ->. simpl. split; [intros ->; reflexivity|]. intros ->. simpl. split.
      * intros ->. reflexivity.
      * intros v -> Hv. simpl.
        destruct v as [| | | |[|ch s]| |]; try reflexivity.
        specialize (Hv _ eq_refl). discriminate.
Qed.

Lemma validate_payload_first_failure_witness :
  validate_payload
    (Fixtures.dict [("image_base64", Py.PyStr ""); ("consent", Py.PyBool false)])
    Fixtures.test_config =
  Raise (ValidationError "consent must be granted" (Some "consent")).
Proof.
  pose (kvs := [("image_base64", Py.PyStr ""); ("consent", Py.PyBool false)]).
  refine (proj1 (proj2 (proj2 (validate_payload_first_failure (Fixtures.dict kvs)
                                 Fixtures.test_config) (list_to_map kvs) eq_refl)
                   (Py.PyBool false) _) _).
  - reflexivity.
  - reflexivity.
Defined.

(** X4: keys other than the five that [validate_payload] reads have no
    effect on its result. *)
Theorem validate_payload_ignores_other_keys (d : gmap string Py.value) (k : string)
    (v : Py.value) (config : AgeServiceConfig) :
  k ∉ payload_keys ->
  validate_payload (Py.PyDict (<[k := v]> d)) config = validate_payload (Py.PyDict d) config.
Proof.
  intros Hk. unfold validate_payload, Py.getitem, Py.get.
  rewrite !lookup_insert_ne
    by (intros Heq; apply Hk; rewrite Heq; unfold payload_keys; set_solver).
  reflexivity.
Qed.

Lemma validate_payload_ignores_other_keys_witness :
  validate_payload
    (Py.PyDict (<["note" := Py.PyStr "ignored"]>
                  (list_to_map [("image_base64", Py.PyStr "abc"); ("consent", Py.PyBool true)])))
    Fixtures.test_config =
  validate_payload
    (Py.PyDict (list_to_map [("image_base64", Py.PyStr "abc"); ("consent", Py.PyBool true)]))
    Fixtures.test_config.
Proof.
  apply (validate_payload_ignores_other_keys _ "note").
  unfold payload_keys. rewrite !not_elem_of_cons.
  repeat split; try discriminate. apply not_elem_of_nil.
Defined.

(** Once consent is given and the image is a non-empty string, the rest
    of [validate_payload] is the coercion of the level, of the flag and of
    the hints. *)
Lemma validate_payload_fields (d : gmap string Py.value) (config : AgeServiceConfig)
    (c : Py.value) (s : string) :
  d !! "consent" = Some c -> Py.bool_of c = true ->
  d !! "image_base64" = Some (Py.PyStr s) -> s <> "" ->
  validate_payload (Py.PyDict d) config =
  (level' ← _coerce_confidence_level
              (Py.get d "confidence_level" (Py.PyFloat (default_confidence_level config)))
              "confidence_level";
   hints ← _parse_detector_hints (Py.get d "detector_hints" Py.PyNone) "detector_hints";
   Ok {| image_base64 := s;
         consent := true;
         confidence_level := level';
         return_face_bbox :=
           Py.bool_of (Py.get d "return_face_bbox"
                         (Py.PyBool (return_face_bbox_default config)));
         detector_hints := hints |}).
Proof.
  intros Hc Hb Hi Hs. unfold validate_payload, Py.getitem.
  rewrite Hc. simpl. rewrite Hb. simpl. rewrite Hi. simpl.
  destruct s as [|ch s]; [congruence|]. reflexivity.
Qed.

(** X5: an explicit [None] is not an absent field.  For
    [confidence_level] it is refused as not being a number, and the
    default of the configuration is not used; for [return_face_bbox] it
    reads as [False], whatever the default; only for [detector_hints]
    does it stand for the absent field. *)
Theorem validate_payload_explicit_none (d : gmap string Py.value) (config : AgeServiceConfig)
    (c : Py.value) (s : string) :
  d !! "consent" = Some c -> Py.bool_of c = true ->
  d !! "image_base64" = Some (Py.PyStr s) -> s <> "" ->
  (d !! "confidence_level" = Some Py.PyNone ->
   validate_payload (Py.PyDict d) config =
   Raise (ValidationError "confidence level must be a number" (Some "confidence_level"))) /\
  (d !! "return_face_bbox" = Some Py.PyNone ->
   forall request,
     validate_payload (Py.PyDict d) config = Ok request -> return_face_bbox request = false) /\
  (d !! "detector_hints" = Some Py.PyNone ->
   validate_payload (Py.PyDict d) config =
   validate_payload (Py.PyDict (delete "detector_hints" d)) config).
Proof.
  intros Hc Hb Hi Hs. rewrite (validate_payload_fields d config c s Hc Hb Hi Hs).
  split; [|split].
  - intros Hl. unfold Py.get. rewrite Hl. reflexivity.
  - intros Hr request H.
    apply bind_Ok_inv in H. destruct H as (level' & _ & H).
    apply bind_Ok_inv in H. destruct H as (hints & _ & H).
    inversion H; subst; simpl. unfold Py.get. rewrite Hr. reflexivity.
  - intros Hh.
    rewrite (validate_payload_fields (delete "detector_hints" d) config c s);
      rewrite ?lookup_delete_ne by discriminate; try assumption.
    unfold Py.get. rewrite Hh, lookup_delete_eq.
    rewrite !lookup_delete_ne by discriminate. reflexivity.
Qed.

Lemma validate_payload_explicit_none_witness :
  validate_payload
    (Fixtures.dict [("image_base64", Py.PyStr "abc"); ("consent", Py.PyBool true);
                    ("confidence_level", Py.PyNone)])
    Fixtures.test_config =
  Raise (ValidationError "confidence level must be a number" (Some "confidence_level")).
Proof.
  pose (kvs := [("image_base64", Py.PyStr "abc"); ("consent", Py.PyBool true);
                ("confidence_level", Py.PyNone)]).
  refine (proj1 (validate_payload_explicit_none (list_to_map kvs) Fixtures.test_config
                   (Py.PyBool true) "abc" _ _ _ _) _).
  - reflexivity.
  - reflexivity.
  - reflexivity.
  - discriminate.
  - reflexivity.
Defined.

Lemma is_infinity_inv (f : float) :
  is_infinity f = true -> exists s, Prim2SF f = S754_infinity s.
Proof.
  unfold is_infinity. rewrite FloatAxioms.eqb_spec, abs_spec.
  change (Prim2SF infinity) with (S754_infinity false).
  destruct (Prim2SF f) as [s|s| |s m e]; try discriminate; eauto.
Qed.

Lemma is_nan_inv (f : float) : is_nan f = true -> Prim2SF f = S754_nan.
Proof.
  unfold is_nan. rewrite FloatAxioms.eqb_spec. unfold SFeqb.
  destruct (Prim2SF f) as [s|s| |s m e]; try reflexivity; simpl.
  - destruct s; discriminate.
  - destruct s; discriminate.
  - destruct s; rewrite Z.compare_refl, Pos.compare_cont_refl; discriminate.
Qed.

(** X6: a hint coordinate that is a float is truncated by [int]; a NaN is
    refused as an invalid hint, but an infinity raises [OverflowError],
    which the [except (KeyError, TypeError, ValueError)] clause lets
    through: validation then ends with it and not with a
    [ValidationError]. *)
Theorem hint_coordinate_not_finite (d : gmap string Py.value) (f : float) (field : string)
    (rest : list Py.value) :
  d !! "x" = Some (Py.PyFloat f) ->
  (is_nan f = true ->
   _parse_detector_hints (Py.PyList (Py.PyDict d :: rest)) field =
   Raise (ValidationError "invalid detector hint" (Some field))) /\
  (is_infinity f = true ->
   _parse_detector_hints (Py.PyList (Py.PyDict d :: rest)) field = Raise OverflowError /\
   forall payload config c s level',
     payload !! "consent" = Some c -> Py.bool_of c = true ->
     payload !! "image_base64" = Some (Py.PyStr s) -> s <> "" ->
     _coerce_confidence_level
       (Py.get payload "confidence_level" (Py.PyFloat (default_confidence_level config)))
       "confidence_level" = Ok level' ->
     payload !! "detector_hints" = Some (Py.PyList (Py.PyDict d :: rest)) ->
     validate_payload (Py.PyDict payload) config = Raise OverflowError).
Proof.
  intros Hx. split.
  - intros Hnan. simpl. unfold Py.getitem. rewrite Hx. simpl.
    unfold Py.int_of_float. rewrite (is_nan_inv f Hnan). reflexivity.
  - intros Hinf. destruct (is_infinity_inv f Hinf) as (sg & Hsg).
    assert (Hraise : _parse_detector_hints (Py.PyList (Py.PyDict d :: rest)) field =
                     Raise OverflowError).
    { simpl. unfold Py.getitem. rewrite Hx. simpl.
      unfold Py.int_of_float. rewrite Hsg. reflexivity. }
    split; [exact Hraise|].
    intros payload config c s level' Hc Hb Hi Hs Hl Hh.
    rewrite (validate_payload_fields payload config c s Hc Hb Hi Hs), Hl, bind_Ok.
    assert (Hget : Py.get payload "detector_hints" Py.PyNone =
                   Py.PyList (Py.PyDict d :: rest)) by (unfold Py.get; rewrite Hh; reflexivity).
    rewrite Hget.
    assert (Hraise' : _parse_detector_hints (Py.PyList (Py.PyDict d :: rest)) "detector_hints" =
                      Raise OverflowError).
    { simpl. unfold Py.getitem. rewrite Hx. simpl.
      unfold Py.int_of_float. rewrite Hsg. reflexivity. }
    rewrite Hraise'. reflexivity.
Qed.

Lemma hint_coordinate_not_finite_witness :
  _parse_detector_hints
    (Py.PyList [Fixtures.dict [("x", Py.PyFloat infinity); ("y", Py.PyInt 0);
                               ("width", Py.PyInt 1); ("height", Py.PyInt 1)]])
    "detector_hints" = Raise OverflowError.
Proof.
  pose (kvs := [("x", Py.PyFloat infinity); ("y", Py.PyInt 0);
                ("width", Py.PyInt 1); ("height", Py.PyInt 1)]).
  refine (proj1 (proj2 (hint_coordinate_not_finite (list_to_map kvs) infinity
                          "detector_hints" [] _) _)).
  - reflexivity.
  - reflexivity.
Defined.

(** ** Decoded images *)

(** X7: an image that [load_base64_image] returns has positive
    dimensions and an intensity between 0 and 255, hence not NaN; its raw
    bytes are the base64 decoding of the text, they are ASCII, and the
    image is what [_parse_payload] reads in them. *)
Theorem loaded_image_invariant (data : string) (loaded : LoadedImage) :
  load_base64_image data = Ok loaded ->
  0 < Image.width (image loaded) /\ 0 < Image.height (image loaded) /\
  (0 <=? intensity (image loaded))%float = true /\
  (intensity (image loaded) <=? 255)%float = true /\
  is_nan (intensity (image loaded)) = false /\
  Py.b64decode data = Ok (raw_bytes loaded) /\
  forallb Py.is_ascii (raw_bytes loaded) = true /\
  _parse_payload (string_of_list_ascii (raw_bytes loaded)) = Ok (image loaded).
Proof.
  unfold load_base64_image. intros H.
  apply bind_Ok_inv in H. destruct H as (raw & Hraw & H). apply try_except_Ok_inv in Hraw.
  apply bind_Ok_inv in H. destruct H as (payload & Hpay & H). apply try_except_Ok_inv in Hpay.
  apply bind_Ok_inv in H. destruct H as (img & Himg & H). inversion H; subst; simpl. clear H.
  revert Hpay. unfold Py.decode_ascii. destruct (forallb Py.is_ascii raw) eqn:Hascii;
    [|discriminate]. intros Hpay. inversion Hpay; subst. clear Hpay.
  assert (Hparse := Himg). revert Himg. unfold _parse_payload.
  destruct (try_except _ _ _) as [[[w h] i]|e0]; simpl; [|discriminate].
  destruct (w <=? 0) eqn:Hw; simpl; [discriminate|].
  destruct (h <=? 0) eqn:Hh; simpl; [discriminate|].
  destruct (0 <=? i)%float eqn:Hi0; simpl; [|discriminate].
  destruct (i <=? 255)%float eqn:Hi1; simpl; [|discriminate].
  intros H; inversion H; subst; simpl. clear H.
  apply Z.leb_gt in Hw, Hh.
  repeat split; try assumption.
  unfold is_nan. revert Hi0. rewrite FloatAxioms.leb_spec, FloatAxioms.eqb_spec.
  unfold SFleb, SFeqb. change (Prim2SF 0) with (S754_zero false).
  destruct (Prim2SF i) as [s|s| |s m e]; try discriminate; simpl.
  - destruct s; reflexivity.
  - destruct s; reflexivity.
  - intros _. destruct s; rewrite Z.compare_refl, Pos.compare_cont_refl; reflexivity.
Qed.

Lemma loaded_image_invariant_witness :
  0 < Image.width {| Image.width := 256; Image.height := 256; intensity := 180%float |}.
Proof.
  apply (loaded_image_invariant Fixtures.encoded_image
           {| image := {| Image.width := 256; Image.height := 256; intensity := 180%float |};
              raw_bytes := Py.chars "256,256,180.0" |}).
  vm_compute. reflexivity.
Defined.

(** X8: cropping composes: a crop taken again at the origin with the
    same requested size is unchanged, and the crop at the origin of the
    full size of an image with positive dimensions is the image itself. *)
Theorem crop_box_idempotent (img : SimpleImage) (x y w h : Z) :
  crop_box (crop_box img x y w h) 0 0 w h = crop_box img x y w h /\
  (0 < Image.width img -> 0 < Image.height img ->
   crop_box img 0 0 (Image.width img) (Image.height img) = img).
Proof.
  split.
  - unfold crop_box; simpl. f_equal; lia.
  - intros Hw Hh. destruct img as [W H i]. unfold crop_box; simpl in *. f_equal; lia.
Qed.

Lemma crop_box_idempotent_witness :
  crop_box {| Image.width := 256; Image.height := 256; intensity := 180%float |} 0 0 256 256 =
  {| Image.width := 256; Image.height := 256; intensity := 180%float |}.
Proof.
  apply (proj2 (crop_box_idempotent
                  {| Image.width := 256; Image.height := 256; intensity := 180%float |}
                  0 0 0 0)); reflexivity.
Defined.

(** ** Base64: decoding what was encoded *)

Lemma range_forallb (f : Z -> bool) (n : nat) (z : Z) :
  forallb f (range n) = true -> 0 <= z < Z.of_nat n -> f z = true.
Proof.
  intros H Hz. rewrite forallb_forall in H. apply H. unfold range.
  apply in_map_iff. exists (Z.to_nat z). split; [lia|]. apply in_seq. lia.
Qed.

Lemma code_range (c : ascii) : 0 <= Py.code c < 256.
Proof.
  unfold Py.code. pose proof (N_ascii_bounded c). lia.
Qed.

Lemma byte_of_code (c : ascii) (z : Z) : z mod 256 = Py.code c -> Py.byte_of z = c.
Proof.
  intros H. unfold Py.byte_of. rewrite H. unfold Py.code.
  rewrite N2Z.id. apply ascii_N_embedding.
Qed.

Lemma list_ind3 {A} (P : list A -> Prop) :
  P [] -> (forall a, P [a]) -> (forall a b, P [a; b]) ->
  (forall a b c l, P l -> P (a :: b :: c :: l)) ->
  forall l, P l.
Proof.
  intros H0 H1 H2 H3.
  assert (H : forall n l, (length l <= n)%nat -> P l).
  { induction n as [|n IH]; intros l Hl.
    - destruct l; [exact H0|simpl in Hl; lia].
    - destruct l as [|a [|b [|c l]]]; auto.
      apply H3. apply IH. simpl in Hl. lia. }
  intros l. apply (H (length l)). lia.
Qed.

(** Each of the 64 digits is an ASCII character other than the padding
    sign and decodes to its value. *)
Lemma b64_char_index (v : Z) :
  0 <= v < 64 ->
  Py.b64_index (Py.b64_char v) = Some v /\
  Ascii.eqb (Py.b64_char v) "=" = false /\
  Py.is_ascii (Py.b64_char v) = true.
Proof.
  intros Hv.
  pose (f := fun v => match Py.b64_index (Py.b64_char v) with
                      | Some v' => (v' =? v) && negb (Ascii.eqb (Py.b64_char v) "=")
                                   && Py.is_ascii (Py.b64_char v)
                      | None => false
                      end).
  assert (H : f v = true).
  { apply (range_forallb f 64); [vm_compute; reflexivity|lia]. }
  unfold f in H. destruct (Py.b64_index (Py.b64_char v)) as [v'|]; [|discriminate].
  apply andb_true_iff in H. destruct H as [H H3].
  apply andb_true_iff in H. destruct H as [H1 H2].
  apply Z.eqb_eq in H1. apply negb_true_iff in H2. subst. auto.
Qed.

(** The three bytes of a group, recovered from its four digits. *)
Lemma b64_first_byte (a1 a0 b1 : Z) :
  0 <= a1 < 64 -> 0 <= a0 < 4 -> 0 <= b1 < 16 ->
  Z.lor (Z.shiftl a1 2) (Z.shiftr (a0 * 16 + b1) 4) mod 256 = 4 * a1 + a0.
Proof.
  intros H1 H0 Hb.
  pose (f := fun a1 => forallb (fun a0 => forallb (fun b1 =>
               Z.lor (Z.shiftl a1 2) (Z.shiftr (a0 * 16 + b1) 4) mod 256 =? 4 * a1 + a0)
               (range 16)) (range 4)).
  assert (H : f a1 = true) by (apply (range_forallb f 64); [vm_compute; reflexivity|lia]).
  unfold f in H.
  apply (range_forallb _ 4 a0) in H; [|lia].
  apply (range_forallb _ 16 b1) in H; [|lia].
  apply Z.eqb_eq in H. exact H.
Qed.

Lemma b64_second_byte (a0 b1 b0 c1 : Z) :
  0 <= a0 < 4 -> 0 <= b1 < 16 -> 0 <= b0 < 16 -> 0 <= c1 < 4 ->
  Z.lor (Z.shiftl (Z.land (a0 * 16 + b1) 15) 4) (Z.shiftr (b0 * 4 + c1) 2) mod 256 =
  16 * b1 + b0.
Proof.
  intros Ha H1 H0 Hc.
  pose (f := fun a0 => forallb (fun b1 => forallb (fun b0 => forallb (fun c1 =>
               Z.lor (Z.shiftl (Z.land (a0 * 16 + b1) 15) 4) (Z.shiftr (b0 * 4 + c1) 2) mod 256
               =? 16 * b1 + b0) (range 4)) (range 16)) (range 16)).
  assert (H : f a0 = true) by (apply (range_forallb f 4); [vm_compute; reflexivity|lia]).
  unfold f in H.
  apply (range_forallb _ 16 b1) in H; [|lia].
  apply (range_forallb _ 16 b0) in H; [|lia].
  apply (range_forallb _ 4 c1) in H; [|lia].
  apply Z.eqb_eq in H. exact H.
Qed.

Lemma b64_third_byte (b0 c1 c0 : Z) :
  0 <= b0 < 16 -> 0 <= c1 < 4 -> 0 <= c0 < 64 ->
  Z.lor (Z.shiftl (Z.land (b0 * 4 + c1) 3) 6) c0 mod 256 = 64 * c1 + c0.
Proof.
  intros Hb H1 H0.
  pose (f := fun b0 => forallb (fun c1 => forallb (fun c0 =>
               Z.lor (Z.shiftl (Z.land (b0 * 4 + c1) 3) 6) c0 mod 256 =? 64 * c1 + c0)
               (range 64)) (range 4)).
  assert (H : f b0 = true) by (apply (range_forallb f 16); [vm_compute; reflexivity|lia]).
  unfold f in H.
  apply (range_forallb _ 4 c1) in H; [|lia].
  apply (range_forallb _ 64 c0) in H; [|lia].
  apply Z.eqb_eq in H. exact H.
Qed.

(** One step of the decoding loop on a digit, by position in the group. *)
Lemma a2b_loop_digit0 (v : Z) (l : list ascii) (leftchar pads : Z) (out : list ascii) :
  0 <= v < 64 ->
  Py.a2b_loop (Py.b64_char v :: l) 0 leftchar pads false out = Py.a2b_loop l 1 v 0 false out.
Proof.
  intros Hv. destruct (b64_char_index v Hv) as (Hi & He & _).
  cbn [Py.a2b_loop]. rewrite He, Hi. reflexivity.
Qed.

Lemma a2b_loop_digit1 (v : Z) (l : list ascii) (leftchar pads : Z) (out : list ascii) :
  0 <= v < 64 ->
  Py.a2b_loop (Py.b64_char v :: l) 1 leftchar pads false out =
  Py.a2b_loop l 2 (Z.land v 15) 0 false
    (Py.byte_of (Z.lor (Z.shiftl leftchar 2) (Z.shiftr v 4)) :: out).
Proof.
  intros Hv. destruct (b64_char_index v Hv) as (Hi & He & _).
  cbn [Py.a2b_loop]. rewrite He, Hi. reflexivity.
Qed.

Lemma a2b_loop_digit2 (v : Z) (l : list ascii) (leftchar pads : Z) (out : list ascii) :
  0 <= v < 64 ->
  Py.a2b_loop (Py.b64_char v :: l) 2 leftchar pads false out =
  Py.a2b_loop l 3 (Z.land v 3) 0 false
    (Py.byte_of (Z.lor (Z.shiftl leftchar 4) (Z.shiftr v 2)) :: out).
Proof.
  intros Hv. destruct (b64_char_index v Hv) as (Hi & He & _).
  cbn [Py.a2b_loop]. rewrite He, Hi. reflexivity.
Qed.

Lemma a2b_loop_digit3 (v : Z) (l : list ascii) (leftchar pads : Z) (out : list ascii) :
  0 <= v < 64 ->
  Py.a2b_loop (Py.b64_char v :: l) 3 leftchar pads false out =
  Py.a2b_loop l 0 0 0 false (Py.byte_of (Z.lor (Z.shiftl leftchar 6) v) :: out).
Proof.
  intros Hv. destruct (b64_char_index v Hv) as (Hi & He & _).
  cbn [Py.a2b_loop]. rewrite He, Hi. reflexivity.
Qed.

Lemma a2b_loop_encoded (raw : list ascii) :
  forall out, Py.a2b_loop (Py.b64encode raw) 0 0 0 false out = Ok (rev out ++ raw)%list.
Proof.
  induction raw as [|a|a b|a b c raw IH] using list_ind3; intros out.
  - simpl. rewrite app_nil_r. reflexivity.
  - pose proof (code_range a) as Ha.
    cbn [Py.b64encode]. cbv zeta.
    assert (E2 : Py.code a mod 4 * 16 = Py.code a mod 4 * 16 + 0) by lia.
    rewrite E2.
    rewrite a2b_loop_digit0 by div_lia.
    rewrite a2b_loop_digit1 by div_lia.
    rewrite (byte_of_code a).
    2:{ rewrite b64_first_byte by div_lia. div_lia. }
    simpl. reflexivity.
  - pose proof (code_range a) as Ha. pose proof (code_range b) as Hb.
    cbn [Py.b64encode]. cbv zeta.
    set (n := Py.code a * 256 + Py.code b).
    assert (E1 : n / 1024 = Py.code a / 4) by (unfold n; div_lia).
    assert (E2 : (n / 16) mod 64 = Py.code a mod 4 * 16 + Py.code b / 16) by (unfold n; div_lia).
    assert (E3 : n mod 16 * 4 = Py.code b mod 16 * 4 + 0) by (unfold n; div_lia).
    rewrite E1, E2, E3.
    rewrite a2b_loop_digit0 by div_lia.
    rewrite a2b_loop_digit1 by div_lia.
    rewrite a2b_loop_digit2 by div_lia.
    rewrite (byte_of_code b).
    2:{ rewrite b64_second_byte by div_lia. div_lia. }
    rewrite (byte_of_code a).
    2:{ rewrite b64_first_byte by div_lia. div_lia. }
    simpl. rewrite <- app_assoc. reflexivity.
  - pose proof (code_range a) as Ha. pose proof (code_range b) as Hb.
    pose proof (code_range c) as Hc.
    cbn [Py.b64encode]. cbv zeta.
    set (n := Py.code a * 65536 + Py.code b * 256 + Py.code c).
    assert (E1 : n / 262144 = Py.code a / 4) by (unfold n; div_lia).
    assert (E2 : (n / 4096) mod 64 = Py.code a mod 4 * 16 + Py.code b / 16) by (unfold n; div_lia).
    assert (E3 : (n / 64) mod 64 = Py.code b mod 16 * 4 + Py.code c / 64) by (unfold n; div_lia).
    assert (E4 : n mod 64 = Py.code c mod 64) by (unfold n; div_lia).
    rewrite E1, E2, E3, E4.
    rewrite a2b_loop_digit0 by div_lia.
    rewrite a2b_loop_digit1 by div_lia.
    rewrite a2b_loop_digit2 by div_lia.
    rewrite a2b_loop_digit3 by div_lia.
    rewrite (byte_of_code c).
    2:{ rewrite b64_third_byte by div_lia. div_lia. }
    rewrite (byte_of_code b).
    2:{ rewrite b64_second_byte by div_lia. div_lia. }
    rewrite (byte_of_code a).
    2:{ rewrite b64_first_byte by div_lia. div_lia. }
    rewrite IH. simpl. rewrite <- !app_assoc. reflexivity.
Qed.

Lemma b64_char_is_ascii (v : Z) : 0 <= v < 64 -> Py.is_ascii (Py.b64_char v) = true.
Proof. intros Hv. apply (b64_char_index v Hv). Qed.

Lemma b64_char_not_pad (v : Z) : 0 <= v < 64 -> Ascii.eqb (Py.b64_char v) "=" = false.
Proof. intros Hv. apply (b64_char_index v Hv). Qed.

Lemma b64encode_ascii (raw : list ascii) : forallb Py.is_ascii (Py.b64encode raw) = true.
Proof.
  induction raw as [|a|a b|a b c raw IH] using list_ind3.
  - reflexivity.
  - pose proof (code_range a) as Ha. cbn [Py.b64encode forallb]. cbv zeta.
    rewrite !b64_char_is_ascii by div_lia. reflexivity.
  - pose proof (code_range a) as Ha. pose proof (code_range b) as Hb.
    cbn [Py.b64encode forallb]. cbv zeta.
    rewrite !b64_char_is_ascii by div_lia. reflexivity.
  - pose proof (code_range a) as Ha. pose proof (code_range b) as Hb.
    pose proof (code_range c) as Hc.
    cbn [Py.b64encode forallb]. cbv zeta.
    rewrite !b64_char_is_ascii by div_lia. exact IH.
Qed.

Lemma b64encode_head (raw : list ascii) :
  match Py.b64encode raw with
  | c :: _ => Ascii.eqb c "=" = false
  | [] => True
  end.
Proof.
  destruct raw as [|a [|b [|c raw]]]; [exact I| | |];
    pose proof (code_range a) as Ha; cbn [Py.b64encode]; cbv zeta.
  - apply b64_char_not_pad. div_lia.
  - pose proof (code_range b) as Hb. apply b64_char_not_pad. div_lia.
  - pose proof (code_range b) as Hb. pose proof (code_range c) as Hc.
    apply b64_char_not_pad. div_lia.
Qed.

Lemma b64decode_b64encode (raw : list ascii) :
  Py.b64decode (string_of_list_ascii (Py.b64encode raw)) = Ok raw.
Proof.
  unfold Py.b64decode, Py.chars. rewrite list_ascii_of_string_of_list_ascii.
  rewrite b64encode_ascii. cbn [negb].
  pose proof (b64encode_head raw) as Hh.
  pose proof (a2b_loop_encoded raw []) as Hl. simpl in Hl.
  destruct (Py.b64encode raw) as [|c l]; [exact Hl|]. rewrite Hh. exact Hl.
Qed.

Lemma load_base64_image_encoded (raw : list ascii) :
  load_base64_image (string_of_list_ascii (Py.b64encode raw)) =
  if forallb Py.is_ascii raw then
    image' ← _parse_payload (string_of_list_ascii raw);
    Ok {| image := image'; raw_bytes := raw |}
  else Raise (ValueError msg_ascii).
Proof.
  unfold load_base64_image. rewrite b64decode_b64encode, try_except_Ok, bind_Ok.
  unfold Py.decode_ascii. destruct (forallb Py.is_ascii raw); reflexivity.
Qed.

(** X9: [load_base64_image] undoes [base64.b64encode]: on the encoding
    of any bytes it recovers these bytes; when they are ASCII it goes on
    to parse them, and the loaded image keeps them as [raw_bytes];
    otherwise it refuses them as not ASCII. *)
Theorem load_base64_image_of_encoding (raw : list ascii) :
  Py.b64decode (string_of_list_ascii (Py.b64encode raw)) = Ok raw /\
  load_base64_image (string_of_list_ascii (Py.b64encode raw)) =
  if forallb Py.is_ascii raw then
    image' ← _parse_payload (string_of_list_ascii raw);
    Ok {| image := image'; raw_bytes := raw |}
  else Raise (ValueError msg_ascii).
Proof. split; [apply b64decode_b64encode|apply load_base64_image_encoded]. Qed.

(** ** Integers: reading what [str] wrote *)

Lemma digit_run_uint (u : Decimal.uint) :
  forall prev acc,
    Py.digit_run (Py.chars (NilEmpty.string_of_uint u)) prev acc =
    Some ((rev acc ++ uint_digits u)%list, []).
Proof.
  induction u; intros prev acc;
    try (cbn [NilEmpty.string_of_uint Py.chars list_ascii_of_string uint_digits];
         fold (Py.chars (NilEmpty.string_of_uint u));
         cbn [Py.digit_run];
         match goal with
         | |- context [Py.is_digit (Ascii ?b0 ?b1 ?b2 ?b3 ?b4 ?b5 ?b6 ?b7)] =>
             change (Py.is_digit (Ascii b0 b1 b2 b3 b4 b5 b6 b7)) with true
         end; cbv iota;
         rewrite IHu; cbn [rev]; rewrite <- app_assoc; reflexivity).
  simpl. rewrite app_nil_r. reflexivity.
Qed.

Lemma uint_digits_acc (u : Decimal.uint) :
  forall acc, fold_left (fun a d => 10 * a + d) (uint_digits u) (Z.pos acc) =
              Z.pos (Pos.of_uint_acc u acc).
Proof.
  induction u; intros acc; cbn [uint_digits fold_left Pos.of_uint_acc];
    try reflexivity;
    match goal with
    | |- fold_left _ _ ?z = Z.pos (Pos.of_uint_acc _ ?p) =>
        replace z with (Z.pos p) by lia; apply IHu
    end.
Qed.

Lemma uint_digits_value (u : Decimal.uint) :
  Py.digits_value (uint_digits u) = Z.of_N (Pos.of_uint u).
Proof.
  unfold Py.digits_value.
  induction u; cbn [uint_digits fold_left Pos.of_uint]; try reflexivity;
    try exact IHu;
    match goal with
    | |- fold_left _ _ ?z = Z.of_N (N.pos (Pos.of_uint_acc _ ?p)) =>
        change z with (Z.pos p); apply uint_digits_acc
    end.
Qed.

Lemma uint_chars_digits (u : Decimal.uint) :
  Forall (fun c => Py.is_digit c = true) (Py.chars (NilEmpty.string_of_uint u)).
Proof.
  induction u; cbn [NilEmpty.string_of_uint Py.chars list_ascii_of_string];
    constructor; try reflexivity; exact IHu.
Qed.

Lemma uint_digits_length (u : Decimal.uint) :
  length (uint_digits u) = String.length (NilEmpty.string_of_uint u).
Proof. induction u; simpl; congruence. Qed.

(** A digit is neither white space, nor a sign, nor a comma, and it is
    an ASCII character. *)
Lemma is_digit_plain (c : ascii) :
  Py.is_digit c = true ->
  Py.is_space c = false /\ Ascii.eqb c "-" = false /\ Ascii.eqb c "+" = false /\
  Ascii.eqb c "," = false /\ Py.is_ascii c = true.
Proof.
  intros H.
  assert (Hc : 48 <= Py.code c <= 57).
  { unfold Py.is_digit in H. cbv zeta in H. apply andb_true_iff in H. lia. }
  assert (Hne : forall c', Py.code c' < 48 -> Ascii.eqb c c' = false).
  { intros c' Hc'. apply Ascii.eqb_neq. intros ->. lia. }
  repeat split.
  - unfold Py.is_space. cbv zeta.
    destruct (Z.eqb_spec (Py.code c) 32); [lia|].
    destruct (Z.leb_spec (Py.code c) 13); [lia|]. rewrite andb_false_r. reflexivity.
  - apply Hne. vm_compute. reflexivity.
  - apply Hne. vm_compute. reflexivity.
  - apply Hne. vm_compute. reflexivity.
  - unfold Py.is_ascii. apply Z.ltb_lt. lia.
Qed.

Lemma drop_space_plain (l : list ascii) :
  match l with c :: _ => Py.is_space c = false | [] => True end -> Py.drop_space l = l.
Proof. destruct l as [|c l]; [reflexivity|]. simpl. intros ->. reflexivity. Qed.

(** Text that neither starts nor ends with white space is not stripped. *)
Lemma strip_plain (l : list ascii) :
  Forall (fun c => Py.is_space c = false) l -> Py.strip l = l.
Proof.
  intros H. unfold Py.strip.
  rewrite (drop_space_plain l) by (destruct H; auto).
  assert (Hr : Forall (fun c => Py.is_space c = false) (rev l)).
  { apply List.Forall_rev. exact H. }
  rewrite (drop_space_plain (rev l)) by (destruct Hr; auto).
  apply rev_involutive.
Qed.

Lemma split_sign_plain (l : list ascii) :
  match l with
  | c :: _ => Ascii.eqb c "-" = false /\ Ascii.eqb c "+" = false
  | [] => True
  end ->
  Py.split_sign l = (false, l).
Proof.
  destruct l as [|c l]; [reflexivity|]. simpl. intros [-> ->]. reflexivity.
Qed.

(** The digits of a number, with or without a sign in front, read back
    as that number, up to the 4300 digits that [int] accepts. *)
Lemma int_of_str_uint (u : Decimal.uint) (neg : bool) :
  u <> Decimal.Nil ->
  (String.length (NilEmpty.string_of_uint u) <= 4300)%nat ->
  Py.int_of_str (if neg then String "-" (NilEmpty.string_of_uint u)
                 else NilEmpty.string_of_uint u) =
  Ok (if neg then - Z.of_N (Pos.of_uint u) else Z.of_N (Pos.of_uint u)).
Proof.
  intros Hu Hlen.
  pose proof (uint_chars_digits u) as Hd.
  assert (Hplain : Forall (fun c => Py.is_space c = false)
                     (Py.chars (NilEmpty.string_of_uint u))).
  { eapply Forall_impl; [exact Hd|]. intros c Hc. apply (is_digit_plain c Hc). }
  assert (Hhead : match Py.chars (NilEmpty.string_of_uint u) with
                  | c :: _ => Ascii.eqb c "-" = false /\ Ascii.eqb c "+" = false
                  | [] => True
                  end).
  { destruct Hd as [|c l Hc _]; [exact I|]. split; apply (is_digit_plain c Hc). }
  assert (Hbody : forall neg' body,
             Py.split_sign (Py.strip (Py.chars (if neg then String "-" (NilEmpty.string_of_uint u)
                                                else NilEmpty.string_of_uint u))) = (neg', body) ->
             neg' = neg /\ body = Py.chars (NilEmpty.string_of_uint u)).
  { intros neg' body. destruct neg.
    - cbn [Py.chars list_ascii_of_string]. fold (Py.chars (NilEmpty.string_of_uint u)).
      rewrite strip_plain by (constructor; [reflexivity|exact Hplain]).
      simpl. intros H; inversion H; auto.
    - rewrite strip_plain by exact Hplain. rewrite split_sign_plain by exact Hhead.
      intros H; inversion H; auto. }
  unfold Py.int_of_str.
  destruct (Py.split_sign _) as [neg' body] eqn:Hs.
  destruct (Hbody _ _ eq_refl) as [-> ->].
  rewrite digit_run_uint. cbn [rev app].
  pose proof (uint_digits_length u) as Hl. pose proof (uint_digits_value u) as Hv.
  destruct (uint_digits u) as [|d ds] eqn:Hds.
  { destruct u; simpl in Hds; congruence. }
  replace (Py.int_max_str_digits <? Z.of_nat (length (d :: ds))) with false.
  2:{ symmetry. apply Z.ltb_ge. unfold Py.int_max_str_digits. lia. }
  rewrite Hv. reflexivity.
Qed.

Lemma str_of_int_pos (p : positive) :
  str_of_int (Z.pos p) = NilEmpty.string_of_uint (Pos.to_uint p).
Proof.
  unfold str_of_int. simpl. pose proof (DecimalPos.Unsigned.to_uint_nonnil p) as Hn.
  destruct (Pos.to_uint p); try reflexivity. congruence.
Qed.

Lemma str_of_int_neg (p : positive) :
  str_of_int (Z.neg p) = String "-" (NilEmpty.string_of_uint (Pos.to_uint p)).
Proof.
  unfold str_of_int. simpl. pose proof (DecimalPos.Unsigned.to_uint_nonnil p) as Hn.
  destruct (Pos.to_uint p); try reflexivity. congruence.
Qed.

(** [int(str(n)) == n] for every integer of at most 4300 digits. *)
Lemma int_of_str_str_of_int (n : Z) :
  (String.length (str_of_int (Z.abs n)) <= 4300)%nat ->
  Py.int_of_str (str_of_int n) = Ok n.
Proof.
  destruct n as [|p|p].
  - intros _. reflexivity.
  - change (Z.abs (Z.pos p)) with (Z.pos p). rewrite str_of_int_pos. intros Hlen.
    rewrite (int_of_str_uint (Pos.to_uint p) false
               (DecimalPos.Unsigned.to_uint_nonnil p) Hlen).
    rewrite DecimalPos.Unsigned.of_to. reflexivity.
  - change (Z.abs (Z.neg p)) with (Z.pos p). rewrite str_of_int_pos, str_of_int_neg.
    intros Hlen.
    rewrite (int_of_str_uint (Pos.to_uint p) true
               (DecimalPos.Unsigned.to_uint_nonnil p) Hlen).
    rewrite DecimalPos.Unsigned.of_to. reflexivity.
Qed.

(** ** Images: reading what the tests' encoder wrote *)

Lemma str_of_int_plain (n : Z) : Forall plain (Py.chars (str_of_int n)).
Proof.
  assert (H : forall u, Forall plain (Py.chars (NilEmpty.string_of_uint u))).
  { intros u. eapply Forall_impl; [apply uint_chars_digits|].
    intros c Hc. split; apply (is_digit_plain c Hc). }
  destruct n as [|p|p].
  - repeat constructor.
  - rewrite str_of_int_pos. apply H.
  - rewrite str_of_int_neg. constructor; [split; reflexivity|apply H].
Qed.

Lemma chars_app (s1 s2 : string) : Py.chars (s1 ++ s2) = (Py.chars s1 ++ Py.chars s2)%list.
Proof. unfold Py.chars. induction s1 as [|c s1 IH]; simpl; [reflexivity|]. rewrite IH. reflexivity. Qed.

Lemma split_on_last (l cur : list ascii) :
  Forall plain l -> Py.split_on "," l cur = [(rev cur ++ l)%list].
Proof.
  intros H. revert cur. induction H as [|c l [_ Hc] _ IH]; intros cur; simpl.
  - rewrite app_nil_r. reflexivity.
  - rewrite Hc, IH. simpl. rewrite <- app_assoc. reflexivity.
Qed.

Lemma split_on_field (l rest cur : list ascii) :
  Forall plain l ->
  Py.split_on "," (l ++ ","%char :: rest) cur = (rev cur ++ l)%list :: Py.split_on "," rest [].
Proof.
  intros H. revert cur. induction H as [|c l [_ Hc] _ IH]; intros cur; simpl.
  - rewrite app_nil_r. reflexivity.
  - rewrite Hc, IH. simpl. rewrite <- app_assoc. reflexivity.
Qed.

Lemma forallb_plain (l : list ascii) : Forall plain l -> forallb Py.is_ascii l = true.
Proof.
  intros H. induction H as [|c l [Hc _] _ IH]; simpl; [reflexivity|]. rewrite Hc. exact IH.
Qed.

(** X10: the loader reads back what the tests' encoder writes.  For
    integers [w] and [h] of at most 4300 digits and an intensity text
    without comma that [float] reads as [i], the image encoded as
    [base64("w,h,text")] is decoded to exactly [w], [h] and [i], its raw
    bytes being that text, unless a dimension is not positive or the
    intensity lies outside [0, 255], which the two checks of
    [_parse_payload] report in that order. *)
Theorem load_base64_image_encode_image (w h : Z) (text : string) (i : float) :
  (String.length (str_of_int (Z.abs w)) <= 4300)%nat ->
  (String.length (str_of_int (Z.abs h)) <= 4300)%nat ->
  Forall plain (Py.chars text) ->
  Py.float_of_str text = Ok i ->
  load_base64_image (Fixtures._encode_image (w, h) text) =
  if (w <=? 0) || (h <=? 0) then Raise (ValueError msg_dimensions)
  else if negb ((0 <=? i)%float && (i <=? 255)%float) then Raise (ValueError msg_intensity)
  else Ok {| image := {| Image.width := w; Image.height := h; intensity := i |};
             raw_bytes := Py.chars (str_of_int w ++ "," ++ str_of_int h ++ "," ++ text) |}.
Proof.
  intros Hw Hh Ht Hi. unfold Fixtures._encode_image.
  set (payload := (str_of_int w ++ "," ++ str_of_int h ++ "," ++ text)%string).
  assert (Hchars : Py.chars payload =
                   (Py.chars (str_of_int w) ++ ","%char :: Py.chars (str_of_int h) ++ ","%char
                      :: Py.chars text)%list).
  { unfold payload. rewrite !chars_app. reflexivity. }
  assert (Hplain : forallb Py.is_ascii (Py.chars payload) = true).
  { rewrite Hchars. rewrite forallb_app. rewrite (forallb_plain _ (str_of_int_plain w)).
    simpl. rewrite forallb_app. rewrite (forallb_plain _ (str_of_int_plain h)).
    simpl. apply forallb_plain. exact Ht. }
  rewrite load_base64_image_encoded, Hplain.
  unfold Py.chars at 1. rewrite string_of_list_ascii_of_string.
  assert (Hfields : parse_fields payload = Ok (w, h, i)).
  { unfold parse_fields, Py.split. rewrite Hchars.
    rewrite (split_on_field _ _ [] (str_of_int_plain w)).
    rewrite (split_on_field _ _ [] (str_of_int_plain h)).
    rewrite (split_on_last _ [] Ht). cbn [rev app map unpack3].
    unfold Py.chars. rewrite !string_of_list_ascii_of_string. rewrite bind_Ok.
    rewrite (int_of_str_str_of_int w Hw), bind_Ok.
    rewrite (int_of_str_str_of_int h Hh), bind_Ok.
    rewrite Hi. reflexivity. }
  rewrite (parse_payload_checks payload w h i Hfields).
  destruct ((w <=? 0) || (h <=? 0)); [reflexivity|].
  destruct (negb _); reflexivity.
Qed.

Lemma load_base64_image_encode_image_witness :
  load_base64_image (Fixtures._encode_image (256, 256) "180.0") =
  Ok {| image := {| Image.width := 256; Image.height := 256; intensity := 180%float |};
        raw_bytes := Py.chars "256,256,180.0" |}.
Proof.
  refine (eq_trans (load_base64_image_encode_image 256 256 "180.0" 180%float _ _ _ _) _).
  - vm_compute. lia.
  - vm_compute. lia.
  - repeat constructor.
  - vm_compute. reflexivity.
  - reflexivity.
Defined.

(** ** The default box of the reference detector *)

(** A positive integer of fewer than 53 bits converts exactly: its
    mantissa is the integer shifted left to 53 bits. *)
Lemma binary_round_small (p : positive) :
  Z.pos (digits2_pos p) < 53 ->
  exists m,
    binary_round prec emax false p 0 = S754_finite false m (Z.pos (digits2_pos p) - 53) /\
    Z.pos m = Z.pos p * 2 ^ (53 - Z.pos (digits2_pos p)) /\
    Z.pos (digits2_pos m) = 53.
Proof.
  intros Hsmall. unfold binary_round.
  pose proof (digits2_pos_bounds p) as [Hlo Hhi].
  set (d := Z.pos (digits2_pos p)) in *.
  assert (Hd1 : 1 <= d) by (unfold d; lia).
  rewrite Z.add_0_r. rewrite fexp_normal by lia.
  destruct (shl_align_left p 0 (d - 53) ltac:(lia)) as (p' & -> & Hp').
  assert (Hsh : 0 < 2 ^ (0 - (d - 53))) by (apply Z.pow_pos_nonneg; lia).
  assert (Hd' : Z.pos (digits2_pos p') = 53 + 0).
  { apply digits2_pos_unique. rewrite Hp'.
    replace (53 + 0 - 1) with 52 by lia. replace (53 + 0) with 53 by lia.
    set (sh := 0 - (d - 53)) in *.
    assert (E1 : 2 ^ 52 = 2 ^ (d - 1) * 2 ^ sh).
    { rewrite <- Z.pow_add_r by lia. f_equal. lia. }
    assert (E2 : 2 ^ 53 = 2 ^ d * 2 ^ sh).
    { rewrite <- Z.pow_add_r by lia. f_equal. lia. }
    rewrite E1, E2.
    split; [apply Z.mul_le_mono_nonneg_r; lia|apply Z.mul_lt_mono_pos_r; lia]. }
  destruct (binary_round_aux_normal false p' (d - 53) 0 Hd' ltac:(lia) ltac:(lia) ltac:(lia))
    as (q & Hqlo & Hqhi & ->).
  rewrite Z.pow_0_r, Z.div_1_r in *. assert (q = p') by lia. subst q.
  pose proof (digits2_pos_bounds p') as [_ Hp'hi]. rewrite Hd' in Hp'hi.
  replace (Z.pos p' <? 2 ^ 53) with true by (symmetry; apply Z.ltb_lt; exact Hp'hi).
  exists p'. replace (d - 53 + 0) with (d - 53) by lia.
  split; [reflexivity|]. split; [|lia].
  rewrite Hp'. f_equal. f_equal. lia.
Qed.

Lemma float_of_int_small (p : positive) :
  Z.pos (digits2_pos p) < 53 ->
  exists f m,
    Py.float_of_int (Z.pos p) = Ok f /\
    Prim2SF f = S754_finite false m (Z.pos (digits2_pos p) - 53) /\
    Z.pos m = Z.pos p * 2 ^ (53 - Z.pos (digits2_pos p)) /\
    Z.pos (digits2_pos m) = 53.
Proof.
  intros Hsmall. destruct (binary_round_small p Hsmall) as (m & Hr & Hm & Hd).
  assert (Hd1 : 1 <= Z.pos (digits2_pos p)) by lia.
  assert (Hvalid : valid_binary (S754_finite false m (Z.pos (digits2_pos p) - 53)) = true)
    by (apply valid_binary_normal; lia).
  unfold Py.float_of_int, Py.float_of_Z. simpl binary_normalize. rewrite Hr.
  unfold is_infinity. rewrite FloatAxioms.eqb_spec, abs_spec, (Prim2SF_SF2Prim _ Hvalid).
  change (Prim2SF infinity) with (S754_infinity false). simpl SFeqb. cbv iota.
  eexists _, m. split; [reflexivity|]. rewrite (Prim2SF_SF2Prim _ Hvalid). auto.
Qed.

(** The truncated product [int(n * k)] for an integer below 2 ** 50 and
    a binary64 constant [k = mk * 2 ** ek]: it is the integer [T] as
    soon as the exact product lies in [T, T + 1) with a margin of
    2 ** 50 units of [2 ** ek] below [T + 1], which absorbs the rounding
    of the product. *)
Lemma scaled_exact (n T : Z) (k : float) (mk : positive) (ek : Z) :
  0 < n < 2 ^ 50 ->
  Prim2SF k = S754_finite false mk ek -> Z.pos (digits2_pos mk) = 53 -> -60 <= ek <= -53 ->
  T * 2 ^ (- ek) <= n * Z.pos mk ->
  n * Z.pos mk + 2 ^ 50 <= (T + 1) * 2 ^ (- ek) ->
  scaled n k = Ok T.
Proof.
  intros Hn Hk Hdk Hek Hlow Hup.
  destruct n as [|p|p]; try lia.
  pose proof (digits2_pos_bounds p) as [Hplo Hphi].
  set (d := Z.pos (digits2_pos p)) in *.
  assert (Hd1 : 1 <= d) by (unfold d; lia).
  assert (Hd50 : d <= 50).
  { destruct (Z_le_gt_dec d 50); [assumption|].
    assert (2 ^ 50 <= 2 ^ (d - 1)) by (apply Z.pow_le_mono_r; lia). lia. }
  destruct (float_of_int_small p ltac:(fold d; lia)) as (f & m & Hf & HPf & Hm & Hdm).
  fold d in HPf, Hm.
  unfold scaled, Py.int_mul_float. rewrite Hf, !bind_Ok.
  unfold Py.int_of_float. rewrite mul_spec, HPf, Hk. unfold SF64mul. simpl SFmul.
  (* the size of the exact product *)
  pose proof (digits2_pos_bounds m) as [Hmlo Hmhi]. rewrite Hdm in Hmlo, Hmhi.
  pose proof (digits2_pos_bounds mk) as [Hklo Hkhi]. rewrite Hdk in Hklo, Hkhi.
  simpl (53 - 1) in *.
  pose proof (digits2_pos_bounds (m * mk)) as [Hqlo' Hqhi'].
  set (dp := Z.pos (digits2_pos (m * mk))) in *.
  rewrite Pos2Z.inj_mul in Hqlo', Hqhi'.
  change (2 ^ 52) with 4503599627370496 in Hmlo, Hklo.
  change (2 ^ 53) with 9007199254740992 in Hmhi, Hkhi.
  assert (Hprod : 2 ^ 104 <= Z.pos m * Z.pos mk < 2 ^ 106).
  { change (2 ^ 104) with (4503599627370496 * 4503599627370496).
    change (2 ^ 106) with (9007199254740992 * 9007199254740992). nia. }
  assert (Hdp1 : 105 <= dp).
  { destruct (Z_le_gt_dec 105 dp); [assumption|].
    assert (2 ^ dp <= 2 ^ 104) by (apply Z.pow_le_mono_r; unfold dp; lia). lia. }
  assert (Hdp2 : dp <= 106).
  { destruct (Z_le_gt_dec dp 106); [assumption|].
    assert (2 ^ 106 <= 2 ^ (dp - 1)) by (apply Z.pow_le_mono_r; lia). lia. }
  assert (Hdn : Z.pos (digits2_pos (m * mk)) = 53 + (dp - 53)) by (fold dp; lia).
  destruct (binary_round_aux_cases false (m * mk) (d - 53 + ek) (dp - 53) Hdn
              ltac:(lia) ltac:(lia)) as (q & Hqlo & Hqhi & ->).
  rewrite Pos2Z.inj_mul in Hqlo, Hqhi.
  (* the powers of two at play *)
  set (E := d - 53 + ek + (dp - 53)).
  assert (HE : E <= -3) by (unfold E; lia).
  set (S := 2 ^ (53 - d)) in *.
  set (N' := 2 ^ (dp - 53)) in *.
  set (X := 2 ^ (- ek)) in *.
  set (W := 2 ^ (- E)).
  assert (HS : 8 <= S).
  { change 8 with (2 ^ 3). apply Z.pow_le_mono_r; lia. }
  assert (HN'0 : 0 < N') by (apply Z.pow_pos_nonneg; lia).
  assert (HN' : N' <= 2 ^ 53) by (apply Z.pow_le_mono_r; lia).
  assert (HW0 : 0 < W) by (apply Z.pow_pos_nonneg; lia).
  assert (HWN : W * N' = S * X).
  { unfold W, N', S, X. rewrite <- !Z.pow_add_r by lia. f_equal. unfold E. lia. }
  assert (HP : Z.pos m * Z.pos mk = Z.pos p * Z.pos mk * S) by (rewrite Hm; ring).
  assert (Hlo : T * W <= Z.pos q).
  { eapply Z.le_trans; [|exact Hqlo]. apply Z.div_le_lower_bound; [lia|].
    rewrite HP. replace (N' * (T * W)) with (T * X * S)
      by (transitivity (T * (W * N')); [rewrite HWN; ring|ring]).
    apply Z.mul_le_mono_nonneg_r; lia. }
  assert (Hhi : Z.pos q < (T + 1) * W).
  { apply (Z.mul_lt_mono_pos_r N'); [lia|].
    eapply Z.lt_le_trans; [exact Hqhi|].
    replace ((T + 1) * W * N') with ((T + 1) * X * S)
      by (transitivity ((T + 1) * (W * N')); [rewrite HWN; ring|ring]).
    rewrite HP.
    apply Z.le_trans with ((Z.pos p * Z.pos mk + 2 ^ 50) * S).
    - assert (N' <= 2 ^ 50 * S).
      { eapply Z.le_trans; [exact HN'|]. change (2 ^ 53) with (2 ^ 50 * 8).
        apply Z.mul_le_mono_nonneg_l; lia. }
      lia.
    - apply Z.mul_le_mono_nonneg_r; lia. }
  destruct (Z.ltb_spec (Z.pos q) (2 ^ 53)) as [Hlt|Hge].
  - replace (E <=? 971) with true by (symmetry; apply Z.leb_le; lia).
    cbv iota. replace (0 <=? E) with false by (symmetry; apply Z.leb_gt; lia).
    fold W. f_equal. symmetry. apply Z.div_unique with (r := Z.pos q - T * W); lia.
  - replace (E + 1 <=? 971) with true by (symmetry; apply Z.leb_le; lia).
    cbv iota. replace (0 <=? E + 1) with false by (symmetry; apply Z.leb_gt; lia).
    assert (Hq : Z.pos q = 2 ^ 53).
    { assert (Z.pos q * N' < 2 ^ 53 * N' + N').
      { eapply Z.lt_le_trans; [exact Hqhi|]. apply Z.add_le_mono_r.
        replace (2 ^ 53 * N') with (2 ^ dp); [lia|].
        unfold N'. rewrite <- Z.pow_add_r by lia. f_equal. lia. }
      assert (Z.pos q < 2 ^ 53 + 1) by nia. lia. }
    assert (HW2 : W = 2 * 2 ^ (- (E + 1))).
    { unfold W. replace (- E) with (1 + - (E + 1)) by lia.
      rewrite Z.pow_add_r by lia. reflexivity. }
    set (W' := 2 ^ (- (E + 1))) in *.
    assert (HW'0 : 0 < W') by (apply Z.pow_pos_nonneg; lia).
    change (Z.pos (2 ^ 52)) with (2 ^ 52).
    rewrite Hq in Hlo, Hhi. change (2 ^ 53) with (2 * 2 ^ 52) in Hlo, Hhi.
    f_equal. symmetry. apply Z.div_unique with (r := 2 ^ 52 - T * W'); lia.
Qed.

(** [int(n * 0.1)] is the tenth of [n], rounded down. *)
Lemma scaled_tenth (n : Z) : 0 <= n < 2 ^ 50 -> scaled n 0.1%float = Ok (n / 10).
Proof.
  intros Hn. destruct (Z.eq_dec n 0) as [->|Hn0]; [vm_compute; reflexivity|].
  change (2 ^ 50) with 1125899906842624 in Hn.
  apply (scaled_exact n (n / 10) 0.1%float 7205759403792794 (-56)); try reflexivity; try lia.
  - change (2 ^ (- -56)) with 72057594037927936.
    change (Z.pos 7205759403792794) with 7205759403792794. div_lia.
  - change (2 ^ (- -56)) with 72057594037927936. change (2 ^ 50) with 1125899906842624.
    change (Z.pos 7205759403792794) with 7205759403792794. div_lia.
Qed.

(** [int(n * 0.8)] is four fifths of [n], rounded down. *)
Lemma scaled_four_fifths (n : Z) : 0 <= n < 2 ^ 50 -> scaled n 0.8%float = Ok (4 * n / 5).
Proof.
  intros Hn. destruct (Z.eq_dec n 0) as [->|Hn0]; [vm_compute; reflexivity|].
  change (2 ^ 50) with 1125899906842624 in Hn.
  apply (scaled_exact n (4 * n / 5) 0.8%float 7205759403792794 (-53));
    try reflexivity; try lia.
  - change (2 ^ (- -53)) with 9007199254740992.
    change (Z.pos 7205759403792794) with 7205759403792794. div_lia.
  - change (2 ^ (- -53)) with 9007199254740992. change (2 ^ 50) with 1125899906842624.
    change (Z.pos 7205759403792794) with 7205759403792794. div_lia.
Qed.

Lemma detect_faces_default_box (img : SimpleImage) (hints : option (list FaceBoundingBox)) :
  hints = None \/ hints = Some [] ->
  0 <= Image.width img < 2 ^ 50 -> 0 <= Image.height img < 2 ^ 50 ->
  detect_faces SimpleFaceDetector img hints =
  Ok [ {| bounding_box :=
            {| x := Image.width img / 10; y := Image.height img / 10;
               Detector.width := 4 * Image.width img / 5;
               Detector.height := 4 * Image.height img / 5 |};
          confidence := 0.5%float; occluded := false |} ].
Proof.
  intros Hh Hw Hht. apply detect_faces_default; try assumption;
    first [apply scaled_tenth|apply scaled_four_fifths]; assumption.
Qed.

(** X11: without hints, and for an image of fewer than 2 ** 50 pixels a
    side, the floating-point products of the reference detector are
    exact: its one detection is the box
    [(W // 10, H // 10, 4 * W // 5, 4 * H // 5)], with confidence 0.5 and
    not occluded. *)
Theorem default_box_exact (img : SimpleImage) (hints : option (list FaceBoundingBox)) :
  hints = None \/ hints = Some [] ->
  0 <= Image.width img < 2 ^ 50 -> 0 <= Image.height img < 2 ^ 50 ->
  scaled (Image.width img) 0.1%float = Ok (Image.width img / 10) /\
  scaled (Image.width img) 0.8%float = Ok (4 * Image.width img / 5) /\
  detect_faces SimpleFaceDetector img hints =
  Ok [ {| bounding_box :=
            {| x := Image.width img / 10; y := Image.height img / 10;
               Detector.width := 4 * Image.width img / 5;
               Detector.height := 4 * Image.height img / 5 |};
          confidence := 0.5%float; occluded := false |} ].
Proof.
  intros Hh Hw Hht. split; [apply scaled_tenth; assumption|].
  split; [apply scaled_four_fifths; assumption|].
  apply detect_faces_default_box; assumption.
Qed.

Lemma default_box_exact_witness :
  detect_faces SimpleFaceDetector
    {| Image.width := 256; Image.height := 256; intensity := 180%float |} None =
  Ok [ {| bounding_box := {| x := 25; y := 25; Detector.width := 204; Detector.height := 204 |};
          confidence := 0.5%float; occluded := false |} ].
Proof.
  refine (proj2 (proj2 (default_box_exact
                          {| Image.width := 256; Image.height := 256;
                             intensity := 180%float |} None _ _ _))).
  - left. reflexivity.
  - simpl. lia.
  - simpl. lia.
Defined.

(** X12: the default box lies inside the image, and cropping to it keeps
    four fifths of each side.  For an image of positive sides below
    2 ** 50 and no hints, the box of the one detection has non-negative
    offsets and ends within the image, and [crop_to_face] returns an
    image of [max(1, 4 * W // 5)] by [max(1, 4 * H // 5)] pixels with the
    intensity of the original. *)
Theorem crop_to_default_box (img : SimpleImage) (detection : FaceDetection) :
  0 < Image.width img < 2 ^ 50 -> 0 < Image.height img < 2 ^ 50 ->
  detect_faces SimpleFaceDetector img None = Ok [detection] ->
  0 <= x (bounding_box detection) /\ 0 <= y (bounding_box detection) /\
  0 <= Detector.width (bounding_box detection) /\
  0 <= Detector.height (bounding_box detection) /\
  x (bounding_box detection) + Detector.width (bounding_box detection) <= Image.width img /\
  y (bounding_box detection) + Detector.height (bounding_box detection) <= Image.height img /\
  crop_to_face img detection =
  {| Image.width := Z.max 1 (4 * Image.width img / 5);
     Image.height := Z.max 1 (4 * Image.height img / 5);
     intensity := intensity img |}.
Proof.
  intros Hw Hh Hd.
  rewrite (detect_faces_default_box img None) in Hd by (auto; lia).
  inversion Hd; subst; clear Hd. unfold crop_to_face, crop_box. simpl.
  repeat split; try div_lia.
  f_equal; div_lia.
Qed.

Lemma crop_to_default_box_witness :
  crop_to_face {| Image.width := 256; Image.height := 256; intensity := 180%float |}
    {| bounding_box := {| x := 25; y := 25; Detector.width := 204; Detector.height := 204 |};
       confidence := 0.5%float; occluded := false |} =
  {| Image.width := 204; Image.height := 204; intensity := 180%float |}.
Proof.
  refine (proj2 (proj2 (proj2 (proj2 (proj2 (proj2
            (crop_to_default_box
               {| Image.width := 256; Image.height := 256; intensity := 180%float |}
               {| bounding_box :=
                    {| x := 25; y := 25; Detector.width := 204; Detector.height := 204 |};
                  confidence := 0.5%float; occluded := false |} _ _ _))))))).
  - simpl. lia.
  - simpl. lia.
  - vm_compute. reflexivity.
Defined.

(** ** The entry point *)

Lemma resolve_detector_default (config : AgeServiceConfig) :
  _resolve_detector config None = SimpleFaceDetector.
Proof. unfold _resolve_detector. destruct (String.eqb _ _); reflexivity. Qed.

(** X13: the size check comes after decoding and before detection.  An
    image whose shorter edge is below [min_image_edge] is refused with a
    [ValidationError] on [image_base64] that names the minimum, whatever
    detector and model are supplied (neither is called); an image of at
    least that size passes the check.  The minimum is rendered in the
    message, which Python does for integers of at most 4300 digits. *)
Theorem run_inference_image_too_small (log : float -> float) (fs : files)
    (payload : Py.value) (config_path : option string) (config : AgeServiceConfig)
    (request : ValidatedRequest) (loaded : LoadedImage) :
  load_config fs config_path = Ok config ->
  validate_payload payload config = Ok request ->
  load_base64_image (image_base64 request) = Ok loaded ->
  Z.abs (min_image_edge config) < 10 ^ 4300 ->
  (Z.min (Image.width (image loaded)) (Image.height (image loaded)) < min_image_edge config ->
   forall detector' model',
     run_inference log fs payload config_path detector' model' =
     Raise (ValidationError
              ("image must be at least " ++ str_of_int (min_image_edge config)
                 ++ "px on each edge")
              (Some "image_base64"))) /\
  (min_image_edge config <= Z.min (Image.width (image loaded)) (Image.height (image loaded)) ->
   _validate_image_size (image loaded) config = Ok tt).
Proof.
  intros Hc Hr Hl _. split.
  - intros Hsmall detector' model'. unfold run_inference.
    rewrite Hc, bind_Ok, Hr, bind_Ok, Hl, try_except_Ok, bind_Ok.
    unfold _validate_image_size. simpl.
    apply Z.ltb_lt in Hsmall. rewrite Hsmall. reflexivity.
  - intros Hbig. unfold _validate_image_size. simpl.
    apply Z.ltb_ge in Hbig. rewrite Hbig. reflexivity.
Qed.

Lemma run_inference_image_too_small_witness :
  run_inference Fixtures.no_log Fixtures.test_files
    (Fixtures.dict [("image_base64", Py.PyStr (Fixtures._encode_image (64, 64) "180.0"));
                    ("consent", Py.PyBool true)])
    (Some DEFAULT_CONFIG_PATH) (Some (Fixtures.DetectorStub [])) (Some (Fixtures.ModelStub 30 2)) =
  Raise (ValidationError "image must be at least 128px on each edge" (Some "image_base64")).
Proof.
  refine (proj1 (run_inference_image_too_small Fixtures.no_log Fixtures.test_files
                   _ (Some DEFAULT_CONFIG_PATH) Fixtures.test_config
                   {| image_base64 := Fixtures._encode_image (64, 64) "180.0"; consent := true;
                      confidence_level := 0.9%float; return_face_bbox := false;
                      detector_hints := [] |}
                   {| image := {| Image.width := 64; Image.height := 64;
                                  intensity := 180%float |};
                      raw_bytes := Py.chars "64,64,180.0" |}
                   _ _ _ _) _ _ _).
  - reflexivity.
  - vm_compute. reflexivity.
  - vm_compute. reflexivity.
  - vm_compute. reflexivity.
  - simpl. lia.
Defined.

(** X14: the detector name of the configuration has no effect.  Without
    an injected detector the reference detector is used whatever the
    name, and the whole result of [run_inference] is the same for any
    other name in the configuration file. *)
Theorem configured_detector_name_ignored (log : float -> float) (fs : files)
    (payload : Py.value) (config_path : option string)
    (detector' : option BaseFaceDetector) (model' : option AgeModel) (name' : string) :
  (forall config, _resolve_detector config None = SimpleFaceDetector) /\
  run_inference log (fun p => with_detector_name name' <$> fs p) payload config_path
    detector' model' =
  run_inference log fs payload config_path detector' model'.
Proof.
  split; [exact resolve_detector_default|].
  unfold run_inference, load_config.
  destruct (fs _) as [config|]; simpl; [|reflexivity].
  assert (Hv : validate_payload payload (with_detector_name name' config) =
               validate_payload payload config) by reflexivity.
  rewrite Hv. destruct (validate_payload payload config) as [request|e]; simpl; [|reflexivity].
  destruct (try_except _ _ _) as [loaded|e]; simpl; [|reflexivity].
  assert (Hs : _validate_image_size (image loaded) (with_detector_name name' config) =
               _validate_image_size (image loaded) config) by reflexivity.
  rewrite Hs. destruct (_validate_image_size _ config) as [[]|e]; simpl; [|reflexivity].
  assert (Hd : _resolve_detector (with_detector_name name' config) detector' =
               _resolve_detector config detector').
  { destruct detector'; [reflexivity|]. rewrite !resolve_detector_default. reflexivity. }
  rewrite Hd. reflexivity.
Qed.



(** X16: what a successful response says.  Whenever [run_inference]
    returns, the request was valid, the image decoded and large enough,
    the detector answered by exactly one detection that is not occluded,
    and the model was called on a 224 x 224 image of the decoded
    intensity: neither the size of the image nor the detected box reaches
    the model.  The response has status ["success"], the age the model
    predicted, the requested level, the name of the detector that ran,
    the model metadata of the configuration (not of the model object),
    and the detected box exactly when the request asked for it. *)
Theorem run_inference_success (log : float -> float) (fs : files) (payload : Py.value)
    (config_path : option string) (detector' : option BaseFaceDetector)
    (model' : option AgeModel) (resp : response) :
  run_inference log fs payload config_path detector' model' = Ok resp ->
  exists config request loaded detection prediction,
    load_config fs config_path = Ok config /\
    validate_payload payload config = Ok request /\
    load_base64_image (image_base64 request) = Ok loaded /\
    min_image_edge config <= Z.min (Image.width (image loaded)) (Image.height (image loaded)) /\
    detect_faces (_resolve_detector config detector') (image loaded)
      (Some (detector_hints request)) = Ok [detection] /\
    occluded detection = false /\
    predict (_resolve_model config model')
      {| Image.width := 224; Image.height := 224; intensity := intensity (image loaded) |} =
      Ok prediction /\
    confidence_interval log prediction (confidence_level request) =
      Ok (lower (confidence_interval_out (age resp)),
          upper (confidence_interval_out (age resp))) /\
    status resp = "success" /\
    age_value (age resp) = value prediction /\
    level (confidence_interval_out (age resp)) = confidence_level request /\
    detector (metadata resp) = Detector.name (_resolve_detector config detector') /\
    out_name (model (metadata resp)) = Config.name (model_metadata config) /\
    out_version (model (metadata resp)) = version (model_metadata config) /\
    out_fairness_warnings (metadata resp) = fairness_warnings (model_metadata config) /\
    out_limitations (metadata resp) = limitations (model_metadata config) /\
    face_bbox resp =
      (if return_face_bbox request then
         Some {| out_x := x (bounding_box detection);
                 out_y := y (bounding_box detection);
                 out_width := Detector.width (bounding_box detection);
                 out_height := Detector.height (bounding_box detection) |}
       else None).
Proof.
  unfold run_inference. intros H.
  apply bind_Ok_inv in H. destruct H as (config & Hc & H).
  apply bind_Ok_inv in H. destruct H as (request & Hr & H).
  apply bind_Ok_inv in H. destruct H as (loaded & Hl & H). apply try_except_Ok_inv in Hl.
  apply bind_Ok_inv in H. destruct H as ([] & Hs & H).
  cbv zeta in H.
  apply bind_Ok_inv in H. destruct H as (detections & Hd & H).
  destruct detections as [|detection [|d2 ds]]; try discriminate.
  destruct (occluded detection) eqn:Hocc; [discriminate|].
  apply bind_Ok_inv in H. destruct H as (prediction & Hp & H).
  apply bind_Ok_inv in H. destruct H as ([lo hi] & Hci & H).
  inversion H; subst; simpl. clear H.
  assert (Hedge : min_image_edge config <=
                  Z.min (Image.width (image loaded)) (Image.height (image loaded))).
  { revert Hs. unfold _validate_image_size. simpl.
    destruct (Z.ltb_spec (Z.min (Image.width (image loaded)) (Image.height (image loaded)))
                (min_image_edge config)); [discriminate|lia]. }
  exists config, request, loaded, detection, prediction.
  repeat (split; [first [assumption|reflexivity]|]). reflexivity.
Qed.

Lemma run_inference_success_witness :
  exists resp,
    run_inference Fixtures.no_log Fixtures.test_files Fixtures.one_hint_payload None None None =
      Ok resp /\
    status resp = "success" /\
    out_name (model (metadata resp)) = "CalibratedLinearNet".
Proof.
  destruct (run_inference Fixtures.no_log Fixtures.test_files Fixtures.one_hint_payload
              None None None) as [resp|e] eqn:H.
  - exists resp. split; [reflexivity|].
    destruct (run_inference_success _ _ _ _ _ _ _ H)
      as (config & request & loaded & detection & prediction & Hc & _ & _ & _ & _ & _ & _ & _
          & Hstatus & _ & _ & _ & Hname & _).
    split; [exact Hstatus|]. rewrite Hname.
    vm_compute in Hc. inversion Hc; subst. reflexivity.
  - vm_compute in H. discriminate.
Defined.





Lemma loaded_image_positive (data : string) (loaded : LoadedImage) :
  load_base64_image data = Ok loaded ->
  0 < Image.width (image loaded) /\ 0 < Image.height (image loaded).
Proof.
  unfold load_base64_image. intros H.
  apply bind_Ok_inv in H. destruct H as (raw & _ & H).
  apply bind_Ok_inv in H. destruct H as (payload & _ & H).
  apply bind_Ok_inv in H. destruct H as (img & Himg & H). inversion H; subst; simpl. clear H.
  revert Himg. unfold _parse_payload.
  destruct (try_except _ _ _) as [[[w h] i]|e0]; simpl; [|discriminate].
  destruct (Z.leb_spec w 0); simpl; [discriminate|].
  destruct (Z.leb_spec h 0); simpl; [discriminate|].
  destruct (negb _); [discriminate|]. intros Hi; inversion Hi; subst; simpl. lia.
Qed.

(** X18: a valid request without hints succeeds with the reference
    detector and model, for every image that passes the size check and
    has fewer than 2 ** 50 pixels a side.  The age is
    [60 * (intensity / 255) + 5]; the detector reported is ["simple"];
    the box returned on request is the central
    [(W // 10, H // 10, 4 * W // 5, 4 * H // 5)]. *)
Theorem run_inference_without_hints (log : float -> float) (fs : files) (payload : Py.value)
    (config_path : option string) (config : AgeServiceConfig) (request : ValidatedRequest)
    (loaded : LoadedImage) :
  load_config fs config_path = Ok config ->
  validate_payload payload config = Ok request ->
  detector_hints request = [] ->
  load_base64_image (image_base64 request) = Ok loaded ->
  _validate_image_size (image loaded) config = Ok tt ->
  Image.width (image loaded) < 2 ^ 50 -> Image.height (image loaded) < 2 ^ 50 ->
  exists resp,
    run_inference log fs payload config_path None None = Ok resp /\
    status resp = "success" /\
    age_value (age resp) = (60 * (intensity (image loaded) / 255) + 5)%float /\
    level (confidence_interval_out (age resp)) = confidence_level request /\
    detector (metadata resp) = "simple" /\
    face_bbox resp =
      (if return_face_bbox request then
         Some {| out_x := Image.width (image loaded) / 10;
                 out_y := Image.height (image loaded) / 10;
                 out_width := 4 * Image.width (image loaded) / 5;
                 out_height := 4 * Image.height (image loaded) / 5 |}
       else None).
Proof.
  intros Hc Hr Hh Hl Hs Hw Hht.
  destruct (validate_payload_level _ _ _ Hr) as [Hl0 Hl1].
  destruct (loaded_image_positive _ _ Hl) as [Hw0 Hh0].
  assert (Hd : detect_faces (_resolve_detector config None) (image loaded)
                 (Some (detector_hints request)) =
               Ok [ {| bounding_box :=
                         {| x := Image.width (image loaded) / 10;
                            y := Image.height (image loaded) / 10;
                            Detector.width := 4 * Image.width (image loaded) / 5;
                            Detector.height := 4 * Image.height (image loaded) / 5 |};
                       confidence := 0.5%float; occluded := false |} ]).
  { rewrite resolve_detector_default, Hh. apply detect_faces_default_box; auto; lia. }
  rewrite (run_inference_after_detection log _ _ _ None None _ _ _ Hc Hr Hl Hs _ Hd).
  cbn [occluded]. unfold _resolve_model. cbn [predict CalibratedLinearModel]. rewrite bind_Ok.
  match goal with |- context [confidence_interval log ?p _] =>
    destruct (confidence_interval_defined log p (confidence_level request) Hl0 Hl1 eq_refl)
      as (lo & hi & ->)
  end.
  rewrite bind_Ok, resolve_detector_default. eexists. split; [reflexivity|].
  cbn. repeat split; reflexivity.
Qed.

Lemma run_inference_without_hints_witness :
  exists resp,
    run_inference Fixtures.no_log Fixtures.test_files
      (Fixtures.dict [("image_base64", Py.PyStr Fixtures.encoded_image);
                      ("consent", Py.PyBool true); ("confidence_level", Py.PyFloat 0.5);
                      ("return_face_bbox", Py.PyBool true)])
      None None None = Ok resp /\
    face_bbox resp = Some {| out_x := 25; out_y := 25; out_width := 204; out_height := 204 |}.
Proof.
  destruct (run_inference_without_hints Fixtures.no_log Fixtures.test_files
              (Fixtures.dict [("image_base64", Py.PyStr Fixtures.encoded_image);
                              ("consent", Py.PyBool true);
                              ("confidence_level", Py.PyFloat 0.5);
                              ("return_face_bbox", Py.PyBool true)])
              None Fixtures.test_config
              {| image_base64 := Fixtures.encoded_image; consent := true;
                 confidence_level := 0.5%float; return_face_bbox := true;
                 detector_hints := [] |}
              {| image := {| Image.width := 256; Image.height := 256;
                             intensity := 180%float |};
                 raw_bytes := Py.chars "256,256,180.0" |}
              eq_refl ltac:(vm_compute; reflexivity) eq_refl
              ltac:(vm_compute; reflexivity) eq_refl ltac:(simpl; lia) ltac:(simpl; lia))
    as (resp & Hrun & _ & _ & _ & _ & Hbox).
  exists resp. split; [exact Hrun|]. rewrite Hbox. reflexivity.
Defined.

(** ** A model without spread *)

Lemma eqb_zero_cases (u : float) :
  (u =? 0)%float = true -> (u <? 0)%float = false /\ (u <=? 0)%float = true.
Proof.
  rewrite FloatAxioms.eqb_spec, FloatAxioms.ltb_spec, FloatAxioms.leb_spec.
  unfold SFeqb, SFltb, SFleb.
  destruct (SFcompare (Prim2SF u) (Prim2SF 0)) as [[]|]; simpl; try discriminate. auto.
Qed.

Lemma confidence_interval_no_spread (log : float -> float) (prediction : AgePrediction)
    (level' : float) :
  (0 <? level')%float = true -> (level' <? 1)%float = true ->
  ((uncertainty prediction <? 0)%float = true ->
   confidence_interval log prediction level' =
   Raise (StatisticsError "sigma must be non-negative")) /\
  ((uncertainty prediction =? 0)%float = true ->
   confidence_interval log prediction level' =
   Raise (StatisticsError "cdf() not defined when sigma at or below zero")).
Proof.
  intros H0 H1. destruct (clamped_level_range level' H0 H1) as [Hc0 Hc1].
  destruct (tail_probabilities_in_range _ Hc0 Hc1) as (Ht0 & Ht1 & _ & _).
  destruct (positive_float_not_below_zero _ Hc0) as [Hcle _].
  unfold confidence_interval. rewrite Hcle. unfold Statistics.NormalDist_init. split.
  - intros ->. reflexivity.
  - intros Hz. destruct (eqb_zero_cases _ Hz) as [-> Hle]. rewrite bind_Ok.
    cbv zeta. unfold Statistics.inv_cdf. simpl Statistics._sigma.
    rewrite Ht0, Ht1, Hle. reflexivity.
Qed.

(** X19: a model that predicts without spread breaks the interval.  For
    every level that validation lets through, a negative uncertainty and
    an uncertainty of zero each make [confidence_interval] raise a
    [StatisticsError]; [run_inference] does not catch it, so a request
    that reached such a model ends with that error, which is neither a
    [ValidationError] nor an [InferenceError]. *)
Theorem run_inference_model_without_spread (log : float -> float) (fs : files)
    (payload : Py.value) (config_path : option string)
    (detector' : option BaseFaceDetector) (model' : option AgeModel)
    (config : AgeServiceConfig) (request : ValidatedRequest) (loaded : LoadedImage)
    (detection : FaceDetection) (prediction : AgePrediction) :
  load_config fs config_path = Ok config ->
  validate_payload payload config = Ok request ->
  load_base64_image (image_base64 request) = Ok loaded ->
  _validate_image_size (image loaded) config = Ok tt ->
  detect_faces (_resolve_detector config detector') (image loaded)
    (Some (detector_hints request)) = Ok [detection] ->
  occluded detection = false ->
  predict (_resolve_model config model')
    (normalise_image (crop_to_face (image loaded) detection)) = Ok prediction ->
  ((uncertainty prediction <? 0)%float = true ->
   confidence_interval log prediction (confidence_level request) =
     Raise (StatisticsError "sigma must be non-negative") /\
   run_inference log fs payload config_path detector' model' =
     Raise (StatisticsError "sigma must be non-negative")) /\
  ((uncertainty prediction =? 0)%float = true ->
   confidence_interval log prediction (confidence_level request) =
     Raise (StatisticsError "cdf() not defined when sigma at or below zero") /\
   run_inference log fs payload config_path detector' model' =
     Raise (StatisticsError "cdf() not defined when sigma at or below zero")).
Proof.
  intros Hc Hr Hl Hs Hd Hocc Hp.
  destruct (validate_payload_level _ _ _ Hr) as [Hl0 Hl1].
  destruct (confidence_interval_no_spread log prediction _ Hl0 Hl1) as [Hneg Hzero].
  rewrite (run_inference_after_detection log _ _ _ detector' model' _ _ _ Hc Hr Hl Hs _ Hd).
  rewrite Hocc, Hp, bind_Ok.
  split; intros Hu; [rewrite (Hneg Hu)|rewrite (Hzero Hu)]; split; reflexivity.
Qed.

Lemma run_inference_model_without_spread_witness :
  run_inference Fixtures.no_log Fixtures.test_files Fixtures.base_payload
    (Some DEFAULT_CONFIG_PATH)
    (Some (Fixtures.DetectorStub [Fixtures.detection_of false]))
    (Some (Fixtures.ModelStub 30 0)) =
  Raise (StatisticsError "cdf() not defined when sigma at or below zero").
Proof.
  refine (proj2 (proj2 (run_inference_model_without_spread Fixtures.no_log Fixtures.test_files
            Fixtures.base_payload (Some DEFAULT_CONFIG_PATH)
            (Some (Fixtures.DetectorStub [Fixtures.detection_of false]))
            (Some (Fixtures.ModelStub 30 0))
            Fixtures.test_config
            {| image_base64 := Fixtures.encoded_image; consent := true;
               confidence_level := 0.9%float; return_face_bbox := false;
               detector_hints := [] |}
            {| image := {| Image.width := 256; Image.height := 256; intensity := 180%float |};
               raw_bytes := Py.chars "256,256,180.0" |}
            (Fixtures.detection_of false)
            {| value := 30%float; uncertainty := 0%float |}
            _ _ _ _ _ _ _) _)).
  - reflexivity.
  - vm_compute. reflexivity.
  - vm_compute. reflexivity.
  - reflexivity.
  - reflexivity.
  - reflexivity.
  - reflexivity.
  - reflexivity.
Defined.

(** ** Levels above the cap *)

(** X20: a level above 0.999 is computed at 0.999 but reported as
    requested.  [confidence_interval] gives for it the very interval of
    level 0.999, while the response of [run_inference] carries the level
    of the request next to these bounds. *)
Theorem confidence_level_capped (log : float -> float) (fs : files) (payload : Py.value)
    (config_path : option string) (detector' : option BaseFaceDetector)
    (model' : option AgeModel) (prediction : AgePrediction) (level' : float) :
  (0.999 <? level')%float = true ->
  confidence_interval log prediction level' = confidence_interval log prediction 0.999 /\
  (forall resp config request,
     load_config fs config_path = Ok config ->
     validate_payload payload config = Ok request ->
     confidence_level request = level' ->
     run_inference log fs payload config_path detector' model' = Ok resp ->
     level (confidence_interval_out (age resp)) = level' /\
     exists prediction',
       value prediction' = age_value (age resp) /\
       confidence_interval log prediction' 0.999 =
       Ok (lower (confidence_interval_out (age resp)),
           upper (confidence_interval_out (age resp)))).
Proof.
  intros Hcap.
  assert (Hsame : forall p, confidence_interval log p level' = confidence_interval log p 0.999).
  { intros p. unfold confidence_interval, Py.min. rewrite Hcap. reflexivity. }
  split; [apply Hsame|].
  intros resp config request Hc Hr Hlev. unfold run_inference.
  rewrite Hc, bind_Ok, Hr, bind_Ok. intros H.
  apply bind_Ok_inv in H. destruct H as (loaded & _ & H).
  apply bind_Ok_inv in H. destruct H as ([] & _ & H). cbv zeta in H.
  apply bind_Ok_inv in H. destruct H as (detections & _ & H).
  destruct detections as [|detection [|d2 ds]]; try discriminate.
  destruct (occluded detection); [discriminate|].
  apply bind_Ok_inv in H. destruct H as (prediction' & _ & H).
  apply bind_Ok_inv in H. destruct H as ([lo hi] & Hci & H).
  inversion H; subst; simpl. clear H. split; [reflexivity|].
  exists prediction'. split; [reflexivity|]. rewrite <- Hsame. exact Hci.
Qed.

Lemma confidence_level_capped_witness :
  confidence_interval Fixtures.no_log {| value := 30%float; uncertainty := 0%float |} 0.9995 =
  confidence_interval Fixtures.no_log {| value := 30%float; uncertainty := 0%float |} 0.999.
Proof.
  apply (proj1 (confidence_level_capped Fixtures.no_log Fixtures.test_files Py.PyNone None
                  None None {| value := 30%float; uncertainty := 0%float |} 0.9995%float
                  eq_refl)).
Defined.

(** ** Rounding, in general *)

Lemma fexp_cases (d : Z) :
  fexp prec emax d = Z.max (d - 53) (-1074).
Proof. reflexivity. Qed.

Lemma Zdigits2_bounds (m : Z) :
  0 < m -> 2 ^ (Zdigits2 m - 1) <= m < 2 ^ Zdigits2 m.
Proof. destruct m as [|p|p]; try lia. intros _. apply digits2_pos_bounds. Qed.

Lemma Zdigits2_nonneg (m : Z) : 0 <= m -> 0 <= Zdigits2 m.
Proof. destruct m; simpl; lia. Qed.

Lemma loc_of_shr_record_of_loc (m : Z) (l : location) :
  loc_of_shr_record (shr_record_of_loc m l) = l /\
  shr_m (shr_record_of_loc m l) = m.
Proof. destruct l as [|[| |]]; split; reflexivity. Qed.

(** The mantissa of a record shifted right is halved at each step,
    whatever the round and sticky bits. *)
Lemma shr_1_m (mrs : shr_record) : 0 <= shr_m mrs -> shr_m (shr_1 mrs) = shr_m mrs / 2.
Proof.
  destruct mrs as [m r s]. simpl. intros Hm.
  destruct m as [|[p|p|]|p]; try lia; try reflexivity; simpl shr_m.
  - rewrite Pos2Z.inj_xI. apply Z.div_unique with 1; lia.
  - rewrite Pos2Z.inj_xO. apply Z.div_unique with 0; lia.
Qed.

Lemma shr_iter_m (mrs : shr_record) (n : positive) :
  0 <= shr_m mrs ->
  shr_m (SpecFloat.iter_pos shr_1 n mrs) = shr_m mrs / 2 ^ Z.pos n.
Proof.
  intros Hm. rewrite iter_pos_iter.
  induction n as [|n IH] using Pos.peano_ind.
  - simpl Pos.iter. rewrite shr_1_m by exact Hm. reflexivity.
  - rewrite Pos.iter_succ, Pos2Z.inj_succ, Z.pow_succ_r by lia.
    rewrite shr_1_m.
    + rewrite IH. rewrite Z.div_div by (try apply Z.pow_pos_nonneg; lia).
      f_equal. lia.
    + rewrite IH. apply Z.div_pos; [lia|apply Z.pow_pos_nonneg; lia].
Qed.

(** The first shift of [binary_round_aux], for a mantissa already
    aligned on or below the exponent of the result: the mantissa loses
    its [n] low bits, and nothing is remembered as dropped when the
    location was exact and these bits were zero. *)
Lemma shr_general (mx : Z) (ex n : Z) (lx : location) :
  0 <= mx -> 0 <= n ->
  exists mrs,
    shr (shr_record_of_loc mx lx) ex n = (mrs, ex + n) /\
    shr_m mrs = mx / 2 ^ n /\
    (lx = loc_Exact -> mx mod 2 ^ n = 0 -> shr_r mrs = false /\ shr_s mrs = false).
Proof.
  intros Hm Hn. destruct n as [|p|p]; [| |lia].
  - exists (shr_record_of_loc mx lx). simpl shr. rewrite Z.add_0_r, Z.pow_0_r, Z.div_1_r.
    split; [reflexivity|]. split; [apply loc_of_shr_record_of_loc|].
    intros ->. simpl. auto.
  - eexists. simpl shr. split; [reflexivity|]. split.
    + rewrite shr_iter_m; rewrite (proj2 (loc_of_shr_record_of_loc mx lx)); [reflexivity|lia].
    + intros ->. simpl shr_record_of_loc. intros Hmod.
      destruct (shr_iter_inv mx p Hm) as [_ Hexact]. apply Hexact. exact Hmod.
Qed.

(** Rounding a non-negative mantissa [mx] at exponent [ex], when [ex]
    is not above the exponent [e1] of the result: the mantissa is
    divided by [2 ** (e1 - ex)] and rounded down or up, not at all when
    nothing was dropped; a result of 2 ** 53 moves to the next binade.
    Stated away from overflow. *)
Lemma binary_round_aux_general (mx : Z) (ex : Z) (lx : location) :
  let e1 := fexp prec emax (Zdigits2 mx + ex) in
  0 <= mx -> ex <= e1 -> e1 <= 970 ->
  exists q : Z,
    mx / 2 ^ (e1 - ex) <= q <= mx / 2 ^ (e1 - ex) + 1 /\
    q <= 2 ^ 53 /\
    (mx / 2 ^ (e1 - ex) < 2 ^ 52 -> e1 = -1074) /\
    (lx = loc_Exact -> mx mod 2 ^ (e1 - ex) = 0 -> q = mx / 2 ^ (e1 - ex)) /\
    binary_round_aux prec emax false mx ex lx =
    if q =? 0 then S754_zero false
    else if q <? 2 ^ 53 then S754_finite false (Z.to_pos q) e1
    else S754_finite false (2 ^ 52)%positive (e1 + 1).
Proof.
  intros e1 Hm He Hov.
  assert (He1def : e1 = Z.max (Zdigits2 mx + ex - 53) (-1074)) by reflexivity.
  assert (He1 : -1074 <= e1) by lia.
  set (n := e1 - ex). assert (Hn : 0 <= n) by (unfold n; lia).
  assert (Hpow : 0 < 2 ^ n) by (apply Z.pow_pos_nonneg; lia).
  (* the size of the shifted mantissa *)
  assert (Hm1 : 0 <= mx / 2 ^ n < 2 ^ 53 /\ (mx / 2 ^ n < 2 ^ 52 -> e1 = -1074)).
  { destruct (Z.eq_dec mx 0) as [->|Hm0].
    - rewrite Z.div_0_l by lia. split; [split; [lia|apply Z.pow_pos_nonneg; lia]|].
      intros _. change (Zdigits2 0) with 0 in He1def. lia.
    - pose proof (Zdigits2_bounds mx ltac:(lia)) as [Hlo Hhi].
      set (d := Zdigits2 mx) in *.
      assert (Hd : 1 <= d).
      { destruct mx; try lia. unfold d. simpl. lia. }
      assert (Hdn : d - n <= 53) by (unfold n; lia).
      split; [split|].
      + apply Z.div_pos; lia.
      + apply Z.div_lt_upper_bound; [lia|].
        apply Z.lt_le_trans with (2 ^ d); [exact Hhi|].
        rewrite <- Z.pow_add_r by lia. apply Z.pow_le_mono_r; lia.
      + intros Hsmall. destruct (Z.eq_dec e1 (-1074)) as [|Hne]; [assumption|exfalso].
        assert (Hnorm : e1 = d + ex - 53) by lia.
        assert (Hd53 : d - 1 = 52 + n) by (unfold n; lia).
        assert (2 ^ 52 <= mx / 2 ^ n); [|lia].
        apply Z.div_le_lower_bound; [lia|].
        rewrite Z.mul_comm, <- Z.pow_add_r by lia. rewrite <- Hd53. exact Hlo. }
  destruct Hm1 as [[Hm1lo Hm1hi] Hm1sub].
  unfold binary_round_aux, shr_fexp. fold e1. fold n.
  destruct (shr_general mx ex n lx Hm Hn) as (mrs & -> & Hmrs & Hexact).
  replace (ex + n) with e1 by (unfold n; lia).
  pose proof (round_nearest_even_bounds mrs) as [[Hrlo Hrhi] Hrexact].
  set (q := round_nearest_even (shr_m mrs) (loc_of_shr_record mrs)) in *.
  rewrite Hmrs in Hrlo, Hrhi.
  exists q. split; [lia|]. split; [lia|]. split; [exact Hm1sub|]. split.
  { intros Hl Hmod. destruct (Hexact Hl Hmod) as [Hr Hs].
    rewrite (Hrexact Hr Hs). exact Hmrs. }
  change (emax - prec) with 971.
  destruct (Z.eqb_spec q 0) as [Hq0|Hq0].
  - (* the mantissa rounds to zero *)
    rewrite Hq0. simpl Zdigits2. rewrite fexp_cases.
    assert (Hsh : Z.max (0 + e1 - 53) (-1074) - e1 <= 0) by lia.
    destruct (Z.max (0 + e1 - 53) (-1074) - e1) as [|p|p] eqn:Hs; try lia; reflexivity.
  - assert (Hqpos : 0 < q) by lia.
    destruct q as [|qp|qp] eqn:Hq; try lia.
    pose proof (digits2_pos_bounds qp) as [Hqlo Hqhi].
    simpl Zdigits2. rewrite fexp_cases.
    destruct (Z.ltb_spec (Z.pos qp) (2 ^ 53)) as [Hlt|Hge].
    + assert (Hd2 : Z.pos (digits2_pos qp) <= 53).
      { destruct (Z_le_gt_dec (Z.pos (digits2_pos qp)) 53); [assumption|].
        assert (2 ^ 53 <= 2 ^ (Z.pos (digits2_pos qp) - 1)) by (apply Z.pow_le_mono_r; lia).
        lia. }
      assert (Hsh : Z.max (Z.pos (digits2_pos qp) + e1 - 53) (-1074) - e1 <= 0) by lia.
      destruct (Z.max (Z.pos (digits2_pos qp) + e1 - 53) (-1074) - e1) as [|p|p] eqn:Hs;
        try lia; simpl shr; cbv beta iota; simpl shr_m;
        (replace (e1 <=? 971) with true by (symmetry; apply Z.leb_le; lia)); reflexivity.
    + assert (Hq53 : qp = (2 ^ 53)%positive) by lia. subst qp.
      change (Z.pos (digits2_pos (2 ^ 53))) with 54.
      replace (Z.max (54 + e1 - 53) (-1074) - e1) with 1 by lia.
      simpl shr. cbv beta iota. simpl shr_m.
      replace (e1 + 1 <=? 971) with true by (symmetry; apply Z.leb_le; lia). reflexivity.
Qed.

(** Rounding keeps a value between two integers below 2 ** 53 between
    them: the integers are on the grid of the result. *)
Lemma round_within (mx ex : Z) (lx : location) (A B : Z) :
  0 <= mx -> ex <= fexp prec emax (Zdigits2 mx + ex) -> ex <= 0 ->
  0 <= A -> 0 < B < 2 ^ 53 ->
  A * 2 ^ (- ex) <= mx -> mx <= B * 2 ^ (- ex) ->
  (lx <> loc_Exact -> mx < B * 2 ^ (- ex)) ->
  within A B (binary_round_aux prec emax false mx ex lx).
Proof.
  intros Hm He Hex HA HB Hlo Hhi Hstrict.
  assert (Hpx : 0 < 2 ^ (- ex)) by (apply Z.pow_pos_nonneg; lia).
  assert (He1def : fexp prec emax (Zdigits2 mx + ex) = Z.max (Zdigits2 mx + ex - 53) (-1074))
    by reflexivity.
  assert (He10 : fexp prec emax (Zdigits2 mx + ex) <= 0).
  { destruct (Z.eq_dec mx 0) as [->|Hm0]; [change (Zdigits2 0) with 0 in *; lia|].
    pose proof (Zdigits2_bounds mx ltac:(lia)) as [Hdlo _].
    set (d := Zdigits2 mx) in *.
    destruct (Z_le_gt_dec (d + ex) 53); [lia|exfalso].
    assert (2 ^ (53 - ex) <= 2 ^ (d - 1)) by (apply Z.pow_le_mono_r; lia).
    assert (B * 2 ^ (- ex) < 2 ^ 53 * 2 ^ (- ex)) by (apply Z.mul_lt_mono_pos_r; lia).
    rewrite <- Z.pow_add_r in * by lia.
    replace (53 + - ex) with (53 - ex) in * by lia. lia. }
  destruct (binary_round_aux_general mx ex lx Hm He ltac:(lia))
    as (q & [Hqlo Hqhi] & Hq53 & Hsub & Hexact & ->).
  set (e1 := fexp prec emax (Zdigits2 mx + ex)) in *.
  set (n := e1 - ex) in *.
  assert (Hn : 0 <= n) by (unfold n; lia).
  assert (Hpn : 0 < 2 ^ n) by (apply Z.pow_pos_nonneg; lia).
  assert (Hp1 : 0 < 2 ^ (- e1)) by (apply Z.pow_pos_nonneg; lia).
  assert (Hsplit : 2 ^ (- ex) = 2 ^ (- e1) * 2 ^ n).
  { rewrite <- Z.pow_add_r by lia. f_equal. unfold n. lia. }
  rewrite Hsplit in Hlo, Hhi, Hstrict.
  assert (Hm1lo : A * 2 ^ (- e1) <= mx / 2 ^ n).
  { apply Z.div_le_lower_bound; [lia|]. lia. }
  assert (Hm1hi : mx / 2 ^ n <= B * 2 ^ (- e1)).
  { apply Z.div_le_upper_bound; [lia|]. lia. }
  assert (Hqup : q <= B * 2 ^ (- e1)).
  { destruct (Z.eq_dec (mx / 2 ^ n) (B * 2 ^ (- e1))) as [Heq|Hne]; [|lia].
    pose proof (Z.div_mod mx (2 ^ n) ltac:(lia)) as Hdm.
    pose proof (Z.mod_pos_bound mx (2 ^ n) Hpn) as Hmb.
    assert (Hmod0 : mx mod 2 ^ n = 0) by nia.
    assert (Hmx : mx = B * (2 ^ (- e1) * 2 ^ n)) by nia.
    assert (Hl : lx = loc_Exact).
    { destruct lx as [|c]; [reflexivity|]. exfalso.
      assert (mx < B * (2 ^ (- e1) * 2 ^ n)) by (apply Hstrict; discriminate). lia. }
    rewrite (Hexact Hl Hmod0). lia. }
  assert (Hqdown : A * 2 ^ (- e1) <= q) by lia.
  destruct (Z.eqb_spec q 0) as [Hq0|Hq0].
  - simpl. nia.
  - destruct (Z.ltb_spec q (2 ^ 53)) as [Hlt|Hge].
    + assert (Hqpos : 0 < q) by lia.
      destruct q as [|qp|qp]; try lia. simpl Z.to_pos. cbn [within].
      pose proof (digits2_pos_bounds qp) as [Hdlo Hdhi].
      assert (Hd2 : Z.pos (digits2_pos qp) <= 53).
      { destruct (Z_le_gt_dec (Z.pos (digits2_pos qp)) 53); [assumption|].
        assert (2 ^ 53 <= 2 ^ (Z.pos (digits2_pos qp) - 1)) by (apply Z.pow_le_mono_r; lia).
        lia. }
      split; [unfold e1 in *; lia|]. split; [exact Hd2|]. split; [|lia].
      destruct (Z_lt_le_dec (Z.pos qp) (2 ^ 52)) as [Hsmall|Hbig].
      * right. apply Hsub. lia.
      * left. apply digits2_pos_unique. simpl. lia.
    + assert (Hq : q = 2 ^ 53) by lia.
      assert (He1neg : e1 <= -1).
      { destruct (Z_le_gt_dec e1 (-1)); [assumption|exfalso].
        assert (e1 = 0) by lia.
        replace (- e1) with 0 in Hqup by lia. simpl in Hqup. lia. }
      assert (Hhalf : 2 ^ (- e1) = 2 * 2 ^ (- (e1 + 1))).
      { replace (- e1) with (1 + - (e1 + 1)) by lia. rewrite Z.pow_add_r by lia. reflexivity. }
      cbn [within]. change (Z.pos (2 ^ 52)) with (2 ^ 52).
      change (Z.pos (digits2_pos (2 ^ 52))) with 53.
      rewrite Hq in *. change (2 ^ 53) with (2 * 2 ^ 52) in Hqup, Hqdown.
      split; [unfold e1 in *; lia|]. split; [lia|]. split; [left; reflexivity|]. lia.
Qed.

(** Canonical numbers compare as their values do. *)
Lemma SFleb_canonical (m1 m2 : positive) (e1 e2 : Z) :
  -1074 <= e1 <= 0 -> -1074 <= e2 <= 0 ->
  Z.pos (digits2_pos m1) = 53 \/ e1 = -1074 ->
  Z.pos (digits2_pos m2) <= 53 ->
  Z.pos m1 * 2 ^ (- e2) <= Z.pos m2 * 2 ^ (- e1) ->
  SFleb (S754_finite false m1 e1) (S754_finite false m2 e2) = true.
Proof.
  intros He1 He2 Hc1 Hd2 Hv. unfold SFleb, SFcompare.
  destruct (Z.compare_spec e1 e2) as [Heq|Hlt|Hgt]; [|reflexivity|exfalso].
  - subst e2. assert (Hp : 0 < 2 ^ (- e1)) by (apply Z.pow_pos_nonneg; lia).
    assert (Hle : Z.pos m1 <= Z.pos m2) by nia.
    rewrite Pos.compare_cont_spec. simpl.
    destruct (Pos.compare_spec m1 m2); try reflexivity. lia.
  - destruct Hc1 as [Hd1|Hsub]; [|lia].
    pose proof (digits2_pos_bounds m1) as [Hlo1 _]. rewrite Hd1 in Hlo1.
    pose proof (digits2_pos_bounds m2) as [_ Hhi2].
    assert (Hm2 : Z.pos m2 < 2 ^ 53).
    { eapply Z.lt_le_trans; [exact Hhi2|]. apply Z.pow_le_mono_r; lia. }
    assert (Hp1 : 0 < 2 ^ (- e1)) by (apply Z.pow_pos_nonneg; lia).
    assert (Hsplit : 2 ^ (- e2) = 2 ^ (- e1) * 2 ^ (e1 - e2)).
    { rewrite <- Z.pow_add_r by lia. f_equal. lia. }
    assert (Hstep : 2 <= 2 ^ (e1 - e2)).
    { change 2 with (2 ^ 1) at 1. apply Z.pow_le_mono_r; lia. }
    rewrite Hsplit in Hv. simpl (53 - 1) in Hlo1.
    change (2 ^ 53) with (2 * 2 ^ 52) in Hm2. nia.
Qed.

(** ** The age predicted by the reference model *)

(** An intensity between 0 and 255 is a zero or a positive number of
    value at most 255. *)
Lemma intensity_range (i : float) :
  (0 <=? i)%float = true -> (i <=? 255)%float = true ->
  (exists s, Prim2SF i = S754_zero s) \/
  exists mi ei,
    Prim2SF i = S754_finite false mi ei /\
    -1074 <= ei <= -45 /\ Z.pos (digits2_pos mi) <= 53 /\
    Z.pos mi <= 255 * 2 ^ (- ei).
Proof.
  rewrite !FloatAxioms.leb_spec.
  change (Prim2SF 0) with (S754_zero false). change (Prim2SF 255) with SF_255.
  pose proof (Prim2SF_valid i) as Hvalid.
  destruct (Prim2SF i) as [s|s| |s mi ei]; try discriminate.
  - intros _ _. left. eauto.
  - destruct s; discriminate.
  - destruct s; [discriminate|]. intros _ Hle. right. exists mi, ei.
    destruct (valid_binary_finite mi ei Hvalid) as (Hd & He & Hc).
    pose proof (digits2_pos_bounds mi) as [_ Hhi].
    assert (Hm : Z.pos mi < 2 ^ 53).
    { eapply Z.lt_le_trans; [exact Hhi|]. apply Z.pow_le_mono_r; lia. }
    destruct (SFleb_finite_inv _ _ _ _ Hle) as [Hlt|[-> Hmle]].
    + split; [reflexivity|]. split; [lia|]. split; [exact Hd|].
      assert (2 ^ 46 <= 2 ^ (- ei)) by (apply Z.pow_le_mono_r; lia).
      change (2 ^ 53) with (128 * 2 ^ 46) in Hm. lia.
    + split; [reflexivity|]. split; [lia|]. split; [exact Hd|].
      change (2 ^ (- -45)) with 35184372088832. lia.
Qed.

Lemma div_eucl_div_mod (a b : Z) : Z.div_eucl a b = (a / b, a mod b).
Proof. unfold Z.div, Z.modulo. destruct (Z.div_eucl a b). reflexivity. Qed.

Lemma new_location_exact (n k : Z) : new_location n k = loc_Exact -> k = 0.
Proof.
  unfold new_location, new_location_even, new_location_odd.
  destruct (Z.even n); destruct (Z.eqb_spec k 0); auto; discriminate.
Qed.

(** [i / 255] lies between 0 and 1. *)
Lemma SFdiv_255_within (mi : positive) (ei : Z) :
  -1074 <= ei <= -45 -> Z.pos (digits2_pos mi) <= 53 ->
  Z.pos mi <= 255 * 2 ^ (- ei) ->
  within 0 1 (SFdiv prec emax (S754_finite false mi ei) SF_255).
Proof.
  intros He Hd Hv. unfold SFdiv, SF_255, SFdiv_core_binary.
  change (Zdigits2 (Z.pos mi)) with (Z.pos (digits2_pos mi)).
  change (Zdigits2 (Z.pos 8972014882652160)) with 53.
  set (d := Z.pos (digits2_pos mi)) in *.
  assert (Hd1 : 1 <= d) by (unfold d; lia).
  rewrite fexp_cases.
  set (e' := Z.min (Z.max (d + ei - (53 + -45) - 53) (-1074)) (ei - -45)).
  assert (He' : e' = Z.max (d + ei - 61) (-1074)) by (unfold e'; lia).
  set (s := ei - -45 - e').
  assert (Hs : 0 < s) by (unfold s; lia).
  cbv zeta.
  assert (Hm' : match s with
                | 0 => Z.pos mi
                | Z.pos _ => Z.shiftl (Z.pos mi) s
                | Z.neg _ => 0
                end = Z.pos mi * 2 ^ s).
  { destruct s; try lia. apply Z.shiftl_mul_pow2. lia. }
  rewrite Hm'. set (m' := Z.pos mi * 2 ^ s).
  set (my := 8972014882652160).
  change (Z.pos 8972014882652160) with my.
  rewrite div_eucl_div_mod. simpl xorb.
  assert (Hmy : my = 255 * 2 ^ 45) by reflexivity.
  assert (Hps : 0 < 2 ^ s) by (apply Z.pow_pos_nonneg; lia).
  assert (Hpe' : 0 < 2 ^ (- e')) by (apply Z.pow_pos_nonneg; lia).
  assert (Hm'0 : 0 < m') by (unfold m'; lia).
  pose proof (Z.div_mod m' my ltac:(lia)) as Hdm.
  pose proof (Z.mod_pos_bound m' my ltac:(lia)) as Hmb.
  assert (Hq0 : 0 <= m' / my) by (apply Z.div_pos; lia).
  (* the exact quotient is at most one *)
  assert (Hbound : m' <= my * 2 ^ (- e')).
  { unfold m'. rewrite Hmy.
    replace (255 * 2 ^ 45 * 2 ^ (- e')) with (255 * 2 ^ (- ei) * 2 ^ s).
    - apply Z.mul_le_mono_nonneg_r; lia.
    - rewrite <- !Z.mul_assoc. f_equal. rewrite <- !Z.pow_add_r by lia. f_equal.
      unfold s. lia. }
  apply round_within; try lia.
  - (* the quotient has enough bits *)
    rewrite fexp_cases.
    destruct (Z_le_gt_dec (d + ei - 61) (-1074)) as [Hsub|Hnorm]; [lia|].
    assert (He'n : e' = d + ei - 61) by lia.
    assert (Hs' : s = 106 - d) by (unfold s; lia).
    pose proof (digits2_pos_bounds mi) as [Hlo _]. fold d in Hlo.
    assert (H105 : 2 ^ 105 <= m').
    { unfold m'. rewrite Hs'.
      replace 105 with ((d - 1) + (106 - d)) by lia. rewrite Z.pow_add_r by lia.
      apply Z.mul_le_mono_nonneg_r; lia. }
    assert (Hq52 : 2 ^ 52 <= m' / my).
    { apply Z.div_le_lower_bound; [lia|].
      change (2 ^ 105) with (2 ^ 52 * 2 ^ 53) in H105.
      assert (my < 2 ^ 53) by reflexivity. nia. }
    pose proof (Zdigits2_bounds (m' / my) ltac:(lia)) as [_ Hhi].
    assert (53 <= Zdigits2 (m' / my)); [|lia].
    destruct (Z_le_gt_dec 53 (Zdigits2 (m' / my))); [assumption|exfalso].
    assert (2 ^ Zdigits2 (m' / my) <= 2 ^ 52) by (apply Z.pow_le_mono_r; [lia|lia]).
    lia.
  - intros Hl.
    assert (Hr : m' mod my <> 0).
    { intros Hr0. apply Hl. unfold new_location, new_location_even, new_location_odd.
      rewrite Hr0. destruct (Z.even my); reflexivity. }
    lia.
Qed.

Lemma Zdigits2_lower (p : Z) (k : Z) : 0 <= k -> 2 ^ k <= p -> k + 1 <= Zdigits2 p.
Proof.
  intros Hk Hp.
  assert (Hp0 : 0 < p).
  { eapply Z.lt_le_trans; [|exact Hp]. apply Z.pow_pos_nonneg; lia. }
  pose proof (Zdigits2_bounds p Hp0) as [_ Hhi].
  destruct (Z_le_gt_dec (k + 1) (Zdigits2 p)); [assumption|exfalso].
  pose proof (Zdigits2_nonneg p).
  assert (2 ^ Zdigits2 p <= 2 ^ k) by (apply Z.pow_le_mono_r; lia).
  lia.
Qed.

(** [60 * x] lies between 0 and 60 when [x] lies between 0 and 1. *)
Lemma SFmul_60_within (x : spec_float) :
  within 0 1 x -> within 0 60 (SFmul prec emax SF_60 x).
Proof.
  destruct x as [s|s| |s m e]; simpl within; try contradiction.
  - intros _. simpl. lia.
  - destruct s; [contradiction|]. intros (He & Hd & Hc & Hlo & Hhi).
    unfold SF_60, SFmul. simpl xorb.
    assert (Hpe : 0 < 2 ^ (- e)) by (apply Z.pow_pos_nonneg; lia).
    pose proof (digits2_pos_bounds m) as [Hdlo _].
    set (d := Z.pos (digits2_pos m)) in *.
    assert (Hd1 : 1 <= d) by (unfold d; lia).
    assert (Hpd : 0 < 2 ^ (d - 1)) by (apply Z.pow_pos_nonneg; lia).
    rewrite Pos2Z.inj_mul.
    apply round_within; try lia.
    + rewrite fexp_cases.
      assert (52 + (d - 1) + 1 <= Zdigits2 (8444249301319680 * Z.pos m)); [|lia].
      apply Zdigits2_lower; [lia|].
      rewrite Z.pow_add_r by lia.
      assert (2 ^ 52 <= 8444249301319680) by (vm_compute; discriminate).
      nia.
    + replace (- (-47 + e)) with (47 + - e) by lia. rewrite Z.pow_add_r by lia.
      change (2 ^ 47) with 140737488355328. lia.
    + intros Hl. contradiction.
Qed.

Lemma shl_align_fst (m : positive) (e e' : Z) :
  e' <= e -> Z.pos (fst (shl_align m e e')) = Z.pos m * 2 ^ (e - e').
Proof.
  intros H. destruct (Z.eq_dec e' e) as [->|Hne].
  - rewrite shl_align_noop by lia. simpl fst. rewrite Z.sub_diag. simpl. lia.
  - destruct (shl_align_left m e e' ltac:(lia)) as (m' & -> & Hm'). exact Hm'.
Qed.

(** [x + 5] lies between 5 and 65 when [x] lies between 0 and 60. *)
Lemma SFadd_5_within (x : spec_float) :
  within 0 60 x -> within 5 65 (SFadd prec emax x SF_5).
Proof.
  destruct x as [s|s| |s m e]; simpl within; try contradiction.
  - intros _. unfold SF_5. simpl. vm_compute. intuition discriminate.
  - destruct s; [contradiction|]. intros (He & Hd & Hc & Hlo & Hhi).
    unfold SF_5, SFadd. cbv zeta.
    set (ez := Z.min e (-50)).
    rewrite !shl_align_fst by (unfold ez; lia). simpl cond_Zopp.
    assert (Hpe : 0 < 2 ^ (- e)) by (apply Z.pow_pos_nonneg; lia).
    assert (Hp1 : 0 < 2 ^ (e - ez)) by (apply Z.pow_pos_nonneg; unfold ez; lia).
    assert (Hp2 : 0 < 2 ^ (-50 - ez)) by (apply Z.pow_pos_nonneg; unfold ez; lia).
    assert (Hpz : 2 ^ (- ez) = 2 ^ 50 * 2 ^ (-50 - ez)).
    { rewrite <- Z.pow_add_r by (unfold ez; lia). f_equal. lia. }
    assert (Hpz' : 2 ^ (- ez) = 2 ^ (- e) * 2 ^ (e - ez)).
    { rewrite <- Z.pow_add_r by (unfold ez; lia). f_equal. lia. }
    change (Z.pos 5629499534213120) with (5 * 2 ^ 50).
    destruct (Z.pos m * 2 ^ (e - ez) + 5 * 2 ^ 50 * 2 ^ (-50 - ez)) as [|M|M] eqn:HM;
      [lia| |lia].
    assert (HMlo : 5 * 2 ^ (- ez) <= Z.pos M) by (rewrite Hpz; lia).
    assert (HMhi : Z.pos M <= 65 * 2 ^ (- ez)).
    { rewrite <- HM. rewrite <- Z.mul_assoc, <- Hpz.
      assert (Z.pos m * 2 ^ (e - ez) <= 60 * 2 ^ (- ez)); [|lia].
      rewrite Hpz'. rewrite Z.mul_assoc. apply Z.mul_le_mono_nonneg_r; lia. }
    assert (HdM : 53 - 50 - ez <= Zdigits2 (Z.pos M)).
    { replace (53 - 50 - ez) with (52 + (-50 - ez) + 1) by lia.
      apply Zdigits2_lower; [unfold ez; lia|].
      rewrite Z.pow_add_r by (unfold ez; lia).
      change (2 ^ 52) with (4 * 2 ^ 50). lia. }
    assert (Hfexp : ez <= fexp prec emax (Zdigits2 (Z.pos M) + ez)).
    { rewrite fexp_cases. unfold ez in *. lia. }
    unfold binary_normalize, binary_round.
    change (Z.pos (digits2_pos M)) with (Zdigits2 (Z.pos M)).
    rewrite shl_align_noop by exact Hfexp.
    apply round_within; try lia.
    intros Hl. contradiction.
Qed.

Lemma within_5_65 (x : spec_float) :
  within 5 65 x -> SFleb SF_5 x = true /\ SFleb x SF_65 = true.
Proof.
  destruct x as [s|s| |s m e]; simpl within; try contradiction; try lia.
  destruct s; [contradiction|]. intros (He & Hd & Hc & Hlo & Hhi).
  assert (Hpe : 0 < 2 ^ (- e)) by (apply Z.pow_pos_nonneg; lia).
  split; unfold SF_5, SF_65; apply SFleb_canonical; try lia; try (left; reflexivity);
    try (vm_compute; discriminate).
Qed.

(** The age predicted for an intensity between 0 and 255 lies between 5
    and 65. *)
Lemma predicted_value_range (i : float) :
  (0 <=? i)%float = true -> (i <=? 255)%float = true ->
  (5 <=? 60 * (i / 255) + 5)%float = true /\
  (60 * (i / 255) + 5 <=? 65)%float = true.
Proof.
  intros H0 H255. rewrite !FloatAxioms.leb_spec.
  rewrite add_spec, mul_spec, div_spec.
  change (Prim2SF 5) with SF_5. change (Prim2SF 65) with SF_65.
  change (Prim2SF 60) with SF_60. change (Prim2SF 255) with SF_255.
  apply within_5_65.
  assert (Hdiv : within 0 1 (SFdiv prec emax (Prim2SF i) SF_255)).
  { destruct (intensity_range i H0 H255) as [[s ->]|(mi & ei & -> & He & Hd & Hv)].
    - simpl. lia.
    - apply SFdiv_255_within; assumption. }
  apply SFadd_5_within, SFmul_60_within, Hdiv.
Qed.


Lemma loaded_image_intensity (data : string) (loaded : LoadedImage) :
  load_base64_image data = Ok loaded ->
  (0 <=? intensity (image loaded))%float = true /\
  (intensity (image loaded) <=? 255)%float = true.
Proof.
  unfold load_base64_image. intros H.
  apply bind_Ok_inv in H. destruct H as (raw & _ & H).
  apply bind_Ok_inv in H. destruct H as (payload & _ & H).
  apply bind_Ok_inv in H. destruct H as (img & Himg & H). inversion H; subst; simpl. clear H.
  revert Himg. unfold _parse_payload.
  destruct (try_except _ _ _) as [[[w h] i]|e0]; simpl; [|discriminate].
  destruct (_ || _); [discriminate|].
  destruct (0 <=? i)%float eqn:H0; simpl; [|discriminate].
  destruct (i <=? 255)%float eqn:H1; simpl; [|discriminate].
  intros Hi; inversion Hi; subst; simpl. split; assumption.
Qed.

(** X21: with the reference model, every successful response reports an
    age between 5 and 65, whatever the request, the configuration and the
    detector. *)
Theorem reference_age_range (log : float -> float) (fs : files) (payload : Py.value)
    (config_path : option string) (detector' : option BaseFaceDetector) (resp : response) :
  run_inference log fs payload config_path detector' None = Ok resp ->
  (5 <=? age_value (age resp))%float = true /\
  (age_value (age resp) <=? 65)%float = true.
Proof.
  unfold run_inference. intros H.
  apply bind_Ok_inv in H. destruct H as (config & _ & H).
  apply bind_Ok_inv in H. destruct H as (request & _ & H).
  apply bind_Ok_inv in H. destruct H as (loaded & Hl & H). apply try_except_Ok_inv in Hl.
  apply bind_Ok_inv in H. destruct H as (u & _ & H).
  apply bind_Ok_inv in H. destruct H as (detections & _ & H).
  destruct detections as [|detection [|]]; try discriminate.
  destruct (occluded detection); [discriminate|].
  cbv zeta in H. unfold _resolve_model in H. cbn [predict CalibratedLinearModel] in H.
  rewrite bind_Ok in H. apply bind_Ok_inv in H. destruct H as ([lo hi] & _ & H).
  inversion H; subst; cbn [age age_value value]. clear H.
  destruct (loaded_image_intensity _ _ Hl) as [H0 H255].
  apply predicted_value_range; assumption.
Qed.

Lemma reference_age_range_witness :
  exists resp,
    run_inference Fixtures.no_log Fixtures.test_files
      (Fixtures.dict [("image_base64", Py.PyStr Fixtures.encoded_image);
                      ("consent", Py.PyBool true)])
      None None None = Ok resp /\
    (5 <=? age_value (age resp))%float = true /\
    (age_value (age resp) <=? 65)%float = true.
Proof.
  eexists. split; [vm_compute; reflexivity|].
  apply (reference_age_range Fixtures.no_log Fixtures.test_files
           (Fixtures.dict [("image_base64", Py.PyStr Fixtures.encoded_image);
                           ("consent", Py.PyBool true)])
           None None).
  vm_compute. reflexivity.
Defined.
